(** * Parking fee calculator: a shallow embedding of [calculator.py]

    The development follows [PricingCalculator] of [src/calculator.py]:
    the rate table [RATES], the discount rule [_apply_discount] and the
    day-by-day loop of [calculate_fee].

    Conventions of the embedding.
    - A Python [float] is a binary64 number, here Rocq's primitive [float];
      [+], [*] and [/] are the IEEE operations of [PrimFloat].
    - A Python [int] is a [Z].
    - A [date] is its proleptic Gregorian ordinal (0001-01-01 is day 1), a
      [time] is the number of microseconds since midnight, a [datetime] is
      a date together with a time, compared lexicographically as Python
      does for naive datetimes.  Python's dates run from [date.min],
      0001-01-01, to [date.max], 9999-12-31: adding a [timedelta] to a date
      raises [OverflowError] when the result leaves that range, and so
      does [date_add_days] here.
    - An exception is a value [Raise e] of the error monad [result]. *)

From Stdlib Require Import ZArith List Lia Bool String Floats.
Import ListNotations.

Local Open Scope Z_scope.

(* ================================================================== *)
(** ** The error monad *)

Inductive exn : Type :=
| KeyError
| TypeError
| ValueError
| OverflowError
| OutOfFuel.

Inductive result (A : Type) : Type :=
| Ok (a : A)
| Raise (e : exn).

Arguments Ok {A} a.
Arguments Raise {A} e.

Definition bind {A B : Type} (r : result A) (k : A -> result B) : result B :=
  match r with
  | Ok a => k a
  | Raise e => Raise e
  end.

Definition rmap {A B : Type} (f : A -> B) (r : result A) : result B :=
  bind r (fun a => Ok (f a)).

Notation "x <- r ;; k" := (bind r (fun x => k))
  (at level 61, r at next level, right associativity).

(* ================================================================== *)
(** ** Python numbers: [int] to [float], true division, [round] *)

Module PyNum.

(** The integer [z] as an exact (not normalised) binary number [z * 2^0]. *)
Definition Z2SF (z : Z) : spec_float :=
  match z with
  | Z0 => S754_zero false
  | Zpos p => S754_finite false p 0
  | Zneg p => S754_finite true p 0
  end.

(** [float(z)]: the binary64 number nearest to [z], ties to even. *)
Definition float_of_int (z : Z) : float :=
  SF2Prim (binary_normalize prec emax z 0 false).

(** [a / b] on two Python ints: the correctly rounded quotient. *)
Definition int_true_div (a b : Z) : float :=
  SF2Prim (SFdiv prec emax (Z2SF a) (Z2SF b)).

(** Round-half-to-even of the rational [m * 2^e], for [0 <= m]. *)
Definition round_half_even_scaled (m e : Z) : Z :=
  if 0 <=? e then m * 2 ^ e
  else
    let d := 2 ^ (- e) in
    let q := m / d in
    let r := m mod d in
    match 2 * r ?= d with
    | Lt => q
    | Gt => q + 1
    | Eq => if Z.even q then q else q + 1
    end.

(** [round(x)] with one argument: the nearest integer, ties to even;
    [ValueError] on a NaN and [OverflowError] on an infinity. *)
Definition round (x : float) : result Z :=
  match Prim2SF x with
  | S754_zero _ => Ok 0
  | S754_finite s m e =>
      let n := round_half_even_scaled (Zpos m) e in
      Ok (if s then - n else n)
  | S754_infinity _ => Raise OverflowError
  | S754_nan => Raise ValueError
  end.

(** [round(x, 2)]: the exact value of [x] is rounded to two decimals,
    ties to even, and the decimal is converted back to the nearest
    binary64 number; zeros, infinities and NaN are returned unchanged. *)
Definition round2 (x : float) : float :=
  match Prim2SF x with
  | S754_finite s m e =>
      let n := round_half_even_scaled (Zpos m * 100) e in
      if n =? 0 then (if s then neg_zero else zero)
      else SF2Prim (SFdiv prec emax (Z2SF (if s then - n else n)) (Z2SF 100))
  | _ => x
  end.

(** Round-half-to-even of the rational [a / b] for [0 < b], on integers. *)
Definition round_half_even_div (a b : Z) : Z :=
  let q := a / b in
  let r := a mod b in
  match 2 * r ?= b with
  | Lt => q
  | Gt => q + 1
  | Eq => if Z.even q then q else q + 1
  end.

End PyNum.

(* ================================================================== *)
(** ** Python's [datetime] module, as far as the calculator uses it *)

Module PyDatetime.

(** A [date] is its ordinal, a [time] its number of microseconds since
    midnight.  The dates of Python are the ordinals from [date_min] to
    [date_max] below; a statement that needs its dates to exist says so
    in its hypotheses. *)
Definition date : Type := Z.
Definition time : Type := Z.

Definition US_PER_SECOND : Z := 1000000.
Definition US_PER_DAY : Z := 86400 * US_PER_SECOND.

(** [time(hour, minute, second, microsecond)] *)
Definition mk_time (hour minute second microsecond : Z) : time :=
  ((hour * 60 + minute) * 60 + second) * US_PER_SECOND + microsecond.

(** [time.min] and [time.max] *)
Definition time_min : time := mk_time 0 0 0 0.
Definition time_max : time := mk_time 23 59 59 999999.

Record datetime : Type := combine { dt_date : date; dt_time : time }.

(** [a <= b], [a < b] on datetimes. *)
Definition dt_leb (a b : datetime) : bool :=
  (dt_date a <? dt_date b)
  || ((dt_date a =? dt_date b) && (dt_time a <=? dt_time b)).

Definition dt_ltb (a b : datetime) : bool :=
  (dt_date a <? dt_date b)
  || ((dt_date a =? dt_date b) && (dt_time a <? dt_time b)).

(** [max(a, b)] returns [a] unless [b] is greater; [min(a, b)] returns [a]
    unless [b] is smaller. *)
Definition dt_max (a b : datetime) : datetime := if dt_ltb a b then b else a.
Definition dt_min (a b : datetime) : datetime := if dt_ltb b a then b else a.

(** [a - b], a [timedelta], as its number of microseconds. *)
Definition dt_sub (a b : datetime) : Z :=
  (dt_date a - dt_date b) * US_PER_DAY + (dt_time a - dt_time b).

(** [timedelta.total_seconds()] *)
Definition total_seconds (td : Z) : float :=
  PyNum.int_true_div td US_PER_SECOND.

(** [date.weekday()]: Monday is 0, Sunday is 6. *)
Definition weekday (d : date) : Z := (d + 6) mod 7.

(** [date(year, month, day).toordinal()] *)
Definition is_leap (year : Z) : bool :=
  (year mod 4 =? 0) && (negb (year mod 100 =? 0) || (year mod 400 =? 0)).

Definition days_before_year (year : Z) : Z :=
  let y := year - 1 in
  y * 365 + y / 4 - y / 100 + y / 400.

Definition days_before_month (year month : Z) : Z :=
  nth (Z.to_nat month) [0; 0; 31; 59; 90; 120; 151; 181; 212; 243; 273; 304; 334] 0
  + (if (2 <? month) && is_leap year then 1 else 0).

Definition mk_date (year month day : Z) : date :=
  days_before_year year + days_before_month year month + day.

(** [datetime(year, month, day, hour, minute)] *)
Definition mk_datetime (year month day hour minute : Z) : datetime :=
  combine (mk_date year month day) (mk_time hour minute 0 0).

(** [date.min] and [date.max], the ordinals 1 and 3652059: every date of
    Python lies between them. *)
Definition date_min : date := mk_date 1 1 1.
Definition date_max : date := mk_date 9999 12 31.

(** [d + timedelta(days=days)]: the ordinal [o] of the result must
    satisfy [0 < o <= date.max.toordinal()], else [OverflowError]. *)
Definition date_add_days (d : date) (days : Z) : result date :=
  let o := d + days in
  if (0 <? o) && (o <=? date_max) then Ok o else Raise OverflowError.

End PyDatetime.

Import PyDatetime.

(* ================================================================== *)
(** ** [PricingCalculator] *)

(** The value stored under ["max_stay"]: an int for the daytime slot, the
    string ["Up to midnight"] for the evening slot. *)
Inductive max_stay_value : Type :=
| MaxInt (n : Z)
| MaxStr (s : string).

(** The inner dicts of the rate table: [{"max_stay", "price_per_hour"}]
    for the two hourly slots, [{"price_one_time"}] for the flat slot. *)
Record hourly_rate : Type :=
  { max_stay : max_stay_value; price_per_hour : float }.

Record flat_rate : Type := { price_one_time : float }.

(** The dict of one weekday, with its three keys ["08:00-16:59"],
    ["17:00-23:59"] and ["00:00-07:59"]. *)
Record day_rates : Type :=
  { rate_0800_1659 : hourly_rate;
    rate_1700_2359 : hourly_rate;
    rate_0000_0759 : flat_rate }.

(** A dict with int keys, in insertion order; keys are distinct here. *)
Fixpoint dict_get {V : Type} (dict : list (Z * V)) (key : Z) : result V :=
  match dict with
  | [] => Raise KeyError
  | (k, v) :: rest => if k =? key then Ok v else dict_get rest key
  end.

(** [range(n)] *)
Definition range (n : nat) : list Z := map Z.of_nat (seq 0 n).

Definition RATES : list (Z * day_rates) :=
  (* Monday to Friday (0-4) *)
  map (fun i =>
         (i, {| rate_0800_1659 := {| max_stay := MaxInt 2; price_per_hour := 10 |};
                rate_1700_2359 := {| max_stay := MaxStr "Up to midnight";
                                     price_per_hour := 5 |};
                rate_0000_0759 := {| price_one_time := 20 |} |}))
      (range 5)
  ++ [ (* Saturday (5) *)
       (5, {| rate_0800_1659 := {| max_stay := MaxInt 4; price_per_hour := 3 |};
              rate_1700_2359 := {| max_stay := MaxStr "Up to midnight";
                                   price_per_hour := 5 |};
              rate_0000_0759 := {| price_one_time := 20 |} |});
       (* Sunday (6) *)
       (6, {| rate_0800_1659 := {| max_stay := MaxInt 8; price_per_hour := 2 |};
              rate_1700_2359 := {| max_stay := MaxStr "Up to midnight";
                                   price_per_hour := 5 |};
              rate_0000_0759 := {| price_one_time := 20 |} |}) ].

(** The float literals [0.5] and [0.9]; the second is not a binary64
    number and denotes the nearest one. *)
Definition half : float := 0.5%float.
Definition nine_tenths : float := 0x1.ccccccccccccdp-1%float.

(** [_apply_discount(price, current_time)] *)
Definition _apply_discount (is_frequent_parker : bool) (price : float)
    (current_time : datetime) : float :=
  if negb is_frequent_parker then price
  else if (mk_time 17 0 0 0 <=? dt_time current_time)
          || (dt_time current_time <? mk_time 8 0 0 0)
       then (price * half)%float
       else (price * nine_tenths)%float.

(** The three slots and the clock times that bound them in
    [calculate_fee]: [time(0, 0)]..[time(7, 59)], [time(8, 0)]..
    [time(16, 59)] and [time(17, 0)]..[time(23, 59, 59)]. *)
Inductive slot : Type := Slot1 | Slot2 | Slot3.

Definition slot_start (s : slot) : time :=
  match s with
  | Slot1 => mk_time 0 0 0 0
  | Slot2 => mk_time 8 0 0 0
  | Slot3 => mk_time 17 0 0 0
  end.

Definition slot_end (s : slot) : time :=
  match s with
  | Slot1 => mk_time 7 59 0 0
  | Slot2 => mk_time 16 59 0 0
  | Slot3 => mk_time 23 59 59 0
  end.

(** [round((overlap_end - overlap_start).total_seconds() / 3600)] *)
Definition hours_between (overlap_start overlap_end : datetime) : result Z :=
  PyNum.round (total_seconds (dt_sub overlap_end overlap_start) / 3600)%float.

Section OneDay.

Variable is_frequent_parker : bool.
Variable current_day : date.
Variable rates_for_day : day_rates.
Variables day_start_dt day_end_dt : datetime.

(** Slot 1: 00:00 - 07:59 (flat fee).  The amount added to [total_fee],
    if any. *)
Definition slot1_fee : option float :=
  let slot1_start := slot_start Slot1 in
  let slot1_end := slot_end Slot1 in
  if Z.max (dt_time day_start_dt) slot1_start
     <=? Z.min (dt_time day_end_dt) slot1_end
  then
    let fee := price_one_time (rate_0000_0759 rates_for_day) in
    Some (_apply_discount is_frequent_parker fee
            (combine current_day (mk_time 1 0 0 0)))
  else None.

(** Slot 2: 08:00 - 16:59 (hourly rate, doubled beyond [max_stay]). *)
Definition slot2_fee : result (option float) :=
  let slot2_start_dt := combine current_day (slot_start Slot2) in
  let slot2_end_dt := combine current_day (slot_end Slot2) in
  let overlap_start := dt_max day_start_dt slot2_start_dt in
  let overlap_end := dt_min day_end_dt slot2_end_dt in
  if dt_ltb overlap_start overlap_end then
    hours_in_slot <- hours_between overlap_start overlap_end ;;
    if 0 <? hours_in_slot then
      let rate_info := rate_0800_1659 rates_for_day in
      let price_per_hour := price_per_hour rate_info in
      fee <- match max_stay rate_info with
             | MaxInt max_stay =>
                 if hours_in_slot <=? max_stay then
                   Ok (PyNum.float_of_int hours_in_slot * price_per_hour)%float
                 else
                   Ok (PyNum.float_of_int max_stay * price_per_hour
                       + PyNum.float_of_int (hours_in_slot - max_stay)
                         * price_per_hour * 2)%float
             | MaxStr _ => Raise TypeError
             end ;;
      Ok (Some (_apply_discount is_frequent_parker fee slot2_start_dt))
    else Ok None
  else Ok None.

(** Slot 3: 17:00 - 23:59 (hourly rate, no cap). *)
Definition slot3_fee : result (option float) :=
  let slot3_start_dt := combine current_day (slot_start Slot3) in
  let slot3_end_dt := combine current_day (slot_end Slot3) in
  let overlap_start := dt_max day_start_dt slot3_start_dt in
  let overlap_end := dt_min day_end_dt slot3_end_dt in
  if dt_ltb overlap_start overlap_end then
    hours_in_slot <- hours_between overlap_start overlap_end ;;
    if 0 <? hours_in_slot then
      let rate_info := rate_1700_2359 rates_for_day in
      let price_per_hour := price_per_hour rate_info in
      let fee := (PyNum.float_of_int hours_in_slot * price_per_hour)%float in
      Ok (Some (_apply_discount is_frequent_parker fee slot3_start_dt))
    else Ok None
  else Ok None.

End OneDay.

(** The state of the loop: the accumulator [total_fee], and a ledger
    (a history variable, not in the source) that records every amount
    added to it, with the day and slot it was added for. *)
Record charge : Type := { c_day : date; c_slot : slot; c_fee : float }.

Record acc : Type := { total_fee : float; ledger : list charge }.

(** [total_fee += fee] *)
Definition post (st : acc) (c : charge) : acc :=
  {| total_fee := (total_fee st + c_fee c)%float;
     ledger := ledger st ++ [c] |}.

(** The same under the [if] of a slot: nothing is added when the slot
    does not charge. *)
Definition bill (st : acc) (d : date) (s : slot) (fee : option float) : acc :=
  match fee with
  | Some f => post st {| c_day := d; c_slot := s; c_fee := f |}
  | None => st
  end.

Section CalculateFee.

Variable is_frequent_parker : bool.
Variables arrival_dt leave_dt : datetime.

(** The portion of [current_day] occupied by the stay. *)
Definition day_start (current_day : date) : datetime :=
  dt_max arrival_dt (combine current_day time_min).

Definition day_end (current_day : date) : datetime :=
  dt_min leave_dt (combine current_day time_max).

(** One iteration of the [while] loop. *)
Definition day_body (current_day : date) (st : acc) : result acc :=
  let day_of_week := weekday current_day in
  rates_for_day <- dict_get RATES day_of_week ;;
  let day_start_dt := day_start current_day in
  let day_end_dt := day_end current_day in
  let st :=
    bill st current_day Slot1
      (slot1_fee is_frequent_parker current_day rates_for_day
         day_start_dt day_end_dt) in
  fee2 <- slot2_fee is_frequent_parker current_day rates_for_day
            day_start_dt day_end_dt ;;
  let st := bill st current_day Slot2 fee2 in
  fee3 <- slot3_fee is_frequent_parker current_day rates_for_day
            day_start_dt day_end_dt ;;
  let st := bill st current_day Slot3 fee3 in
  Ok st.

(** [while current_day <= leave_dt.date(): ...;
    current_day += timedelta(days=1)].  The increment closes every
    iteration, the last one too: it raises [OverflowError] when
    [current_day] is [date.max]. *)
Fixpoint while_days (fuel : nat) (current_day : date) (st : acc) : result acc :=
  if current_day <=? dt_date leave_dt then
    match fuel with
    | O => Raise OutOfFuel
    | S fuel' =>
        st' <- day_body current_day st ;;
        next_day <- date_add_days current_day 1 ;;
        while_days fuel' next_day st'
    end
  else Ok st.

(** The loop from [arrival_dt.date()] with [total_fee = 0.0]; the fuel is
    the number of days from the arrival date to the leave date. *)
Definition run : result acc :=
  while_days (Z.to_nat (dt_date leave_dt - dt_date arrival_dt + 1))
    (dt_date arrival_dt) {| total_fee := 0; ledger := [] |}.

(** [calculate_fee(arrival_dt, leave_dt)] *)
Definition calculate_fee : result float :=
  st <- run ;; Ok (PyNum.round2 (total_fee st)).

(** The amounts added to [total_fee], in order. *)
Definition charges : result (list charge) :=
  st <- run ;; Ok (ledger st).

End CalculateFee.


(* ================================================================== *)
(** ** The rate table *)

Definition weekday_rates : day_rates :=
  {| rate_0800_1659 := {| max_stay := MaxInt 2; price_per_hour := 10 |};
     rate_1700_2359 := {| max_stay := MaxStr "Up to midnight"; price_per_hour := 5 |};
     rate_0000_0759 := {| price_one_time := 20 |} |}.

Definition saturday_rates : day_rates :=
  {| rate_0800_1659 := {| max_stay := MaxInt 4; price_per_hour := 3 |};
     rate_1700_2359 := {| max_stay := MaxStr "Up to midnight"; price_per_hour := 5 |};
     rate_0000_0759 := {| price_one_time := 20 |} |}.

Definition sunday_rates : day_rates :=
  {| rate_0800_1659 := {| max_stay := MaxInt 8; price_per_hour := 2 |};
     rate_1700_2359 := {| max_stay := MaxStr "Up to midnight"; price_per_hour := 5 |};
     rate_0000_0759 := {| price_one_time := 20 |} |}.

(** The rates of a weekday number, as a function. *)
Definition rates_of (day_of_week : Z) : day_rates :=
  if day_of_week <=? 4 then weekday_rates
  else if day_of_week =? 5 then saturday_rates
  else sunday_rates.

Lemma weekday_bounds (d : date) : 0 <= weekday d < 7.
Proof. unfold weekday. apply Z.mod_pos_bound. lia. Qed.

Lemma weekday_succ (d : date) :
  weekday (d + 1) = if weekday d =? 6 then 0 else weekday d + 1.
Proof.
  unfold weekday.
  destruct (Z.eqb_spec ((d + 6) mod 7) 6) as [E | E];
    pose proof (Z.mod_pos_bound (d + 6) 7 ltac:(lia));
    pose proof (Z.div_mod (d + 6) 7 ltac:(lia));
    pose proof (Z.mod_pos_bound (d + 1 + 6) 7 ltac:(lia));
    pose proof (Z.div_mod (d + 1 + 6) 7 ltac:(lia)); lia.
Qed.

Lemma RATES_lookup (w : Z) :
  0 <= w < 7 -> dict_get RATES w = Ok (rates_of w).
Proof.
  intros H.
  assert (w = 0 \/ w = 1 \/ w = 2 \/ w = 3 \/ w = 4 \/ w = 5 \/ w = 6) as E by lia.
  repeat (destruct E as [-> | E]; [reflexivity | ]). subst w. reflexivity.
Qed.

Lemma RATES_weekday (d : date) :
  dict_get RATES (weekday d) = Ok (rates_of (weekday d)).
Proof. apply RATES_lookup, weekday_bounds. Qed.

Lemma rates_of_flat (w : Z) : price_one_time (rate_0000_0759 (rates_of w)) = 20%float.
Proof. unfold rates_of. destruct (w <=? 4), (w =? 5); reflexivity. Qed.

Lemma rates_of_evening (w : Z) : price_per_hour (rate_1700_2359 (rates_of w)) = 5%float.
Proof. unfold rates_of. destruct (w <=? 4), (w =? 5); reflexivity. Qed.

Lemma rates_of_daytime (w : Z) :
  exists m, max_stay (rate_0800_1659 (rates_of w)) = MaxInt m /\ 2 <= m.
Proof.
  unfold rates_of. destruct (w <=? 4), (w =? 5); cbn; eexists; split;
    try reflexivity; lia.
Qed.

(** C2. The rate table that [calculate_fee] looks up by weekday holds
    exactly seven entries, for the weekday numbers 0 to 6: Monday to
    Friday with flat 20.00, 10.00 per hour capped at 2 hours, and 5.00 per
    hour in the evening; Saturday with 3.00 per hour capped at 4 hours in
    the middle slot; Sunday with 2.00 per hour capped at 8 hours; the flat
    fee and the evening rate are the same on all seven days, and the
    lookup of any date's weekday succeeds. *)
Theorem rate_table_exact :
  map fst RATES = [0; 1; 2; 3; 4; 5; 6]
  /\ dict_get RATES 0 = Ok weekday_rates
  /\ dict_get RATES 1 = Ok weekday_rates
  /\ dict_get RATES 2 = Ok weekday_rates
  /\ dict_get RATES 3 = Ok weekday_rates
  /\ dict_get RATES 4 = Ok weekday_rates
  /\ dict_get RATES 5 = Ok saturday_rates
  /\ dict_get RATES 6 = Ok sunday_rates
  /\ map (fun e => price_one_time (rate_0000_0759 (snd e))) RATES
     = repeat 20%float 7
  /\ map (fun e => rate_1700_2359 (snd e)) RATES
     = repeat {| max_stay := MaxStr "Up to midnight"; price_per_hour := 5 |} 7
  /\ (forall d : date, exists r, dict_get RATES (weekday d) = Ok r
                                 /\ In (weekday d, r) RATES).
Proof.
  repeat (split; [reflexivity | ]).
  intros d. exists (rates_of (weekday d)). split; [apply RATES_weekday | ].
  pose proof (weekday_bounds d) as H.
  assert (weekday d = 0 \/ weekday d = 1 \/ weekday d = 2 \/ weekday d = 3
          \/ weekday d = 4 \/ weekday d = 5 \/ weekday d = 6) as E by lia.
  repeat (destruct E as [-> | E]; [cbn; tauto | ]). rewrite E. cbn; tauto.
Qed.

(* ================================================================== *)
(** ** The loop and its ledger *)

Definition post_all (st : acc) (cs : list charge) : acc := fold_left post cs st.

(** The float sum of the fees of a list of charges, left to right from
    [t]. *)
Definition sum_from (t : float) (cs : list charge) : float :=
  fold_left (fun t c => (t + c_fee c)%float) cs t.

Definition opt_charge (d : date) (s : slot) (fee : option float) : list charge :=
  match fee with
  | Some f => [ {| c_day := d; c_slot := s; c_fee := f |} ]
  | None => []
  end.

(** The charges that one iteration of the loop adds. *)
Definition day_charges (is_frequent_parker : bool) (arrival_dt leave_dt : datetime)
    (current_day : date) : result (list charge) :=
  st <- day_body is_frequent_parker arrival_dt leave_dt current_day
          {| total_fee := 0; ledger := [] |} ;;
  Ok (ledger st).

(** [n] consecutive dates from [d]. *)
Fixpoint days_from (d : date) (n : nat) : list date :=
  match n with
  | O => []
  | S n' => d :: days_from (d + 1) n'
  end.

(** The calendar days the loop visits. *)
Definition stay_days (arrival_dt leave_dt : datetime) : list date :=
  days_from (dt_date arrival_dt)
    (Z.to_nat (dt_date leave_dt - dt_date arrival_dt + 1)).

Lemma ledger_post_all (cs : list charge) :
  forall st, ledger (post_all st cs) = ledger st ++ cs.
Proof.
  induction cs as [ | c cs IH]; intros st; cbn.
  - now rewrite app_nil_r.
  - unfold post_all in IH. rewrite IH. cbn. now rewrite <- app_assoc.
Qed.

Lemma total_fee_post_all (cs : list charge) :
  forall st, total_fee (post_all st cs) = sum_from (total_fee st) cs.
Proof.
  induction cs as [ | c cs IH]; intros st; cbn; [reflexivity | ].
  unfold post_all in IH. now rewrite IH.
Qed.

Lemma post_all_app (st : acc) (xs ys : list charge) :
  post_all st (xs ++ ys) = post_all (post_all st xs) ys.
Proof. apply fold_left_app. Qed.

Lemma post_all_fields (st : acc) (cs : list charge) :
  post_all st cs
  = {| total_fee := sum_from (total_fee st) cs; ledger := ledger st ++ cs |}.
Proof.
  rewrite <- total_fee_post_all, <- ledger_post_all.
  now destruct (post_all st cs).
Qed.

Lemma bill_post_all (st : acc) (d : date) (s : slot) (fee : option float) :
  bill st d s fee = post_all st (opt_charge d s fee).
Proof. destruct fee; reflexivity. Qed.

Lemma date_min_eq : date_min = 1.
Proof. reflexivity. Qed.

Lemma date_max_eq : date_max = 3652059.
Proof. reflexivity. Qed.

Lemma date_add_days_next (d : date) :
  date_min <= d -> d < date_max -> date_add_days d 1 = Ok (d + 1).
Proof.
  rewrite date_min_eq. intros Hmin Hmax. unfold date_add_days. cbv zeta.
  destruct (Z.ltb_spec 0 (d + 1)); [ | lia].
  destruct (Z.leb_spec (d + 1) date_max); [reflexivity | lia].
Qed.

Lemma date_add_days_overflow (d : date) :
  date_max <= d -> date_add_days d 1 = Raise OverflowError.
Proof.
  intros Hmax. unfold date_add_days. cbv zeta.
  destruct (Z.leb_spec (d + 1) date_max); [lia | ].
  now rewrite andb_false_r.
Qed.

Section Loop.

Variable fp : bool.
Variables a l : datetime.

Lemma day_body_unfold (d : date) (st : acc) :
  day_body fp a l d st =
  (r <- dict_get RATES (weekday d) ;;
   f2 <- slot2_fee fp d r (day_start a d) (day_end l d) ;;
   f3 <- slot3_fee fp d r (day_start a d) (day_end l d) ;;
   Ok (post_all st
         (opt_charge d Slot1 (slot1_fee fp d r (day_start a d) (day_end l d))
          ++ opt_charge d Slot2 f2 ++ opt_charge d Slot3 f3))).
Proof.
  unfold day_body. destruct (dict_get RATES (weekday d)) as [r | e]; cbn; [ | reflexivity].
  destruct (slot2_fee fp d r (day_start a d) (day_end l d)) as [f2 | e]; cbn; [ | reflexivity].
  destruct (slot3_fee fp d r (day_start a d) (day_end l d)) as [f3 | e]; cbn; [ | reflexivity].
  now rewrite !bill_post_all, !post_all_app.
Qed.

Lemma day_charges_unfold (d : date) :
  day_charges fp a l d =
  (r <- dict_get RATES (weekday d) ;;
   f2 <- slot2_fee fp d r (day_start a d) (day_end l d) ;;
   f3 <- slot3_fee fp d r (day_start a d) (day_end l d) ;;
   Ok (opt_charge d Slot1 (slot1_fee fp d r (day_start a d) (day_end l d))
       ++ opt_charge d Slot2 f2 ++ opt_charge d Slot3 f3)).
Proof.
  unfold day_charges. rewrite day_body_unfold.
  destruct (dict_get RATES (weekday d)) as [r | e]; cbn; [ | reflexivity].
  destruct (slot2_fee fp d r (day_start a d) (day_end l d)) as [f2 | e]; cbn; [ | reflexivity].
  destruct (slot3_fee fp d r (day_start a d) (day_end l d)) as [f3 | e]; cbn; [ | reflexivity].
  now rewrite ledger_post_all.
Qed.

Lemma day_body_charges (d : date) (st : acc) :
  day_body fp a l d st = (cs <- day_charges fp a l d ;; Ok (post_all st cs)).
Proof.
  rewrite day_body_unfold, day_charges_unfold.
  destruct (dict_get RATES (weekday d)) as [r | e]; cbn; [ | reflexivity].
  destruct (slot2_fee fp d r (day_start a d) (day_end l d)) as [f2 | e]; cbn; [ | reflexivity].
  destruct (slot3_fee fp d r (day_start a d) (day_end l d)) as [f3 | e]; reflexivity.
Qed.

(** The loop never runs out of the fuel [run] gives it, and posts the
    charges of the visited days in order. *)
Lemma while_days_spec (cs : date -> list charge) :
  forall (fuel : nat) (d : date) (st : acc),
    (forall d', d <= d' <= dt_date l -> day_charges fp a l d' = Ok (cs d')) ->
    dt_date l - d + 1 <= Z.of_nat fuel ->
    date_min <= d -> dt_date l < date_max ->
    while_days fp a l fuel d st
    = Ok (post_all st (flat_map cs (days_from d (Z.to_nat (dt_date l - d + 1))))).
Proof.
  induction fuel as [ | fuel IH]; intros d st Hcs Hfuel Hmin Hmax; cbn [while_days].
  - destruct (Z.leb_spec d (dt_date l)); [lia | ].
    replace (Z.to_nat (dt_date l - d + 1)) with O by lia. reflexivity.
  - destruct (Z.leb_spec d (dt_date l)) as [Hle | Hgt].
    + rewrite day_body_charges, (Hcs d) by lia. cbn [bind].
      rewrite date_add_days_next by lia. cbn [bind].
      rewrite IH by (try (intros; apply Hcs); lia).
      replace (Z.to_nat (dt_date l - d + 1))
        with (S (Z.to_nat (dt_date l - (d + 1) + 1))) by lia.
      cbn [days_from flat_map]. now rewrite post_all_app.
    + replace (Z.to_nat (dt_date l - d + 1)) with O by lia. reflexivity.
Qed.

(** When the leave date is [date.max] and the loop is entered, the
    increment after the iteration of the last day raises. *)
Lemma while_days_overflow (cs : date -> list charge) :
  forall (fuel : nat) (d : date) (st : acc),
    (forall d', d <= d' <= dt_date l -> day_charges fp a l d' = Ok (cs d')) ->
    dt_date l - d + 1 <= Z.of_nat fuel ->
    date_min <= d <= dt_date l -> dt_date l = date_max ->
    while_days fp a l fuel d st = Raise OverflowError.
Proof.
  induction fuel as [ | fuel IH]; intros d st Hcs Hfuel Hd Hmax; cbn [while_days];
    destruct (Z.leb_spec d (dt_date l)) as [Hle | Hgt]; try lia.
  rewrite day_body_charges, (Hcs d) by lia. cbn [bind].
  destruct (Z.eq_dec d date_max) as [E | E].
  - rewrite date_add_days_overflow by lia. reflexivity.
  - rewrite date_add_days_next by lia. cbn [bind].
    apply IH; try lia. intros; apply Hcs; lia.
Qed.

Section InCalendar.

(** The arrival date is a date, and the leave date is before [date.max]. *)
Hypothesis Hmin : date_min <= dt_date a.
Hypothesis Hmax : dt_date l < date_max.

Lemma run_spec (cs : date -> list charge) :
  (forall d, dt_date a <= d <= dt_date l -> day_charges fp a l d = Ok (cs d)) ->
  run fp a l
  = Ok (post_all {| total_fee := 0; ledger := [] |} (flat_map cs (stay_days a l))).
Proof.
  intros Hcs. unfold run, stay_days.
  apply while_days_spec; [exact Hcs | lia | exact Hmin | exact Hmax].
Qed.

Lemma charges_spec (cs : date -> list charge) :
  (forall d, dt_date a <= d <= dt_date l -> day_charges fp a l d = Ok (cs d)) ->
  charges fp a l = Ok (flat_map cs (stay_days a l)).
Proof.
  intros Hcs. unfold charges. rewrite (run_spec cs Hcs). cbn [bind].
  now rewrite ledger_post_all.
Qed.

Lemma calculate_fee_spec (cs : date -> list charge) :
  (forall d, dt_date a <= d <= dt_date l -> day_charges fp a l d = Ok (cs d)) ->
  calculate_fee fp a l
  = Ok (PyNum.round2 (sum_from 0 (flat_map cs (stay_days a l)))).
Proof.
  intros Hcs. unfold calculate_fee. rewrite (run_spec cs Hcs). cbn [bind].
  now rewrite total_fee_post_all.
Qed.

End InCalendar.

Lemma run_overflow (cs : date -> list charge) :
  (forall d, dt_date a <= d <= dt_date l -> day_charges fp a l d = Ok (cs d)) ->
  date_min <= dt_date a <= dt_date l -> dt_date l = date_max ->
  run fp a l = Raise OverflowError.
Proof.
  intros Hcs Hd Hmax. unfold run.
  apply (while_days_overflow cs); [exact Hcs | lia | exact Hd | exact Hmax].
Qed.

(** A leave date before the arrival date: the loop body never runs. *)
Lemma run_no_day :
  dt_date l < dt_date a -> run fp a l = Ok {| total_fee := 0; ledger := [] |}.
Proof.
  intros Hlt. unfold run.
  replace (Z.to_nat (dt_date l - dt_date a + 1)) with O by lia.
  cbn [while_days]. destruct (Z.leb_spec (dt_date a) (dt_date l)); [lia | reflexivity].
Qed.

End Loop.

(** ** Stays of one calendar day *)

Lemma stay_days_same_day (d : date) (ta tl : time) :
  stay_days (combine d ta) (combine d tl) = [d].
Proof.
  unfold stay_days. cbn [dt_date].
  replace (Z.to_nat (d - d + 1)) with 1%nat by lia. reflexivity.
Qed.

Lemma same_day_spec (fp : bool) (d : date) (ta tl : time) (cs : list charge) :
  date_min <= d -> d < date_max ->
  day_charges fp (combine d ta) (combine d tl) d = Ok cs ->
  charges fp (combine d ta) (combine d tl) = Ok cs
  /\ calculate_fee fp (combine d ta) (combine d tl)
     = Ok (PyNum.round2 (sum_from 0 cs)).
Proof.
  intros Hmin Hmax H.
  assert (forall d', dt_date (combine d ta) <= d' <= dt_date (combine d tl) ->
                     day_charges fp (combine d ta) (combine d tl) d'
                     = Ok ((fun _ => cs) d')) as Hcs.
  { intros d' Hd'. cbn [dt_date] in Hd'. now replace d' with d by lia. }
  rewrite (charges_spec fp (combine d ta) (combine d tl) Hmin Hmax _ Hcs),
    (calculate_fee_spec fp (combine d ta) (combine d tl) Hmin Hmax _ Hcs).
  rewrite stay_days_same_day. cbn [flat_map]. now rewrite app_nil_r.
Qed.


(* ================================================================== *)
(** ** Comparisons of datetimes *)

(** Case analysis on every integer comparison of the goal; the cases the
    context contradicts are closed by [lia]. *)
Ltac clock :=
  cbv [slot_start slot_end mk_time time_min time_max US_PER_SECOND US_PER_DAY] in *.

Ltac no_if t :=
  lazymatch t with
  | context [if _ then _ else _] => fail
  | _ => idtac
  end.

Ltac zcases :=
  repeat (cbn [dt_date dt_time andb orb negb] in *;
          match goal with
          | |- context [?x <? ?y] =>
              no_if x; no_if y; destruct (Z.ltb_spec x y); try lia
          | |- context [?x <=? ?y] =>
              no_if x; no_if y; destruct (Z.leb_spec x y); try lia
          | |- context [?x =? ?y] =>
              no_if x; no_if y; destruct (Z.eqb_spec x y); try lia
          end);
  cbn [dt_date dt_time andb orb negb] in *.

Ltac dt_cases :=
  unfold day_start, day_end, dt_max, dt_min, dt_ltb, dt_leb in *; clock; zcases.

Lemma day_start_idem (a : datetime) (d : date) :
  day_start (day_start a d) d = day_start a d.
Proof. dt_cases; reflexivity. Qed.

Lemma day_end_idem (l : datetime) (d : date) :
  day_end (day_end l d) d = day_end l d.
Proof. dt_cases; reflexivity. Qed.

Lemma day_start_date (a : datetime) (d : date) :
  dt_date a <= d -> dt_date (day_start a d) = d.
Proof. intros H. dt_cases; cbn; lia. Qed.

Lemma day_end_date (l : datetime) (d : date) :
  d <= dt_date l -> dt_date (day_end l d) = d.
Proof. intros H. dt_cases; cbn; lia. Qed.

(* ================================================================== *)
(** ** The discount *)

Lemma discount_flat (fp : bool) (price : float) (d : date) :
  _apply_discount fp price (combine d (mk_time 1 0 0 0))
  = if fp then (price * half)%float else price.
Proof. destruct fp; reflexivity. Qed.

Lemma discount_daytime (fp : bool) (price : float) (d : date) :
  _apply_discount fp price (combine d (slot_start Slot2))
  = if fp then (price * nine_tenths)%float else price.
Proof. destruct fp; reflexivity. Qed.

Lemma discount_evening (fp : bool) (price : float) (d : date) :
  _apply_discount fp price (combine d (slot_start Slot3))
  = if fp then (price * half)%float else price.
Proof. destruct fp; reflexivity. Qed.

(** C4. Without the frequent-parker flag [_apply_discount] returns the
    price unchanged; with it, the price is multiplied by 0.5 when the
    time of day of the instant passed is at or after 17:00 or before
    08:00, and by 0.9 otherwise.  [calculate_fee] passes a fixed instant
    per slot (01:00 of the day for the flat slot, the slot start 08:00
    for the daytime slot, the slot start 17:00 for the evening slot), so
    the frequent-parker fee of a slot is the other fee times 0.5, 0.9 and
    0.5, each slot on its own. *)
Theorem discount_per_slot :
  (forall price t, _apply_discount false price t = price)
  /\ (forall price t,
        _apply_discount true price t
        = if (mk_time 17 0 0 0 <=? dt_time t) || (dt_time t <? mk_time 8 0 0 0)
          then (price * 0.5)%float
          else (price * (9 / 10))%float)
  /\ (forall fp d r ds de,
        slot1_fee fp d r ds de
        = option_map (fun fee => _apply_discount fp fee (combine d (mk_time 1 0 0 0)))
            (slot1_fee false d r ds de))
  /\ (forall fp d r ds de,
        slot2_fee fp d r ds de
        = rmap (option_map (fun fee => _apply_discount fp fee (combine d (mk_time 8 0 0 0))))
            (slot2_fee false d r ds de))
  /\ (forall fp d r ds de,
        slot3_fee fp d r ds de
        = rmap (option_map (fun fee => _apply_discount fp fee (combine d (mk_time 17 0 0 0))))
            (slot3_fee false d r ds de))
  /\ (forall d r ds de,
        slot1_fee true d r ds de
        = option_map (fun fee => (fee * 0.5)%float) (slot1_fee false d r ds de))
  /\ (forall d r ds de,
        slot2_fee true d r ds de
        = rmap (option_map (fun fee => (fee * (9 / 10))%float)) (slot2_fee false d r ds de))
  /\ (forall d r ds de,
        slot3_fee true d r ds de
        = rmap (option_map (fun fee => (fee * 0.5)%float)) (slot3_fee false d r ds de)).
Proof.
  assert (forall fp d r ds de,
            slot2_fee fp d r ds de
            = rmap (option_map (fun fee => _apply_discount fp fee (combine d (slot_start Slot2))))
                (slot2_fee false d r ds de)) as H2.
  { intros fp d r ds de. unfold slot2_fee, rmap.
    destruct (dt_ltb _ _); [ | reflexivity].
    destruct (hours_between _ _) as [h | e]; cbn [bind]; [ | reflexivity].
    destruct (0 <? h); [ | reflexivity].
    destruct (max_stay (rate_0800_1659 r)) as [m | s]; cbn [bind]; [ | reflexivity].
    destruct (h <=? m); reflexivity. }
  assert (forall fp d r ds de,
            slot3_fee fp d r ds de
            = rmap (option_map (fun fee => _apply_discount fp fee (combine d (slot_start Slot3))))
                (slot3_fee false d r ds de)) as H3.
  { intros fp d r ds de. unfold slot3_fee, rmap.
    destruct (dt_ltb _ _); [ | reflexivity].
    destruct (hours_between _ _) as [h | e]; cbn [bind]; [ | reflexivity].
    destruct (0 <? h); reflexivity. }
  assert (forall fp d r ds de,
            slot1_fee fp d r ds de
            = option_map (fun fee => _apply_discount fp fee (combine d (mk_time 1 0 0 0)))
                (slot1_fee false d r ds de)) as H1.
  { intros fp d r ds de. unfold slot1_fee. destruct (_ <=? _); reflexivity. }
  split; [reflexivity | ].
  split; [reflexivity | ].
  split; [exact H1 | ].
  split; [exact H2 | ].
  split; [exact H3 | ].
  split; [intros; rewrite H1; destruct (slot1_fee false d r ds de); reflexivity | ].
  split.
  - intros. rewrite H2. unfold rmap.
    destruct (slot2_fee false d r ds de) as [[f | ] | e]; reflexivity.
  - intros. rewrite H3. unfold rmap.
    destruct (slot3_fee false d r ds de) as [[f | ] | e]; reflexivity.
Qed.

(* ================================================================== *)
(** ** Slots without a charge *)

Lemma slot2_fee_no_overlap (fp : bool) (d : date) (r : day_rates) (ds de : datetime) :
  dt_ltb (dt_max ds (combine d (slot_start Slot2)))
         (dt_min de (combine d (slot_end Slot2))) = false ->
  slot2_fee fp d r ds de = Ok None.
Proof. intros H. unfold slot2_fee. now rewrite H. Qed.

Lemma slot3_fee_no_overlap (fp : bool) (d : date) (r : day_rates) (ds de : datetime) :
  dt_ltb (dt_max ds (combine d (slot_start Slot3)))
         (dt_min de (combine d (slot_end Slot3))) = false ->
  slot3_fee fp d r ds de = Ok None.
Proof. intros H. unfold slot3_fee. now rewrite H. Qed.

Lemma slot1_fee_touch (fp : bool) (d : date) (w : Z) (ds de : datetime) :
  slot1_fee fp d (rates_of w) ds de
  = if Z.max (dt_time ds) (mk_time 0 0 0 0) <=? Z.min (dt_time de) (mk_time 7 59 0 0)
    then Some (if fp then 10%float else 20%float)
    else None.
Proof.
  unfold slot1_fee. rewrite discount_flat, rates_of_flat.
  change (slot_start Slot1) with (mk_time 0 0 0 0).
  change (slot_end Slot1) with (mk_time 7 59 0 0).
  destruct fp; reflexivity.
Qed.




(* ================================================================== *)
(** ** The hour count on whole seconds *)

(** The hour count of an overlap of [s] whole seconds, as the source
    computes it in floating point. *)
Definition hours_float (s : Z) : result Z :=
  PyNum.round (total_seconds (s * US_PER_SECOND) / 3600)%float.

Definition hours_agree (s : Z) : bool :=
  match hours_float s with
  | Ok h => h =? PyNum.round_half_even_div s 3600
  | Raise _ => false
  end.

(** [f] on the [2 ^ depth] integers from [lo]. *)
Fixpoint all_range (f : Z -> bool) (depth : nat) (lo : Z) : bool :=
  match depth with
  | O => f lo
  | S depth' =>
      all_range f depth' lo && all_range f depth' (lo + 2 ^ Z.of_nat depth')
  end.

Lemma all_range_sound (f : Z -> bool) (depth : nat) :
  forall lo, all_range f depth lo = true ->
             forall s, lo <= s < lo + 2 ^ Z.of_nat depth -> f s = true.
Proof.
  induction depth as [ | depth IH]; intros lo H s Hs.
  - cbn in *. now replace s with lo by lia.
  - cbn [all_range] in H. apply andb_prop in H as [H1 H2].
    rewrite Nat2Z.inj_succ, Z.pow_succ_r in Hs by lia.
    destruct (Z.lt_ge_cases s (lo + 2 ^ Z.of_nat depth)).
    + apply (IH lo H1). lia.
    + apply (IH _ H2). lia.
Qed.

Lemma hours_agree_all : all_range hours_agree 15 0 = true.
Proof. vm_compute. reflexivity. Qed.

(** On every overlap of less than 32768 whole seconds (the longest
    slot lasts 32340) the floating-point hour count is the exact
    round-half-to-even of [s / 3600]. *)
Lemma hours_of_seconds (s : Z) :
  0 <= s < 32768 ->
  hours_float s = Ok (PyNum.round_half_even_div s 3600).
Proof.
  intros Hs.
  pose proof (all_range_sound hours_agree 15 0 hours_agree_all s) as H.
  unfold hours_agree in H. change (2 ^ Z.of_nat 15) with 32768 in H.
  specialize (H ltac:(lia)).
  destruct (hours_float s) as [h | e]; [ | discriminate].
  apply Z.eqb_eq in H. now subst h.
Qed.

Lemma hours_between_seconds (os oe : datetime) (s : Z) :
  dt_sub oe os = s * US_PER_SECOND ->
  hours_between os oe = hours_float s.
Proof. intros H. unfold hours_between, hours_float. now rewrite H. Qed.

(** A datetime without microseconds. *)
Definition whole_second (dt : datetime) : Prop :=
  exists k, dt_time dt = k * US_PER_SECOND.

Lemma mk_datetime_whole_second (y mo d h mi : Z) :
  whole_second (mk_datetime y mo d h mi).
Proof.
  exists ((h * 60 + mi) * 60). unfold mk_datetime, mk_time. cbn [dt_time]. lia.
Qed.

Section WholeSeconds.

Variables a l : datetime.
Hypothesis Ha : whole_second a.
Hypothesis Hl : whole_second l.
Variable d : date.

Lemma overlap2_seconds :
  dt_ltb (dt_max (day_start a d) (combine d (slot_start Slot2)))
         (dt_min (day_end l d) (combine d (slot_end Slot2))) = true ->
  exists s, 0 < s < 32768
            /\ dt_sub (dt_min (day_end l d) (combine d (slot_end Slot2)))
                      (dt_max (day_start a d) (combine d (slot_start Slot2)))
               = s * US_PER_SECOND.
Proof.
  destruct Ha as [ka Eka], Hl as [kl Ekl].
  destruct a as [ad at_], l as [ld lt_]. cbn [dt_time] in Eka, Ekl. subst at_ lt_.
  unfold dt_sub. dt_cases; intros Hov; try discriminate;
    match goal with
    | |- exists s, _ /\ ?x = _ => exists (x / 1000000)
    end; Z.div_mod_to_equations; lia.
Qed.

Lemma overlap3_seconds :
  dt_ltb (dt_max (day_start a d) (combine d (slot_start Slot3)))
         (dt_min (day_end l d) (combine d (slot_end Slot3))) = true ->
  exists s, 0 < s < 32768
            /\ dt_sub (dt_min (day_end l d) (combine d (slot_end Slot3)))
                      (dt_max (day_start a d) (combine d (slot_start Slot3)))
               = s * US_PER_SECOND.
Proof.
  destruct Ha as [ka Eka], Hl as [kl Ekl].
  destruct a as [ad at_], l as [ld lt_]. cbn [dt_time] in Eka, Ekl. subst at_ lt_.
  unfold dt_sub. dt_cases; intros Hov; try discriminate;
    match goal with
    | |- exists s, _ /\ ?x = _ => exists (x / 1000000)
    end; Z.div_mod_to_equations; lia.
Qed.

End WholeSeconds.

(* ================================================================== *)
(** ** The hourly slots, given the hour count *)

(** The daytime fee of [h] hours at [p] per hour with a cap of [m]
    hours, before the discount. *)
Definition capped_fee (m : Z) (p : float) (h : Z) : float :=
  if h <=? m then (PyNum.float_of_int h * p)%float
  else (PyNum.float_of_int m * p + PyNum.float_of_int (h - m) * p * 2)%float.

Lemma slot2_fee_hours (fp : bool) (d : date) (r : day_rates) (ds de : datetime)
    (h m : Z) :
  dt_ltb (dt_max ds (combine d (slot_start Slot2)))
         (dt_min de (combine d (slot_end Slot2))) = true ->
  hours_between (dt_max ds (combine d (slot_start Slot2)))
                (dt_min de (combine d (slot_end Slot2))) = Ok h ->
  max_stay (rate_0800_1659 r) = MaxInt m ->
  slot2_fee fp d r ds de
  = Ok (if 0 <? h
        then Some (_apply_discount fp
                     (capped_fee m (price_per_hour (rate_0800_1659 r)) h)
                     (combine d (slot_start Slot2)))
        else None).
Proof.
  intros Hov Hh Hm. unfold slot2_fee, capped_fee. cbv zeta.
  rewrite Hov, Hh, Hm. cbn [bind].
  destruct (0 <? h); [ | reflexivity]. destruct (h <=? m); reflexivity.
Qed.

Lemma slot3_fee_hours (fp : bool) (d : date) (r : day_rates) (ds de : datetime)
    (h : Z) :
  dt_ltb (dt_max ds (combine d (slot_start Slot3)))
         (dt_min de (combine d (slot_end Slot3))) = true ->
  hours_between (dt_max ds (combine d (slot_start Slot3)))
                (dt_min de (combine d (slot_end Slot3))) = Ok h ->
  slot3_fee fp d r ds de
  = Ok (if 0 <? h
        then Some (_apply_discount fp
                     (PyNum.float_of_int h * price_per_hour (rate_1700_2359 r))%float
                     (combine d (slot_start Slot3)))
        else None).
Proof.
  intros Hov Hh. unfold slot3_fee. cbv zeta.
  rewrite Hov, Hh. cbn [bind]. destruct (0 <? h); reflexivity.
Qed.

(** ** Whole-second stays never raise *)

Section NoError.

Variable fp : bool.
Variables a l : datetime.
Hypothesis Ha : whole_second a.
Hypothesis Hl : whole_second l.

Lemma slot2_fee_ok (d : date) (w : Z) :
  exists f2, slot2_fee fp d (rates_of w) (day_start a d) (day_end l d) = Ok f2.
Proof.
  destruct (dt_ltb (dt_max (day_start a d) (combine d (slot_start Slot2)))
                   (dt_min (day_end l d) (combine d (slot_end Slot2)))) eqn:Hov.
  - destruct (overlap2_seconds a l Ha Hl d Hov) as [s [Hs Es]].
    destruct (rates_of_daytime w) as [m [Hm _]].
    eexists. apply slot2_fee_hours with (m := m); [exact Hov | | exact Hm].
    rewrite (hours_between_seconds _ _ s Es). apply hours_of_seconds. lia.
  - eexists. now apply slot2_fee_no_overlap.
Qed.

Lemma slot3_fee_ok (d : date) (w : Z) :
  exists f3, slot3_fee fp d (rates_of w) (day_start a d) (day_end l d) = Ok f3.
Proof.
  destruct (dt_ltb (dt_max (day_start a d) (combine d (slot_start Slot3)))
                   (dt_min (day_end l d) (combine d (slot_end Slot3)))) eqn:Hov.
  - destruct (overlap3_seconds a l Ha Hl d Hov) as [s [Hs Es]].
    eexists. apply slot3_fee_hours; [exact Hov | ].
    rewrite (hours_between_seconds _ _ s Es). apply hours_of_seconds. lia.
  - eexists. now apply slot3_fee_no_overlap.
Qed.

(** The flat-slot test of day [d]. *)
Definition flat_touch (d : date) : bool :=
  Z.max (dt_time (day_start a d)) (mk_time 0 0 0 0)
  <=? Z.min (dt_time (day_end l d)) (mk_time 7 59 0 0).

(** The charges of day [d]: the flat fee when the test holds, then what
    the two hourly slots return. *)
Lemma day_charges_slots (d : date) :
  exists f2 f3,
    slot2_fee fp d (rates_of (weekday d)) (day_start a d) (day_end l d) = Ok f2
    /\ slot3_fee fp d (rates_of (weekday d)) (day_start a d) (day_end l d) = Ok f3
    /\ day_charges fp a l d
       = Ok (opt_charge d Slot1
               (if flat_touch d then Some (if fp then 10%float else 20%float) else None)
             ++ opt_charge d Slot2 f2 ++ opt_charge d Slot3 f3).
Proof.
  destruct (slot2_fee_ok d (weekday d)) as [f2 H2].
  destruct (slot3_fee_ok d (weekday d)) as [f3 H3].
  exists f2, f3. split; [exact H2 | ]. split; [exact H3 | ].
  rewrite day_charges_unfold, RATES_weekday. cbn [bind].
  rewrite H2, H3. cbn [bind]. now rewrite slot1_fee_touch.
Qed.

Lemma day_charges_shape (d : date) :
  exists f2 f3,
    day_charges fp a l d
    = Ok (opt_charge d Slot1
            (if flat_touch d then Some (if fp then 10%float else 20%float) else None)
          ++ opt_charge d Slot2 f2 ++ opt_charge d Slot3 f3).
Proof.
  destruct (day_charges_slots d) as [f2 [f3 [_ [_ H]]]]. now exists f2, f3.
Qed.

(** The charges of day [d], as a total function. *)
Definition day_list (d : date) : list charge :=
  match day_charges fp a l d with
  | Ok cs => cs
  | Raise _ => []
  end.

Lemma day_charges_ok (d : date) : day_charges fp a l d = Ok (day_list d).
Proof.
  unfold day_list. destruct (day_charges_shape d) as [f2 [f3 H]]. now rewrite H.
Qed.

(** One iteration of the loop adds the charges of its day to
    [total_fee], in order. *)
Lemma day_body_ok (d : date) (st : acc) :
  exists st',
    day_body fp a l d st = Ok st'
    /\ total_fee st' = sum_from (total_fee st) (day_list d)
    /\ ledger st' = ledger st ++ day_list d.
Proof.
  exists (post_all st (day_list d)).
  rewrite day_body_charges, day_charges_ok. cbn [bind].
  now rewrite total_fee_post_all, ledger_post_all.
Qed.

Lemma charges_ok :
  date_min <= dt_date a -> dt_date l < date_max ->
  charges fp a l = Ok (flat_map day_list (stay_days a l)).
Proof.
  intros Hmin Hmax. apply charges_spec; try assumption.
  intros d _. apply day_charges_ok.
Qed.

Lemma calculate_fee_ok :
  date_min <= dt_date a -> dt_date l < date_max ->
  calculate_fee fp a l
  = Ok (PyNum.round2 (sum_from 0 (flat_map day_list (stay_days a l)))).
Proof.
  intros Hmin Hmax. apply calculate_fee_spec; try assumption.
  intros d _. apply day_charges_ok.
Qed.

(** With the leave date [date.max] and an arrival date not after it, the
    call raises [OverflowError], after the iteration of the last day. *)
Lemma calculate_fee_overflow :
  date_min <= dt_date a <= dt_date l -> dt_date l = date_max ->
  charges fp a l = Raise OverflowError
  /\ calculate_fee fp a l = Raise OverflowError.
Proof.
  intros Hd Hmax.
  assert (run fp a l = Raise OverflowError) as Hrun.
  { apply (run_overflow _ _ _ day_list); try assumption.
    intros d _. apply day_charges_ok. }
  unfold charges, calculate_fee. rewrite Hrun. split; reflexivity.
Qed.

End NoError.

(* ================================================================== *)
(** ** The charges of one day and slot *)

Definition slot_eqb (s1 s2 : slot) : bool :=
  match s1, s2 with
  | Slot1, Slot1 | Slot2, Slot2 | Slot3, Slot3 => true
  | _, _ => false
  end.

(** The charges of slot [s] on day [d] in a ledger. *)
Definition charges_of (d : date) (s : slot) (cs : list charge) : list charge :=
  filter (fun c => (c_day c =? d) && slot_eqb (c_slot c) s) cs.

Lemma charges_of_app (d : date) (s : slot) (xs ys : list charge) :
  charges_of d s (xs ++ ys) = charges_of d s xs ++ charges_of d s ys.
Proof. apply filter_app. Qed.

Lemma charges_of_opt (d d' : date) (s s' : slot) (fee : option float) :
  charges_of d s (opt_charge d' s' fee)
  = if (d' =? d) && slot_eqb s' s then opt_charge d' s' fee else [].
Proof.
  destruct fee as [f | ]; cbn; [ | now destruct ((d' =? d) && slot_eqb s' s)].
  now destruct ((d' =? d) && slot_eqb s' s).
Qed.

Section OneCharge.

Variable fp : bool.
Variables a l : datetime.
Hypothesis Ha : whole_second a.
Hypothesis Hl : whole_second l.

Lemma flat_of_day (d d' : date) :
  charges_of d Slot1 (day_list fp a l d')
  = if d' =? d
    then opt_charge d Slot1
           (if flat_touch a l d then Some (if fp then 10%float else 20%float) else None)
    else [].
Proof.
  destruct (day_charges_shape fp a l Ha Hl d') as [f2 [f3 H]].
  unfold day_list. rewrite H.
  rewrite !charges_of_app, !charges_of_opt.
  destruct (Z.eqb_spec d' d) as [-> | Hne]; cbn [andb slot_eqb];
    now rewrite ?app_nil_r.
Qed.

Lemma flat_of_days (d : date) :
  forall (n : nat) (d0 : date),
    charges_of d Slot1 (flat_map (day_list fp a l) (days_from d0 n))
    = if (d0 <=? d) && (d <? d0 + Z.of_nat n)
      then opt_charge d Slot1
             (if flat_touch a l d then Some (if fp then 10%float else 20%float) else None)
      else [].
Proof.
  induction n as [ | n IH]; intros d0.
  - cbn. destruct (Z.leb_spec d0 d), (Z.ltb_spec d (d0 + 0)); try reflexivity; lia.
  - cbn [days_from flat_map]. rewrite charges_of_app, flat_of_day, IH.
    destruct (Z.eqb_spec d0 d) as [-> | Hne].
    + destruct (Z.leb_spec (d + 1) d); [lia | ].
      destruct (Z.leb_spec d d); [ | lia].
      destruct (Z.ltb_spec d (d + Z.of_nat (S n))); [ | lia].
      cbn [andb]. now rewrite app_nil_r.
    + cbn [app].
      destruct (Z.leb_spec (d0 + 1) d), (Z.leb_spec d0 d),
        (Z.ltb_spec d (d0 + 1 + Z.of_nat n)), (Z.ltb_spec d (d0 + Z.of_nat (S n)));
        try reflexivity; lia.
Qed.

(** The charges of slot [s] on day [d] in the ledger of the whole stay
    are those of the iteration of day [d]. *)
Lemma charges_of_day (d d' : date) (s : slot) :
  charges_of d s (day_list fp a l d')
  = if d' =? d then charges_of d s (day_list fp a l d) else [].
Proof.
  destruct (Z.eqb_spec d' d) as [-> | Hne]; [reflexivity | ].
  destruct (day_charges_shape fp a l Ha Hl d') as [f2 [f3 H]].
  unfold day_list. rewrite H.
  rewrite !charges_of_app, !charges_of_opt.
  destruct (Z.eqb_spec d' d) as [E | _]; [contradiction | reflexivity].
Qed.

Lemma charges_of_days (d : date) (s : slot) :
  forall (n : nat) (d0 : date),
    charges_of d s (flat_map (day_list fp a l) (days_from d0 n))
    = if (d0 <=? d) && (d <? d0 + Z.of_nat n)
      then charges_of d s (day_list fp a l d)
      else [].
Proof.
  induction n as [ | n IH]; intros d0.
  - cbn. destruct (Z.leb_spec d0 d), (Z.ltb_spec d (d0 + 0)); try reflexivity; lia.
  - cbn [days_from flat_map]. rewrite charges_of_app, charges_of_day, IH.
    destruct (Z.eqb_spec d0 d) as [-> | Hne].
    + destruct (Z.leb_spec (d + 1) d); [lia | ].
      destruct (Z.leb_spec d d); [ | lia].
      destruct (Z.ltb_spec d (d + Z.of_nat (S n))); [ | lia].
      cbn [andb]. now rewrite app_nil_r.
    + cbn [app].
      destruct (Z.leb_spec (d0 + 1) d), (Z.leb_spec d0 d),
        (Z.ltb_spec d (d0 + 1 + Z.of_nat n)), (Z.ltb_spec d (d0 + Z.of_nat (S n)));
        try reflexivity; lia.
Qed.

Lemma charges_of_stay (d : date) (s : slot) :
  dt_date a <= d <= dt_date l ->
  charges_of d s (flat_map (day_list fp a l) (stay_days a l))
  = charges_of d s (day_list fp a l d).
Proof.
  intros Hd. unfold stay_days. rewrite charges_of_days.
  destruct (Z.leb_spec (dt_date a) d); [ | lia].
  destruct (Z.ltb_spec d (dt_date a + Z.of_nat (Z.to_nat (dt_date l - dt_date a + 1))));
    [reflexivity | lia].
Qed.

(** The daytime charge of day [d] is what the daytime slot returns. *)
Lemma daytime_of_day (d : date) (f2 : option float) :
  slot2_fee fp d (rates_of (weekday d)) (day_start a d) (day_end l d) = Ok f2 ->
  charges_of d Slot2 (day_list fp a l d) = opt_charge d Slot2 f2.
Proof.
  intros H2.
  destruct (day_charges_slots fp a l Ha Hl d) as [f2' [f3 [H2' [_ H]]]].
  rewrite H2 in H2'. injection H2' as <-.
  unfold day_list. rewrite H.
  rewrite !charges_of_app, !charges_of_opt, Z.eqb_refl. cbn [andb slot_eqb].
  now rewrite app_nil_r.
Qed.

End OneCharge.


(* ================================================================== *)
(** ** Floats that differ *)

Lemma float_neq (x y : float) :
  PrimFloat.eqb x x = true -> PrimFloat.eqb x y = false -> x <> y.
Proof. intros Hx Hxy E. subst y. congruence. Qed.

Lemma Ok_neq (x y : float) :
  PrimFloat.eqb x x = true -> PrimFloat.eqb x y = false -> Ok x <> Ok y.
Proof. intros Hx Hxy E. injection E as E. now apply (float_neq x y). Qed.

(* ================================================================== *)
(** ** The daytime slot beyond its cap *)

Lemma slot2_fee_beyond_cap (fp : bool) (d : date) (r : day_rates) (ds de : datetime)
    (m h : Z) :
  dt_ltb (dt_max ds (combine d (slot_start Slot2)))
         (dt_min de (combine d (slot_end Slot2))) = true ->
  hours_between (dt_max ds (combine d (slot_start Slot2)))
                (dt_min de (combine d (slot_end Slot2))) = Ok h ->
  max_stay (rate_0800_1659 r) = MaxInt m ->
  0 <= m -> m < h ->
  slot2_fee fp d r ds de
  = Ok (Some (_apply_discount fp
                (PyNum.float_of_int m * price_per_hour (rate_0800_1659 r)
                 + PyNum.float_of_int (h - m) * price_per_hour (rate_0800_1659 r) * 2)%float
                (combine d (slot_start Slot2)))).
Proof.
  intros Hov Hh Hm Hm0 Hmh.
  rewrite (slot2_fee_hours fp d r ds de h m Hov Hh Hm).
  replace (0 <? h) with true by (symmetry; apply Z.ltb_lt; lia).
  unfold capped_fee. replace (h <=? m) with false by (symmetry; apply Z.leb_gt; lia).
  reflexivity.
Qed.

(** C1. In the daytime slot, whenever the rounded hour count
    [hours_in_slot] exceeds the [max_stay] of the day's rate, the fee of
    the slot is [max_stay * price_per_hour + (hours_in_slot - max_stay)
    * price_per_hour * 2], passed through the discount of the slot:
    whatever the frequent-parker flag, the day and the occupied portion
    of the day.  On a stay between whole-second instants, on any day [d]
    where this happens, the iteration of [d] adds that amount to
    [total_fee] as the one daytime charge of the day, and when the stay
    lies within the calendar (the leave date before 9999-12-31) the call
    returns the sum of all the amounts added, rounded to two decimals.
    From 2024-01-01 08:00 to 2024-01-01 12:00, a Monday, the one charge of
    a non-frequent parker is 2 x 10 + 2 x 10 x 2 and the call returns
    60.00. *)
Theorem overstay_fee :
  (forall (fp : bool) (d : date) (r : day_rates) (ds de : datetime) (m h : Z),
      let slot2_start_dt := combine d (mk_time 8 0 0 0) in
      let slot2_end_dt := combine d (mk_time 16 59 0 0) in
      let overlap_start := dt_max ds slot2_start_dt in
      let overlap_end := dt_min de slot2_end_dt in
      dt_ltb overlap_start overlap_end = true ->
      hours_between overlap_start overlap_end = Ok h ->
      max_stay (rate_0800_1659 r) = MaxInt m ->
      0 <= m -> m < h ->
      let p := price_per_hour (rate_0800_1659 r) in
      slot2_fee fp d r ds de
      = Ok (Some (_apply_discount fp
                    (PyNum.float_of_int m * p
                     + PyNum.float_of_int (h - m) * p * 2)%float
                    slot2_start_dt)))
  /\ (forall (fp : bool) (a l : datetime) (d : date) (r : day_rates) (m h : Z),
        whole_second a -> whole_second l ->
        let slot2_start_dt := combine d (mk_time 8 0 0 0) in
        let slot2_end_dt := combine d (mk_time 16 59 0 0) in
        let overlap_start := dt_max (day_start a d) slot2_start_dt in
        let overlap_end := dt_min (day_end l d) slot2_end_dt in
        dt_ltb overlap_start overlap_end = true ->
        hours_between overlap_start overlap_end = Ok h ->
        dict_get RATES (weekday d) = Ok r ->
        max_stay (rate_0800_1659 r) = MaxInt m ->
        m < h ->
        let p := price_per_hour (rate_0800_1659 r) in
        let fee :=
          _apply_discount fp
            (PyNum.float_of_int m * p + PyNum.float_of_int (h - m) * p * 2)%float
            slot2_start_dt in
        (exists day_cs,
            charges_of d Slot2 day_cs
            = [ {| c_day := d; c_slot := Slot2; c_fee := fee |} ]
            /\ forall st, exists st',
                  day_body fp a l d st = Ok st'
                  /\ total_fee st' = sum_from (total_fee st) day_cs)
        /\ (date_min <= dt_date a -> dt_date l < date_max ->
            dt_date a <= d <= dt_date l ->
            exists cs,
              charges fp a l = Ok cs
              /\ charges_of d Slot2 cs
                 = [ {| c_day := d; c_slot := Slot2; c_fee := fee |} ]
              /\ calculate_fee fp a l = Ok (PyNum.round2 (sum_from 0 cs))))
  /\ charges false (mk_datetime 2024 1 1 8 0) (mk_datetime 2024 1 1 12 0)
     = Ok [ {| c_day := mk_date 2024 1 1; c_slot := Slot2;
               c_fee := (2 * 10 + 2 * 10 * 2)%float |} ]
  /\ calculate_fee false (mk_datetime 2024 1 1 8 0) (mk_datetime 2024 1 1 12 0)
     = Ok 60%float.
Proof.
  split; [ | split; [ | split; vm_compute; reflexivity]].
  - intros fp d r ds de m h s2s s2e os oe Hov Hh Hm Hm0 Hmh p.
    exact (slot2_fee_beyond_cap fp d r ds de m h Hov Hh Hm Hm0 Hmh).
  - intros fp a l d r m h Ha Hl s2s s2e os oe Hov Hh Hr Hm Hmh p fee.
    rewrite RATES_weekday in Hr. injection Hr as Hr.
    assert (0 <= m) as Hm0.
    { destruct (rates_of_daytime (weekday d)) as [m' [E Hm']].
      rewrite Hr, Hm in E. injection E as ->. lia. }
    assert (charges_of d Slot2 (day_list fp a l d)
            = [ {| c_day := d; c_slot := Slot2; c_fee := fee |} ]) as Hday.
    { rewrite (daytime_of_day fp a l Ha Hl d (Some fee)); [reflexivity | ].
      rewrite Hr. exact (slot2_fee_beyond_cap fp d r _ _ m h Hov Hh Hm Hm0 Hmh). }
    split.
    + exists (day_list fp a l d). split; [exact Hday | ].
      intros st. destruct (day_body_ok fp a l Ha Hl d st) as [st' [E [T _]]].
      now exists st'.
    + intros Hmin Hmax Hd. exists (flat_map (day_list fp a l) (stay_days a l)).
      split; [now apply charges_ok | ].
      split; [ | now apply calculate_fee_ok].
      now rewrite (charges_of_stay fp a l Ha Hl d Slot2 Hd).
Qed.

Lemma overstay_fee_witness :
  slot2_fee true (mk_date 2024 1 6) saturday_rates
    (mk_datetime 2024 1 6 7 0) (mk_datetime 2024 1 7 9 0)
  = Ok (Some ((PyNum.float_of_int 4 * 3
               + PyNum.float_of_int (9 - 4) * 3 * 2) * nine_tenths)%float)
  /\ exists cs,
       charges true (mk_datetime 2024 1 5 23 0) (mk_datetime 2024 1 8 9 0) = Ok cs
       /\ charges_of (mk_date 2024 1 6) Slot2 cs
          = [ {| c_day := mk_date 2024 1 6; c_slot := Slot2;
                 c_fee := ((PyNum.float_of_int 4 * 3
                            + PyNum.float_of_int (9 - 4) * 3 * 2)
                           * nine_tenths)%float |} ]
       /\ calculate_fee true (mk_datetime 2024 1 5 23 0) (mk_datetime 2024 1 8 9 0)
          = Ok (PyNum.round2 (sum_from 0 cs)).
Proof.
  split.
  - apply (proj1 overstay_fee true (mk_date 2024 1 6) saturday_rates
             (mk_datetime 2024 1 6 7 0) (mk_datetime 2024 1 7 9 0) 4 9).
    + vm_compute; reflexivity.
    + vm_compute; reflexivity.
    + reflexivity.
    + lia.
    + lia.
  - apply (proj1 (proj2 overstay_fee) true (mk_datetime 2024 1 5 23 0)
             (mk_datetime 2024 1 8 9 0) (mk_date 2024 1 6) saturday_rates 4 9).
    + apply mk_datetime_whole_second.
    + apply mk_datetime_whole_second.
    + vm_compute; reflexivity.
    + vm_compute; reflexivity.
    + vm_compute; reflexivity.
    + reflexivity.
    + lia.
    + vm_compute; discriminate.
    + vm_compute; reflexivity.
    + vm_compute; split; discriminate.
Defined.

(* ================================================================== *)
(** ** The hourly slots on whole seconds *)

Lemma slot2_fee_at (fp : bool) (d : date) (r : day_rates) (ds de : datetime)
    (s m : Z) :
  dt_ltb (dt_max ds (combine d (slot_start Slot2)))
         (dt_min de (combine d (slot_end Slot2))) = true ->
  dt_sub (dt_min de (combine d (slot_end Slot2)))
         (dt_max ds (combine d (slot_start Slot2))) = s * US_PER_SECOND ->
  0 <= s < 32768 ->
  max_stay (rate_0800_1659 r) = MaxInt m ->
  slot2_fee fp d r ds de
  = Ok (if 0 <? PyNum.round_half_even_div s 3600
        then Some (_apply_discount fp
                     (capped_fee m (price_per_hour (rate_0800_1659 r))
                        (PyNum.round_half_even_div s 3600))
                     (combine d (slot_start Slot2)))
        else None).
Proof.
  intros Hov Hs Hr Hm. apply slot2_fee_hours; [exact Hov | | exact Hm].
  rewrite (hours_between_seconds _ _ s Hs). now apply hours_of_seconds.
Qed.

Lemma slot3_fee_at (fp : bool) (d : date) (r : day_rates) (ds de : datetime)
    (s : Z) :
  dt_ltb (dt_max ds (combine d (slot_start Slot3)))
         (dt_min de (combine d (slot_end Slot3))) = true ->
  dt_sub (dt_min de (combine d (slot_end Slot3)))
         (dt_max ds (combine d (slot_start Slot3))) = s * US_PER_SECOND ->
  0 <= s < 32768 ->
  slot3_fee fp d r ds de
  = Ok (if 0 <? PyNum.round_half_even_div s 3600
        then Some (_apply_discount fp
                     (PyNum.float_of_int (PyNum.round_half_even_div s 3600)
                      * price_per_hour (rate_1700_2359 r))%float
                     (combine d (slot_start Slot3)))
        else None).
Proof.
  intros Hov Hs Hr. apply slot3_fee_hours; [exact Hov | ].
  rewrite (hours_between_seconds _ _ s Hs). now apply hours_of_seconds.
Qed.

(** C3. A non-frequent stay from 23:00 of any Friday to 01:00 of the
    Saturday after it costs 25.00: the Friday evening slot charges one
    hour at 5.00 and the Saturday flat slot charges 20.00; nothing else
    is charged.  The Friday [d] and the Saturday [d + 1] are dates of the
    calendar; as 9999-12-31 is a Friday, the Saturday is never the last
    date and the loop's increment never overflows. *)
Theorem friday_night_to_saturday (d : date) :
  date_min <= d -> d + 1 <= date_max ->
  weekday d = 4 ->
  charges false (combine d (mk_time 23 0 0 0)) (combine (d + 1) (mk_time 1 0 0 0))
  = Ok [ {| c_day := d; c_slot := Slot3; c_fee := 5 |};
         {| c_day := d + 1; c_slot := Slot1; c_fee := 20 |} ]
  /\ calculate_fee false (combine d (mk_time 23 0 0 0))
       (combine (d + 1) (mk_time 1 0 0 0))
     = Ok 25%float.
Proof.
  intros Hmin Hsat Hw.
  assert (d + 1 < date_max) as Hmax.
  { assert (d + 1 <> date_max) as Hne; [ | lia].
    intros E. pose proof (weekday_succ d) as Hs. rewrite Hw, E in Hs.
    discriminate Hs. }
  set (a := combine d (mk_time 23 0 0 0)).
  set (l := combine (d + 1) (mk_time 1 0 0 0)).
  set (cs := fun d' : date =>
               if d' =? d
               then [ {| c_day := d; c_slot := Slot3; c_fee := 5%float |} ]
               else [ {| c_day := d + 1; c_slot := Slot1; c_fee := 20%float |} ]).
  assert (forall d', dt_date a <= d' <= dt_date l ->
                     day_charges false a l d' = Ok (cs d')) as Hcs.
  { intros d' Hd'. subst a l. cbn [dt_date] in Hd'. unfold cs.
    rewrite day_charges_unfold, RATES_weekday. cbn [bind].
    rewrite slot1_fee_touch.
    destruct (Z.eqb_spec d' d) as [-> | Hne].
    - rewrite slot2_fee_no_overlap by (dt_cases; reflexivity). cbn [bind].
      rewrite (slot3_fee_at false d _ _ _ 3599);
        [ | dt_cases; reflexivity | unfold dt_sub; dt_cases; lia | lia].
      cbn [bind].
      replace (Z.max _ _ <=? Z.min _ _) with false by (dt_cases; reflexivity).
      rewrite rates_of_evening. reflexivity.
    - assert (d' = d + 1) as -> by lia.
      rewrite slot2_fee_no_overlap by (dt_cases; reflexivity).
      rewrite slot3_fee_no_overlap by (dt_cases; reflexivity).
      cbn [bind].
      replace (Z.max _ _ <=? Z.min _ _) with true by (dt_cases; reflexivity).
      reflexivity. }
  assert (stay_days a l = [d; d + 1]) as Hdays.
  { unfold stay_days. subst a l. cbn [dt_date].
    replace (Z.to_nat (d + 1 - d + 1)) with 2%nat by lia. reflexivity. }
  assert (flat_map cs [d; d + 1]
          = [ {| c_day := d; c_slot := Slot3; c_fee := 5%float |};
              {| c_day := d + 1; c_slot := Slot1; c_fee := 20%float |} ]) as Hflat.
  { unfold cs. cbn [flat_map app]. rewrite Z.eqb_refl.
    destruct (Z.eqb_spec (d + 1) d); [lia | reflexivity]. }
  split.
  - now rewrite (charges_spec false a l Hmin Hmax cs Hcs), Hdays, Hflat.
  - rewrite (calculate_fee_spec false a l Hmin Hmax cs Hcs), Hdays, Hflat. reflexivity.
Qed.

Lemma friday_night_to_saturday_witness :
  date_min <= mk_date 2024 1 5
  /\ mk_date 2024 1 5 + 1 <= date_max
  /\ weekday (mk_date 2024 1 5) = 4
  /\ charges false (mk_datetime 2024 1 5 23 0) (mk_datetime 2024 1 6 1 0)
     = Ok [ {| c_day := mk_date 2024 1 5; c_slot := Slot3; c_fee := 5 |};
            {| c_day := mk_date 2024 1 6; c_slot := Slot1; c_fee := 20 |} ]
  /\ calculate_fee false (mk_datetime 2024 1 5 23 0) (mk_datetime 2024 1 6 1 0)
     = Ok 25%float.
Proof.
  assert (date_min <= mk_date 2024 1 5) as Hmin by (vm_compute; discriminate).
  assert (mk_date 2024 1 5 + 1 <= date_max) as Hmax by (vm_compute; discriminate).
  assert (weekday (mk_date 2024 1 5) = 4) as H by reflexivity.
  split; [exact Hmin | ]. split; [exact Hmax | ]. split; [exact H | ].
  exact (friday_night_to_saturday (mk_date 2024 1 5) Hmin Hmax H).
Defined.

(* ================================================================== *)
(** ** Halfway hour counts *)

(** C5, the claim as stated fails: a non-frequent stay on Monday
    2024-01-01 from 08:00 to 08:30 overlaps the daytime slot by exactly
    30 minutes; the hour count is 0, not 1, and the fee is 0.00, not
    10.00. *)
Lemma half_hour_counts_zero :
  dt_sub (mk_datetime 2024 1 1 8 30) (mk_datetime 2024 1 1 8 0)
  = 30 * 60 * US_PER_SECOND
  /\ hours_between (mk_datetime 2024 1 1 8 0) (mk_datetime 2024 1 1 8 30) = Ok 0
  /\ hours_between (mk_datetime 2024 1 1 8 0) (mk_datetime 2024 1 1 8 30) <> Ok 1
  /\ calculate_fee false (mk_datetime 2024 1 1 8 0) (mk_datetime 2024 1 1 8 30)
     = Ok 0%float
  /\ calculate_fee false (mk_datetime 2024 1 1 8 0) (mk_datetime 2024 1 1 8 30)
     <> Ok 10%float.
Proof.
  split; [reflexivity | ].
  split; [vm_compute; reflexivity | ].
  split; [vm_compute; discriminate | ].
  split; [vm_compute; reflexivity | ].
  replace (calculate_fee false (mk_datetime 2024 1 1 8 0) (mk_datetime 2024 1 1 8 30))
    with (Ok 0%float) by (vm_compute; reflexivity).
  apply Ok_neq; reflexivity.
Qed.

(** C5, amended.  Python's [round] rounds a half to the even neighbour:
    an overlap of exactly 30 minutes with an hourly slot counts 0 hours,
    so the slot charges nothing, whatever the day, the rates and the
    frequent-parker flag; a non-frequent stay on Monday 2024-01-01 from
    08:00 to 08:30 costs 0.00. *)
Theorem half_hour_overlap_free :
  hours_float (30 * 60) = Ok 0
  /\ (forall fp d r ds de,
        dt_sub (dt_min de (combine d (slot_end Slot2)))
               (dt_max ds (combine d (slot_start Slot2)))
        = 30 * 60 * US_PER_SECOND ->
        slot2_fee fp d r ds de = Ok None)
  /\ (forall fp d r ds de,
        dt_sub (dt_min de (combine d (slot_end Slot3)))
               (dt_max ds (combine d (slot_start Slot3)))
        = 30 * 60 * US_PER_SECOND ->
        slot3_fee fp d r ds de = Ok None)
  /\ calculate_fee false (mk_datetime 2024 1 1 8 0) (mk_datetime 2024 1 1 8 30)
     = Ok 0%float.
Proof.
  assert (hours_float (30 * 60) = Ok 0) as H0 by (vm_compute; reflexivity).
  split; [exact H0 | ].
  split; [ | split; [ | vm_compute; reflexivity]].
  - intros fp d r ds de Hsub. unfold slot2_fee. cbv zeta.
    destruct (dt_ltb _ _); [ | reflexivity].
    rewrite (hours_between_seconds _ _ (30 * 60) Hsub), H0. reflexivity.
  - intros fp d r ds de Hsub. unfold slot3_fee. cbv zeta.
    destruct (dt_ltb _ _); [ | reflexivity].
    rewrite (hours_between_seconds _ _ (30 * 60) Hsub), H0. reflexivity.
Qed.

Lemma half_hour_overlap_free_witness :
  slot2_fee true (mk_date 2024 1 6) saturday_rates
    (mk_datetime 2024 1 6 16 29) (mk_datetime 2024 1 6 18 0) = Ok None
  /\ slot3_fee false (mk_date 2024 1 6) saturday_rates
       (mk_datetime 2024 1 6 16 29) (mk_datetime 2024 1 6 17 30) = Ok None.
Proof.
  split.
  - apply (proj1 (proj2 half_hour_overlap_free)). vm_compute; reflexivity.
  - apply (proj1 (proj2 (proj2 half_hour_overlap_free))). vm_compute; reflexivity.
Defined.

(** C6, the claim as stated fails: a non-frequent stay on Monday
    2024-01-01 from 08:00 to 09:30 overlaps the daytime slot by exactly
    90 minutes; the hour count is 2, not 1, and the fee is 20.00, not
    10.00. *)
Lemma ninety_minutes_count_two :
  dt_sub (mk_datetime 2024 1 1 9 30) (mk_datetime 2024 1 1 8 0)
  = 90 * 60 * US_PER_SECOND
  /\ hours_between (mk_datetime 2024 1 1 8 0) (mk_datetime 2024 1 1 9 30) = Ok 2
  /\ hours_between (mk_datetime 2024 1 1 8 0) (mk_datetime 2024 1 1 9 30) <> Ok 1
  /\ calculate_fee false (mk_datetime 2024 1 1 8 0) (mk_datetime 2024 1 1 9 30)
     = Ok 20%float
  /\ calculate_fee false (mk_datetime 2024 1 1 8 0) (mk_datetime 2024 1 1 9 30)
     <> Ok 10%float.
Proof.
  split; [reflexivity | ].
  split; [vm_compute; reflexivity | ].
  split; [vm_compute; discriminate | ].
  split; [vm_compute; reflexivity | ].
  replace (calculate_fee false (mk_datetime 2024 1 1 8 0) (mk_datetime 2024 1 1 9 30))
    with (Ok 20%float) by (vm_compute; reflexivity).
  apply Ok_neq; reflexivity.
Qed.

(** C6, amended.  An overlap of exactly 90 minutes with an hourly slot
    counts 2 hours, the even neighbour of 1.5: the daytime slot charges
    the fee of two hours (two hours at the hourly price when the cap is
    at least 2, as on every day of the rate table), the evening slot two
    hours at its price, each with the discount of the slot; a
    non-frequent stay on Monday 2024-01-01 from 08:00 to 09:30 costs
    2 x 10.00 = 20.00. *)
Theorem ninety_minutes_overlap_two_hours :
  hours_float (90 * 60) = Ok 2
  /\ (forall fp d r ds de m,
        dt_ltb (dt_max ds (combine d (slot_start Slot2)))
               (dt_min de (combine d (slot_end Slot2))) = true ->
        dt_sub (dt_min de (combine d (slot_end Slot2)))
               (dt_max ds (combine d (slot_start Slot2)))
        = 90 * 60 * US_PER_SECOND ->
        max_stay (rate_0800_1659 r) = MaxInt m ->
        2 <= m ->
        slot2_fee fp d r ds de
        = Ok (Some (_apply_discount fp
                      (PyNum.float_of_int 2 * price_per_hour (rate_0800_1659 r))%float
                      (combine d (mk_time 8 0 0 0)))))
  /\ (forall fp d r ds de,
        dt_ltb (dt_max ds (combine d (slot_start Slot3)))
               (dt_min de (combine d (slot_end Slot3))) = true ->
        dt_sub (dt_min de (combine d (slot_end Slot3)))
               (dt_max ds (combine d (slot_start Slot3)))
        = 90 * 60 * US_PER_SECOND ->
        slot3_fee fp d r ds de
        = Ok (Some (_apply_discount fp
                      (PyNum.float_of_int 2 * price_per_hour (rate_1700_2359 r))%float
                      (combine d (mk_time 17 0 0 0)))))
  /\ calculate_fee false (mk_datetime 2024 1 1 8 0) (mk_datetime 2024 1 1 9 30)
     = Ok 20%float.
Proof.
  assert (hours_float (90 * 60) = Ok 2) as H2 by (vm_compute; reflexivity).
  split; [exact H2 | ].
  split; [ | split; [ | vm_compute; reflexivity]].
  - intros fp d r ds de m Hov Hsub Hm Hm2.
    rewrite (slot2_fee_hours fp d r ds de 2 m Hov); [ | | exact Hm].
    + unfold capped_fee. replace (2 <=? m) with true by (symmetry; apply Z.leb_le; lia).
      reflexivity.
    + now rewrite (hours_between_seconds _ _ (90 * 60) Hsub).
  - intros fp d r ds de Hov Hsub.
    rewrite (slot3_fee_hours fp d r ds de 2 Hov); [reflexivity | ].
    now rewrite (hours_between_seconds _ _ (90 * 60) Hsub).
Qed.

Lemma ninety_minutes_overlap_two_hours_witness :
  slot2_fee true (mk_date 2024 1 7) sunday_rates
    (mk_datetime 2024 1 7 0 0) (mk_datetime 2024 1 7 9 30)
  = Ok (Some (PyNum.float_of_int 2 * 2 * nine_tenths)%float)
  /\ slot3_fee false (mk_date 2024 1 7) sunday_rates
       (mk_datetime 2024 1 7 17 0) (mk_datetime 2024 1 7 18 30)
     = Ok (Some (PyNum.float_of_int 2 * 5)%float).
Proof.
  split.
  - apply (proj1 (proj2 ninety_minutes_overlap_two_hours) true (mk_date 2024 1 7)
             sunday_rates (mk_datetime 2024 1 7 0 0) (mk_datetime 2024 1 7 9 30) 8).
    + vm_compute; reflexivity.
    + vm_compute; reflexivity.
    + reflexivity.
    + lia.
  - apply (proj1 (proj2 (proj2 ninety_minutes_overlap_two_hours)) false
             (mk_date 2024 1 7) sunday_rates
             (mk_datetime 2024 1 7 17 0) (mk_datetime 2024 1 7 18 30)).
    + vm_compute; reflexivity.
    + vm_compute; reflexivity.
Defined.

(* ================================================================== *)
(** ** The flat fee, once per touched day *)

Lemma sum_from_app (t : float) (xs ys : list charge) :
  sum_from t (xs ++ ys) = sum_from (sum_from t xs) ys.
Proof. apply fold_left_app. Qed.

(** C7. On a stay between whole-second instants, the iteration of any
    calendar day [d] adds the flat fee, 20.00 (10.00 for a frequent
    parker), to [total_fee] exactly once when the time-of-day test
    [max(day_start.time(), 00:00) <= min(day_end.time(), 07:59)] holds
    and not at all otherwise, before the amounts of the two hourly
    slots.  When the leave is not before the arrival, the test holds on
    the leave day of a stay that ends at 07:59 and on the arrival day of
    a stay that starts at 00:00.  When the stay lies within the calendar
    (the leave date before 9999-12-31), the call raises nothing, the
    amounts added for the flat slot of a day [d] of the stay are that
    one flat fee or none, by the test, and the fee returned is the sum
    of all the amounts added, rounded to two decimals. *)
Theorem flat_fee_once_per_touched_day (fp : bool) (a l : datetime) :
  whole_second a -> whole_second l ->
  let flat := if fp then 10%float else 20%float in
  let touched := fun d : date =>
    Z.max (dt_time (day_start a d)) (mk_time 0 0 0 0)
    <=? Z.min (dt_time (day_end l d)) (mk_time 7 59 0 0) in
  (forall (d : date) (st : acc),
      exists (fee2 fee3 : option float) (st' : acc),
        day_body fp a l d st = Ok st'
        /\ total_fee st'
           = sum_from (if touched d then (total_fee st + flat)%float else total_fee st)
               (opt_charge d Slot2 fee2 ++ opt_charge d Slot3 fee3))
  /\ (dt_leb a l = true -> dt_time l = mk_time 7 59 0 0 -> touched (dt_date l) = true)
  /\ (dt_leb a l = true -> dt_time a = mk_time 0 0 0 0 -> touched (dt_date a) = true)
  /\ (date_min <= dt_date a -> dt_date l < date_max ->
      exists cs,
        charges fp a l = Ok cs
        /\ calculate_fee fp a l = Ok (PyNum.round2 (sum_from 0 cs))
        /\ (forall d, dt_date a <= d <= dt_date l ->
              charges_of d Slot1 cs
              = if touched d
                then [ {| c_day := d; c_slot := Slot1; c_fee := flat |} ]
                else [])).
Proof.
  intros Ha Hl flat touched.
  split; [ | split; [ | split]].
  - intros d st.
    destruct (day_charges_shape fp a l Ha Hl d) as [f2 [f3 H]].
    exists f2, f3, (post_all st (day_list fp a l d)).
    rewrite day_body_charges, (day_charges_ok fp a l Ha Hl). cbn [bind].
    split; [reflexivity | ].
    rewrite total_fee_post_all. unfold day_list. rewrite H, sum_from_app.
    fold (flat_touch a l d). change (touched d) with (flat_touch a l d).
    now destruct (flat_touch a l d).
  - intros Hle Ht. subst touched. cbv beta.
    destruct a as [ad at_], l as [ld lt_].
    cbn [dt_time dt_date] in *. subst lt_. revert Hle.
    dt_cases; intros; try reflexivity; try discriminate; lia.
  - intros Hle Ht. subst touched. cbv beta.
    destruct a as [ad at_], l as [ld lt_].
    cbn [dt_time dt_date] in *. subst at_. revert Hle.
    dt_cases; intros; try reflexivity; try discriminate; lia.
  - intros Hmin Hmax. exists (flat_map (day_list fp a l) (stay_days a l)).
    split; [now apply charges_ok | ].
    split; [now apply calculate_fee_ok | ].
    intros d Hd. unfold stay_days. rewrite (flat_of_days fp a l Ha Hl d).
    destruct (Z.leb_spec (dt_date a) d); [ | lia].
    destruct (Z.ltb_spec d (dt_date a + Z.of_nat (Z.to_nat (dt_date l - dt_date a + 1))));
      [ | lia].
    cbn [andb]. change (touched d) with (flat_touch a l d).
    now destruct (flat_touch a l d).
Qed.

Lemma flat_fee_once_per_touched_day_witness :
  whole_second (mk_datetime 2024 1 1 0 0)
  /\ whole_second (mk_datetime 2024 1 2 7 59)
  /\ date_min <= mk_date 2024 1 1
  /\ mk_date 2024 1 2 < date_max
  /\ exists cs,
       charges true (mk_datetime 2024 1 1 0 0) (mk_datetime 2024 1 2 7 59) = Ok cs
       /\ calculate_fee true (mk_datetime 2024 1 1 0 0) (mk_datetime 2024 1 2 7 59)
          = Ok (PyNum.round2 (sum_from 0 cs))
       /\ charges_of (mk_date 2024 1 1) Slot1 cs
          = [ {| c_day := mk_date 2024 1 1; c_slot := Slot1; c_fee := 10 |} ]
       /\ charges_of (mk_date 2024 1 2) Slot1 cs
          = [ {| c_day := mk_date 2024 1 2; c_slot := Slot1; c_fee := 10 |} ].
Proof.
  pose proof (mk_datetime_whole_second 2024 1 1 0 0) as Ha.
  pose proof (mk_datetime_whole_second 2024 1 2 7 59) as Hl.
  assert (date_min <= mk_date 2024 1 1) as Hmin by (vm_compute; discriminate).
  assert (mk_date 2024 1 2 < date_max) as Hmax by (vm_compute; reflexivity).
  split; [exact Ha | ]. split; [exact Hl | ].
  split; [exact Hmin | ]. split; [exact Hmax | ].
  destruct (flat_fee_once_per_touched_day true _ _ Ha Hl) as [_ [_ [_ H]]].
  destruct (H Hmin Hmax) as [cs [H1 [H2 H3]]].
  exists cs. split; [exact H1 | ]. split; [exact H2 | ]. split.
  - apply (H3 (mk_date 2024 1 1)). vm_compute. split; discriminate.
  - apply (H3 (mk_date 2024 1 2)). vm_compute. split; discriminate.
Defined.

(* ================================================================== *)
(** ** The windows of the three slots *)

(** The time of day [t] lies in the window of slot [s]. *)
Definition in_slot (s : slot) (t : time) : Prop :=
  slot_start s <= t <= slot_end s.

Definition in_slotb (s : slot) (t : time) : bool :=
  (slot_start s <=? t) && (t <=? slot_end s).

Lemma in_slotb_spec (s : slot) (t : time) : in_slotb s t = true <-> in_slot s t.
Proof.
  unfold in_slotb, in_slot. rewrite andb_true_iff, !Z.leb_le. tauto.
Qed.

(** The windows are what the slots charge on: on a portion [ds]..[de] of
    the day [d], the flat slot charges when the portion meets its window,
    and an hourly slot measures the part of the portion inside its
    window. *)
Lemma slot1_fee_window (fp : bool) (d : date) (r : day_rates) (ds de : datetime) :
  slot1_fee fp d r ds de <> None
  <-> exists t, dt_time ds <= t <= dt_time de /\ in_slot Slot1 t.
Proof.
  unfold slot1_fee, in_slot. cbv zeta.
  destruct (Z.leb_spec (Z.max (dt_time ds) (slot_start Slot1))
                       (Z.min (dt_time de) (slot_end Slot1))) as [H | H].
  - split; [intros _ | discriminate].
    exists (Z.max (dt_time ds) (slot_start Slot1)). lia.
  - split; [congruence | ]. intros [t Ht]. lia.
Qed.

Lemma hourly_overlap_window (s : slot) (d : date) (ds de : datetime) :
  dt_date ds = d -> dt_date de = d ->
  dt_ltb (dt_max ds (combine d (slot_start s))) (dt_min de (combine d (slot_end s)))
  = (Z.max (dt_time ds) (slot_start s) <? Z.min (dt_time de) (slot_end s))
  /\ dt_sub (dt_min de (combine d (slot_end s))) (dt_max ds (combine d (slot_start s)))
     = Z.min (dt_time de) (slot_end s) - Z.max (dt_time ds) (slot_start s).
Proof.
  intros Hs He. destruct ds as [sd st_], de as [ed et]. cbn [dt_date dt_time] in *.
  subst sd ed. unfold dt_sub, dt_max, dt_min, dt_ltb. cbn [dt_date dt_time].
  rewrite !Z.ltb_irrefl, !Z.eqb_refl. cbn [orb andb].
  destruct (Z.ltb_spec st_ (slot_start s)), (Z.ltb_spec (slot_end s) et);
    cbn [dt_date dt_time]; rewrite ?Z.ltb_irrefl, ?Z.eqb_refl; cbn [orb andb];
    (split; [f_equal; lia | unfold US_PER_DAY; lia]).
Qed.

(** C8, the claim as stated fails: 16:59:30 is an instant of the day, and
    of the half-open window 08:00 to 17:00 the claim names, that lies in
    the window of no slot.  It belongs to the occupied portion of the
    non-frequent stay on Monday 2024-01-01 from 16:29 to 17:00, of which
    the daytime slot measures 30 minutes, up to 16:59:00, and the
    evening slot nothing: the stay is charged nothing. *)
Lemma half_past_1659_in_no_slot :
  0 <= mk_time 16 59 30 0 < US_PER_DAY
  /\ mk_time 8 0 0 0 <= mk_time 16 59 30 0 < mk_time 17 0 0 0
  /\ in_slotb Slot1 (mk_time 16 59 30 0) = false
  /\ in_slotb Slot2 (mk_time 16 59 30 0) = false
  /\ in_slotb Slot3 (mk_time 16 59 30 0) = false
  /\ (~ exists s, in_slot s (mk_time 16 59 30 0))
  /\ dt_time (day_start (mk_datetime 2024 1 1 16 29) (mk_date 2024 1 1))
     <= mk_time 16 59 30 0
     <= dt_time (day_end (mk_datetime 2024 1 1 17 0) (mk_date 2024 1 1))
  /\ dt_sub (dt_min (day_end (mk_datetime 2024 1 1 17 0) (mk_date 2024 1 1))
               (combine (mk_date 2024 1 1) (slot_end Slot2)))
            (dt_max (day_start (mk_datetime 2024 1 1 16 29) (mk_date 2024 1 1))
               (combine (mk_date 2024 1 1) (slot_start Slot2)))
     = 30 * 60 * US_PER_SECOND
  /\ charges false (mk_datetime 2024 1 1 16 29) (mk_datetime 2024 1 1 17 0) = Ok []
  /\ calculate_fee false (mk_datetime 2024 1 1 16 29) (mk_datetime 2024 1 1 17 0)
     = Ok 0%float.
Proof.
  split; [vm_compute; split; [discriminate | reflexivity] | ].
  split; [vm_compute; split; [discriminate | reflexivity] | ].
  do 3 (split; [reflexivity | ]).
  split.
  { intros [s H]. apply in_slotb_spec in H. destruct s; discriminate H. }
  split; [vm_compute; split; discriminate | ].
  split; [reflexivity | ].
  split; vm_compute; reflexivity.
Qed.

(** C8, amended.  The windows the fee computation uses are the closed
    clock ranges 00:00 to 07:59:00 (flat slot, met or not), 08:00 to
    16:59:00 and 17:00 to 23:59:59 (hourly slots, measured inside).  No
    time of day lies in two of them, and every whole minute [hh:mm] of a
    day lies in exactly one; they do not cover the 24 hours: the times
    strictly between 07:59 and 08:00, strictly between 16:59 and 17:00,
    and after 23:59:59 lie in none. *)
Theorem slot_windows :
  (slot_start Slot1 = mk_time 0 0 0 0 /\ slot_end Slot1 = mk_time 7 59 0 0
   /\ slot_start Slot2 = mk_time 8 0 0 0 /\ slot_end Slot2 = mk_time 16 59 0 0
   /\ slot_start Slot3 = mk_time 17 0 0 0 /\ slot_end Slot3 = mk_time 23 59 59 0)
  /\ (forall s1 s2 t, in_slot s1 t -> in_slot s2 t -> s1 = s2)
  /\ (forall hh mm, 0 <= hh < 24 -> 0 <= mm < 60 ->
        exists s, in_slot s (mk_time hh mm 0 0)
                  /\ forall s', in_slot s' (mk_time hh mm 0 0) -> s' = s)
  /\ (forall t,
        mk_time 7 59 0 0 < t < mk_time 8 0 0 0
        \/ mk_time 16 59 0 0 < t < mk_time 17 0 0 0
        \/ mk_time 23 59 59 0 < t ->
        forall s, ~ in_slot s t)
  /\ (forall fp d r ds de,
        slot1_fee fp d r ds de <> None
        <-> exists t, dt_time ds <= t <= dt_time de /\ in_slot Slot1 t)
  /\ (forall s d ds de,
        dt_date ds = d -> dt_date de = d ->
        dt_ltb (dt_max ds (combine d (slot_start s)))
               (dt_min de (combine d (slot_end s)))
        = (Z.max (dt_time ds) (slot_start s) <? Z.min (dt_time de) (slot_end s))
        /\ dt_sub (dt_min de (combine d (slot_end s)))
                  (dt_max ds (combine d (slot_start s)))
           = Z.min (dt_time de) (slot_end s) - Z.max (dt_time ds) (slot_start s)).
Proof.
  assert (forall s1 s2 t, in_slot s1 t -> in_slot s2 t -> s1 = s2) as Hdisj.
  { intros s1 s2 t H1 H2. unfold in_slot in *.
    destruct s1, s2; try reflexivity; clock; lia. }
  split; [repeat split | ].
  split; [exact Hdisj | ].
  split.
  { intros hh mm Hh Hm.
    assert (exists s, in_slot s (mk_time hh mm 0 0)) as [s Hs].
    { unfold in_slot.
      destruct (Z.lt_ge_cases hh 8); [exists Slot1; clock; lia | ].
      destruct (Z.lt_ge_cases hh 17); [exists Slot2; clock; lia | ].
      exists Slot3; clock; lia. }
    exists s. split; [exact Hs | ]. intros s' Hs'. now apply (Hdisj s' s _ Hs' Hs). }
  split.
  { intros t Ht s Hs. unfold in_slot in Hs. destruct s; clock; lia. }
  split; [apply slot1_fee_window | apply hourly_overlap_window].
Qed.

Lemma slot_windows_witness :
  (exists s, in_slot s (mk_time 16 59 0 0)
             /\ forall s', in_slot s' (mk_time 16 59 0 0) -> s' = s)
  /\ forall s, ~ in_slot s (mk_time 16 59 30 0).
Proof.
  split.
  - apply (proj1 (proj2 (proj2 slot_windows)) 16 59); lia.
  - apply (proj1 (proj2 (proj2 (proj2 slot_windows))) (mk_time 16 59 30 0)).
    right; left. vm_compute. split; reflexivity.
Defined.

(* ================================================================== *)
(** ** Properties of every amount added *)

Lemma overlap2_bound (a l : datetime) (d : date) :
  dt_ltb (dt_max (day_start a d) (combine d (slot_start Slot2)))
         (dt_min (day_end l d) (combine d (slot_end Slot2))) = true ->
  dt_sub (dt_min (day_end l d) (combine d (slot_end Slot2)))
         (dt_max (day_start a d) (combine d (slot_start Slot2)))
  <= 32340 * US_PER_SECOND.
Proof.
  destruct a as [ad ta], l as [ld tl].
  unfold dt_sub. dt_cases; intros Hov; try discriminate; lia.
Qed.

Lemma overlap3_bound (a l : datetime) (d : date) :
  dt_ltb (dt_max (day_start a d) (combine d (slot_start Slot3)))
         (dt_min (day_end l d) (combine d (slot_end Slot3))) = true ->
  dt_sub (dt_min (day_end l d) (combine d (slot_end Slot3)))
         (dt_max (day_start a d) (combine d (slot_start Slot3)))
  <= 25199 * US_PER_SECOND.
Proof.
  destruct a as [ad ta], l as [ld tl].
  unfold dt_sub. dt_cases; intros Hov; try discriminate; lia.
Qed.

Lemma half_even_bound (s k : Z) :
  0 <= s -> s < 3600 * k - 1800 -> PyNum.round_half_even_div s 3600 < k.
Proof.
  intros H0 Hs. unfold PyNum.round_half_even_div. cbv zeta.
  pose proof (Z.div_mod s 3600 ltac:(lia)) as E.
  pose proof (Z.mod_pos_bound s 3600 ltac:(lia)) as B.
  destruct (Z.compare_spec (2 * (s mod 3600)) 3600) as [C | C | C]; try lia.
  destruct (Z.even (s / 3600)); lia.
Qed.

Lemma opt_charge_Forall (P : slot -> float -> Prop) (d : date) (s : slot)
    (fee : option float) :
  (forall f, fee = Some f -> P s f) ->
  Forall (fun c => P (c_slot c) (c_fee c)) (opt_charge d s fee).
Proof.
  intros H. destruct fee as [f | ]; cbn; constructor; [ | constructor].
  cbn. now apply H.
Qed.

Section EveryCharge.

Variable fp : bool.
Variables a l : datetime.
Hypothesis Ha : whole_second a.
Hypothesis Hl : whole_second l.

(** A property of the amounts of a slot that holds of the flat fee, of
    the daytime fee of 1 to 9 hours and of the evening fee of 1 to 7
    hours. *)
Variable P : slot -> float -> Prop.
Hypothesis P_flat : P Slot1 (if fp then 10%float else 20%float).
Hypothesis P_daytime :
  forall (d : date) (w m h : Z),
    max_stay (rate_0800_1659 (rates_of w)) = MaxInt m ->
    1 <= h <= 9 ->
    P Slot2 (_apply_discount fp
               (capped_fee m (price_per_hour (rate_0800_1659 (rates_of w))) h)
               (combine d (slot_start Slot2))).
Hypothesis P_evening :
  forall (d : date) (h : Z),
    1 <= h <= 7 ->
    P Slot3 (_apply_discount fp (PyNum.float_of_int h * 5)%float
               (combine d (slot_start Slot3))).

Lemma day_list_Forall (d : date) :
  Forall (fun c => P (c_slot c) (c_fee c)) (day_list fp a l d).
Proof.
  assert (exists f1 f2 f3,
            day_charges fp a l d
            = Ok (opt_charge d Slot1 f1 ++ opt_charge d Slot2 f2 ++ opt_charge d Slot3 f3)
            /\ (forall f, f1 = Some f -> P Slot1 f)
            /\ (forall f, f2 = Some f -> P Slot2 f)
            /\ (forall f, f3 = Some f -> P Slot3 f)) as [f1 [f2 [f3 [E [B1 [B2 B3]]]]]].
  { rewrite day_charges_unfold, RATES_weekday. cbn [bind].
    rewrite slot1_fee_touch.
    destruct (rates_of_daytime (weekday d)) as [m [Hm _]].
    assert (exists f2, slot2_fee fp d (rates_of (weekday d)) (day_start a d) (day_end l d)
                       = Ok f2 /\ forall f, f2 = Some f -> P Slot2 f)
      as [f2 [E2 B2]].
    { destruct (dt_ltb (dt_max (day_start a d) (combine d (slot_start Slot2)))
                       (dt_min (day_end l d) (combine d (slot_end Slot2)))) eqn:Hov.
      - destruct (overlap2_seconds a l Ha Hl d Hov) as [s [Hs Es]].
        pose proof (overlap2_bound a l d Hov) as Hb. rewrite Es in Hb.
        unfold US_PER_SECOND in Hb.
        rewrite (slot2_fee_at fp d _ _ _ s m Hov Es ltac:(lia) Hm).
        eexists; split; [reflexivity | ]. intros f.
        destruct (Z.ltb_spec 0 (PyNum.round_half_even_div s 3600)); [ | discriminate].
        intros [= <-]. apply P_daytime; [exact Hm | ].
        pose proof (half_even_bound s 10 ltac:(lia) ltac:(lia)). lia.
      - rewrite slot2_fee_no_overlap by exact Hov.
        eexists; split; [reflexivity | discriminate]. }
    assert (exists f3, slot3_fee fp d (rates_of (weekday d)) (day_start a d) (day_end l d)
                       = Ok f3 /\ forall f, f3 = Some f -> P Slot3 f)
      as [f3 [E3 B3]].
    { destruct (dt_ltb (dt_max (day_start a d) (combine d (slot_start Slot3)))
                       (dt_min (day_end l d) (combine d (slot_end Slot3)))) eqn:Hov.
      - destruct (overlap3_seconds a l Ha Hl d Hov) as [s [Hs Es]].
        pose proof (overlap3_bound a l d Hov) as Hb. rewrite Es in Hb.
        unfold US_PER_SECOND in Hb.
        rewrite (slot3_fee_at fp d _ _ _ s Hov Es ltac:(lia)).
        eexists; split; [reflexivity | ]. intros f.
        destruct (Z.ltb_spec 0 (PyNum.round_half_even_div s 3600)); [ | discriminate].
        intros [= <-]. rewrite rates_of_evening. apply P_evening.
        pose proof (half_even_bound s 8 ltac:(lia) ltac:(lia)). lia.
      - rewrite slot3_fee_no_overlap by exact Hov.
        eexists; split; [reflexivity | discriminate]. }
    rewrite E2, E3. cbn [bind]. do 3 eexists. split; [reflexivity | ].
    split; [ | split; assumption].
    intros f. destruct (Z.max _ _ <=? Z.min _ _); [ | discriminate].
    intros [= <-]. exact P_flat. }
  unfold day_list. rewrite E.
  repeat (apply Forall_app; split); now apply opt_charge_Forall.
Qed.

End EveryCharge.

(* ================================================================== *)
(** ** Binary64 arithmetic on whole amounts

    Sums of non-negative integers below [2^53] are exact in binary64,
    and [round(x, 2)] returns an integer-valued [x] unchanged. *)

Lemma digits2_bounds (p : positive) :
  2 ^ (Zpos (digits2_pos p) - 1) <= Zpos p < 2 ^ Zpos (digits2_pos p).
Proof.
  induction p as [p IH | p IH | ]; cbn [digits2_pos].
  - rewrite Pos2Z.inj_succ, Z.pow_succ_r by lia.
    replace (Z.succ (Zpos (digits2_pos p)) - 1)
      with (Z.succ (Zpos (digits2_pos p) - 1)) by lia.
    rewrite Z.pow_succ_r by lia. lia.
  - rewrite Pos2Z.inj_succ, Z.pow_succ_r by lia.
    replace (Z.succ (Zpos (digits2_pos p)) - 1)
      with (Z.succ (Zpos (digits2_pos p) - 1)) by lia.
    rewrite Z.pow_succ_r by lia. lia.
  - cbn. lia.
Qed.

Lemma digits2_unique (p : positive) (d : Z) :
  2 ^ (d - 1) <= Zpos p < 2 ^ d -> Zpos (digits2_pos p) = d.
Proof.
  intros [Hlo Hhi]. pose proof (digits2_bounds p) as [Blo Bhi].
  assert (0 < d) as Hd.
  { destruct (Z.lt_ge_cases 0 d) as [H | H]; [exact H | ].
    destruct (Z.eq_dec d 0) as [-> | Hne]; [cbn in Hhi; lia | ].
    rewrite Z.pow_neg_r in Hhi by lia. lia. }
  assert (d - 1 < Zpos (digits2_pos p)) as H1.
  { apply (Z.pow_lt_mono_r_iff 2); lia. }
  assert (Zpos (digits2_pos p) - 1 < d) as H2.
  { apply (Z.pow_lt_mono_r_iff 2); lia. }
  lia.
Qed.

Lemma iter_xO_spec (p k : positive) :
  Zpos (Pos.iter xO p k) = Zpos p * 2 ^ Zpos k.
Proof.
  induction k as [ | k IH] using Pos.peano_ind.
  - cbn. lia.
  - rewrite Pos.iter_succ, Pos2Z.inj_succ, Z.pow_succ_r by lia.
    rewrite Pos2Z.inj_xO, IH. lia.
Qed.

Lemma iter_pos_eq {A : Type} (f : A -> A) (n : positive) :
  forall x, iter_pos f n x = Pos.iter f x n.
Proof.
  induction n as [n IH | n IH | ]; intros x; cbn [iter_pos Pos.iter].
  - rewrite !IH. now rewrite !Pos.iter_swap.
  - now rewrite !IH.
  - reflexivity.
Qed.

Lemma shr_exact (mc k : positive) :
  iter_pos shr_1 k
    {| shr_m := Zpos (Pos.iter xO mc k); shr_r := false; shr_s := false |}
  = {| shr_m := Zpos mc; shr_r := false; shr_s := false |}.
Proof.
  rewrite iter_pos_eq.
  induction k as [ | k IH] using Pos.peano_ind.
  - reflexivity.
  - rewrite Pos.iter_succ_r, Pos.iter_succ. cbn [shr_1 orb]. exact IH.
Qed.

(** A mantissa of 53 bits. *)
Definition normal53 (mc : positive) : Prop := 2 ^ 52 <= Zpos mc < 2 ^ 53.

Lemma normal53_digits (mc : positive) : normal53 mc -> Zpos (digits2_pos mc) = 53.
Proof. intros H. apply digits2_unique. exact H. Qed.

Lemma fexp_normal (x : Z) : -1021 <= x -> fexp prec emax x = x - 53.
Proof. intros H. unfold fexp, SpecFloat.emin, prec, emax. lia. Qed.

Lemma bra_exact (M mc : positive) (E j : Z) :
  normal53 mc -> 0 <= j -> Zpos M = Zpos mc * 2 ^ j ->
  -1074 <= E + j <= 971 ->
  binary_round_aux prec emax false (Zpos M) E loc_Exact = S754_finite false mc (E + j).
Proof.
  intros Hn Hj HM HE.
  assert (Zpos (digits2_pos M) = 53 + j) as HdM.
  { apply digits2_unique. rewrite HM. unfold normal53 in Hn.
    replace (53 + j - 1) with (52 + j) by lia.
    rewrite !Z.pow_add_r by lia.
    pose proof (Z.pow_pos_nonneg 2 j ltac:(lia) Hj). nia. }
  unfold binary_round_aux, shr_fexp. cbn [Zdigits2 shr_record_of_loc].
  rewrite HdM, fexp_normal by lia.
  replace (53 + j + E - 53 - E) with j by lia.
  assert (shr {| shr_m := Zpos M; shr_r := false; shr_s := false |} E j
          = ({| shr_m := Zpos mc; shr_r := false; shr_s := false |}, E + j)) as ->.
  { destruct j as [ | k | k]; [ | | lia].
    - cbn [shr]. rewrite Z.mul_1_r in HM. injection HM as ->.
      now rewrite Z.add_0_r.
    - cbn [shr]. rewrite <- iter_xO_spec in HM. injection HM as ->.
      now rewrite shr_exact. }
  cbn [shr_m loc_of_shr_record round_nearest_even Zdigits2 shr_record_of_loc].
  rewrite (normal53_digits mc Hn), fexp_normal by lia.
  replace (53 + (E + j) - 53 - (E + j)) with 0 by lia.
  cbn [shr shr_m].
  destruct (Z.leb_spec (E + j) (emax - prec)) as [_ | H]; [reflexivity | ].
  unfold emax, prec in H. lia.
Qed.

Lemma shl_align_fst (mx : positive) (ex ez : Z) :
  ez <= ex -> Zpos (fst (shl_align mx ex ez)) = Zpos mx * 2 ^ (ex - ez).
Proof.
  intros H. unfold shl_align.
  destruct (ez - ex) as [ | d | d] eqn:E; try lia.
  - replace (ex - ez) with 0 by lia. cbn [fst]. lia.
  - cbn [fst]. rewrite iter_xO_spec. f_equal. f_equal. lia.
Qed.

Lemma shl_align_snd (mx : positive) (ex ez : Z) :
  ez <= ex -> snd (shl_align mx ex ez) = ez.
Proof.
  intros H. unfold shl_align.
  destruct (ez - ex) as [ | d | d] eqn:E; cbn [snd]; lia.
Qed.

Lemma shl_align_none (mx : positive) (ex ez : Z) :
  ex <= ez -> shl_align mx ex ez = (mx, ex).
Proof.
  intros H. unfold shl_align.
  destruct (ez - ex) as [ | d | d] eqn:E; try reflexivity; lia.
Qed.

(** [m * 2^e] and [mc * 2^ec] are the same number. *)
Definition same_dyadic (m : positive) (e : Z) (mc : positive) (ec : Z) : Prop :=
  (ec <= e /\ Zpos mc = Zpos m * 2 ^ (e - ec))
  \/ (e <= ec /\ Zpos m = Zpos mc * 2 ^ (ec - e)).

Lemma bn_exact (m mc : positive) (e ec : Z) :
  normal53 mc -> -1074 <= ec <= 971 ->
  same_dyadic m e mc ec ->
  binary_normalize prec emax (Zpos m) e false = S754_finite false mc ec.
Proof.
  intros Hn Hec [[Hle HM] | [Hle HM]]; cbn [binary_normalize]; unfold binary_round.
  - set (k := e - ec) in *.
    assert (0 < 2 ^ k) as Hk by (apply Z.pow_pos_nonneg; lia).
    assert (Zpos (digits2_pos m) = 53 - k) as Hd.
    { apply digits2_unique. unfold normal53 in Hn. rewrite HM in Hn.
      assert (k <= 52) as Hk52.
      { destruct (Z.le_gt_cases k 52) as [H | H]; [exact H | ].
        assert (2 ^ 53 <= 2 ^ k) by (apply Z.pow_le_mono_r; lia). nia. }
      replace (2 ^ 52) with (2 ^ (53 - k - 1) * 2 ^ k) in Hn
        by (rewrite <- Z.pow_add_r by lia; f_equal; lia).
      replace (2 ^ 53) with (2 ^ (53 - k) * 2 ^ k) in Hn
        by (rewrite <- Z.pow_add_r by lia; f_equal; lia).
      nia. }
    rewrite Hd, fexp_normal by lia.
    replace (53 - k + e - 53) with ec by lia.
    pose proof (shl_align_fst m e ec Hle) as Hf.
    pose proof (shl_align_snd m e ec Hle) as Hs.
    destruct (shl_align m e ec) as [mz ez]. cbn [fst snd] in Hf, Hs. subst ez.
    fold k in Hf. rewrite <- HM in Hf. injection Hf as ->.
    rewrite (bra_exact mc mc ec 0 Hn); [now rewrite Z.add_0_r | lia | lia | lia].
  - set (j := ec - e) in *.
    assert (0 < 2 ^ j) as Hj by (apply Z.pow_pos_nonneg; lia).
    assert (Zpos (digits2_pos m) = 53 + j) as Hd.
    { apply digits2_unique. unfold normal53 in Hn. rewrite HM.
      replace (53 + j - 1) with (52 + j) by lia.
      rewrite !Z.pow_add_r by lia. nia. }
    rewrite Hd, fexp_normal by lia.
    replace (53 + j + e - 53) with ec by lia.
    rewrite shl_align_none by lia.
    rewrite (bra_exact m mc e j Hn); [f_equal; lia | lia | exact HM | lia].
Qed.

Lemma valid_normal (mc : positive) (ec : Z) :
  normal53 mc -> -1074 <= ec <= 971 ->
  valid_binary (S754_finite false mc ec) = true.
Proof.
  intros Hn Hec. cbn [valid_binary]. unfold bounded, canonical_mantissa.
  rewrite (normal53_digits mc Hn), fexp_normal by lia.
  apply andb_true_intro. split; [apply Z.eqb_eq; lia | apply Z.leb_le].
  unfold emax, prec. lia.
Qed.

(** The 53-bit mantissa and the exponent of a positive integer below
    [2^53]. *)
Lemma int_normal (n : Z) :
  0 < n < 2 ^ 53 ->
  exists mc ec, normal53 mc /\ -52 <= ec <= 0 /\ Zpos mc = n * 2 ^ (- ec).
Proof.
  intros Hn. destruct n as [ | p | p]; try lia.
  pose proof (digits2_bounds p) as [Blo Bhi].
  set (d := Zpos (digits2_pos p)) in *.
  assert (d <= 53) as Hd.
  { destruct (Z.le_gt_cases d 53) as [H | H]; [exact H | ].
    assert (2 ^ 53 <= 2 ^ (d - 1)) by (apply Z.pow_le_mono_r; lia). lia. }
  assert (0 < d) as Hd0 by (subst d; lia).
  assert (0 < 2 ^ (53 - d)) as Hpos by (apply Z.pow_pos_nonneg; lia).
  exists (Z.to_pos (Zpos p * 2 ^ (53 - d))), (d - 53).
  rewrite Z2Pos.id by nia.
  replace (- (d - 53)) with (53 - d) by lia.
  split; [ | split; [lia | reflexivity]].
  unfold normal53.
  replace (2 ^ 52) with (2 ^ (d - 1) * 2 ^ (53 - d))
    by (rewrite <- Z.pow_add_r by lia; f_equal; lia).
  replace (2 ^ 53) with (2 ^ d * 2 ^ (53 - d))
    by (rewrite <- Z.pow_add_r by lia; f_equal; lia).
  nia.
Qed.

Lemma float_of_int_SF (n : Z) :
  0 < n < 2 ^ 53 ->
  exists mc ec,
    normal53 mc /\ -52 <= ec <= 0 /\ Zpos mc = n * 2 ^ (- ec)
    /\ binary_normalize prec emax n 0 false = S754_finite false mc ec
    /\ Prim2SF (PyNum.float_of_int n) = S754_finite false mc ec.
Proof.
  intros Hn. destruct (int_normal n Hn) as [mc [ec [Hmc [Hec HM]]]].
  exists mc, ec. split; [exact Hmc | ]. split; [exact Hec | ]. split; [exact HM | ].
  assert (binary_normalize prec emax n 0 false = S754_finite false mc ec) as Hbn.
  { destruct n as [ | p | p]; try lia.
    apply bn_exact; [exact Hmc | lia | ].
    left. split; [lia | ]. now rewrite Z.sub_0_l. }
  split; [exact Hbn | ].
  unfold PyNum.float_of_int. rewrite Hbn.
  apply Prim2SF_SF2Prim. apply valid_normal; [exact Hmc | lia].
Qed.

Lemma exponent_mono (x y : Z) (mx my : positive) (ex ey : Z) :
  0 < x <= y -> normal53 mx -> normal53 my -> ex <= 0 -> ey <= 0 ->
  Zpos mx = x * 2 ^ (- ex) -> Zpos my = y * 2 ^ (- ey) -> ex <= ey.
Proof.
  intros Hxy Hmx Hmy Hex Hey Ex Ey.
  destruct (Z.le_gt_cases ex ey) as [H | H]; [exact H | exfalso].
  unfold normal53 in *.
  assert (2 ^ (- ey) = 2 ^ (- ex) * 2 ^ (ex - ey)) as Hp
    by (rewrite <- Z.pow_add_r by lia; f_equal; lia).
  assert (2 <= 2 ^ (ex - ey)) as H2.
  { change 2 with (2 ^ 1) at 1. apply Z.pow_le_mono_r; lia. }
  assert (0 < 2 ^ (- ex)) by (apply Z.pow_pos_nonneg; lia).
  rewrite Hp in Ey. change (2 ^ 52) with 4503599627370496 in *.
  change (2 ^ 53) with 9007199254740992 in *. nia.
Qed.

Lemma int_add_exact (a b : Z) :
  0 <= a -> 0 <= b -> a + b < 2 ^ 53 ->
  (PyNum.float_of_int a + PyNum.float_of_int b)%float = PyNum.float_of_int (a + b).
Proof.
  intros Ha Hb Hab. apply Prim2SF_inj. rewrite add_spec.
  destruct (Z.eq_dec a 0) as [-> | Ha0].
  { rewrite Z.add_0_l. change (PyNum.float_of_int 0) with 0%float.
    change (Prim2SF 0) with (S754_zero false). unfold SF64add, SFadd.
    destruct (Z.eq_dec b 0) as [-> | Hb0]; [reflexivity | ].
    destruct (float_of_int_SF b ltac:(lia)) as [mc [ec [_ [_ [_ [_ ->]]]]]].
    reflexivity. }
  destruct (Z.eq_dec b 0) as [-> | Hb0].
  { rewrite Z.add_0_r. change (PyNum.float_of_int 0) with 0%float.
    change (Prim2SF 0) with (S754_zero false). unfold SF64add, SFadd.
    destruct (float_of_int_SF a ltac:(lia)) as [mc [ec [_ [_ [_ [_ ->]]]]]].
    reflexivity. }
  destruct (float_of_int_SF a ltac:(lia)) as [ma [ea [Hma [Hea [Ea [_ ->]]]]]].
  destruct (float_of_int_SF b ltac:(lia)) as [mb [eb [Hmb [Heb [Eb [_ ->]]]]]].
  destruct (float_of_int_SF (a + b) ltac:(lia)) as [mc [ec [Hmc [Hec [Ec [_ ->]]]]]].
  unfold SF64add, SFadd. cbn [cond_Zopp].
  set (ez := Z.min ea eb).
  rewrite (shl_align_fst ma ea ez), (shl_align_fst mb eb ez) by lia.
  assert (ea <= ec) as Hac
    by (apply (exponent_mono a (a + b) ma mc); try assumption; lia).
  assert (Zpos ma * 2 ^ (ea - ez) + Zpos mb * 2 ^ (eb - ez) = (a + b) * 2 ^ (- ez)) as HS.
  { rewrite Ea, Eb, <- !Z.mul_assoc, <- !Z.pow_add_r by lia.
    replace (- ea + (ea - ez)) with (- ez) by lia.
    replace (- eb + (eb - ez)) with (- ez) by lia. lia. }
  rewrite HS.
  assert (0 < 2 ^ (- ez)) by (apply Z.pow_pos_nonneg; lia).
  destruct ((a + b) * 2 ^ (- ez)) as [ | S | S] eqn:ES; try nia.
  apply bn_exact; [exact Hmc | lia | ].
  right. split; [lia | ].
  rewrite Ec, <- Z.mul_assoc, <- Z.pow_add_r by lia.
  replace (- ec + (ec - ez)) with (- ez) by lia. now rewrite ES.
Qed.

Lemma half_even_scaled_exact (x m e : Z) :
  e <= 0 -> m = x * 2 ^ (- e) -> PyNum.round_half_even_scaled m e = x.
Proof.
  intros He Hm. unfold PyNum.round_half_even_scaled.
  destruct (Z.leb_spec 0 e) as [H0 | H0].
  - assert (e = 0) as -> by lia. subst m. cbn. lia.
  - cbv zeta. assert (0 < 2 ^ (- e)) as Hp by (apply Z.pow_pos_nonneg; lia).
    subst m. rewrite Z.div_mul, Z.mod_mul by lia.
    destruct (Z.compare_spec (2 * 0) (2 ^ (- e))); [lia | reflexivity | lia].
Qed.

Lemma div_eucl_exact (x b : Z) : 0 < b -> Z.div_eucl (x * b) b = (x, 0).
Proof.
  intros Hb.
  pose proof (Z.div_mul x b ltac:(lia)) as Hq.
  pose proof (Z.mod_mul x b ltac:(lia)) as Hr.
  unfold Z.div, Z.modulo in Hq, Hr.
  destruct (Z.div_eucl (x * b) b) as [q r]. now subst.
Qed.

Lemma div100_exact (n : Z) (mc : positive) (ec : Z) :
  0 < n -> normal53 mc -> -52 <= ec <= 0 -> Zpos mc = n * 2 ^ (- ec) ->
  SFdiv prec emax (PyNum.Z2SF (n * 100)) (PyNum.Z2SF 100) = S754_finite false mc ec.
Proof.
  intros Hn Hmc Hec HM.
  destruct (n * 100) as [ | p | p] eqn:Ep; try lia.
  cbn [PyNum.Z2SF SFdiv xorb]. unfold SFdiv_core_binary. cbn [Zdigits2].
  pose proof (digits2_bounds p) as [Blo Bhi].
  set (d1 := Zpos (digits2_pos p)) in *.
  assert (0 < d1) as Hd0 by (subst d1; lia).
  assert (0 < 2 ^ (- ec)) as Hpe by (apply Z.pow_pos_nonneg; lia).
  assert (d1 <= 60 + ec) as Hd1.
  { assert (d1 - 1 < 60 + ec); [ | lia].
    apply (Z.pow_lt_mono_r_iff 2); try lia.
    eapply Z.le_lt_trans; [exact Blo | ].
    unfold normal53 in Hmc.
    replace (2 ^ (60 + ec)) with (2 ^ 7 * 2 ^ (53 + ec))
      by (rewrite <- Z.pow_add_r by lia; f_equal; lia).
    assert (n < 2 ^ (53 + ec)).
    { assert (2 ^ 53 = 2 ^ (53 + ec) * 2 ^ (- ec)) as E53
        by (rewrite <- Z.pow_add_r by lia; f_equal; lia).
      rewrite E53 in Hmc. nia. }
    change (2 ^ 7) with 128. lia. }
  change (Zpos (digits2_pos 100)) with 7.
  rewrite fexp_normal by lia.
  replace (Z.min (d1 + 0 - (7 + 0) - 53) (0 - 0)) with (d1 - 60) by lia.
  replace (0 - 0 - (d1 - 60)) with (60 - d1) by lia.
  set (s := 60 - d1) in *.
  assert (0 < 2 ^ s) as Hps by (apply Z.pow_pos_nonneg; lia).
  assert (match s with
          | 0 => Zpos p
          | Zpos _ => Z.shiftl (Zpos p) s
          | Zneg _ => 0
          end = n * 2 ^ s * 100) as ->.
  { destruct s as [ | k | k] eqn:Es; try lia.
    rewrite Z.shiftl_mul_pow2 by lia. rewrite <- Ep. ring. }
  rewrite div_eucl_exact by lia.
  change (new_location 100 0) with loc_Exact.
  destruct (n * 2 ^ s) as [ | M | M] eqn:EM; try nia.
  rewrite (bra_exact M mc (d1 - 60) (ec + s) Hmc); [f_equal; lia | lia | | lia].
  rewrite <- EM, HM, <- Z.mul_assoc, <- Z.pow_add_r by lia.
  f_equal. f_equal. lia.
Qed.

Lemma round2_int (n : Z) :
  0 <= n < 2 ^ 53 -> PyNum.round2 (PyNum.float_of_int n) = PyNum.float_of_int n.
Proof.
  intros Hn. destruct (Z.eq_dec n 0) as [-> | Hn0]; [reflexivity | ].
  destruct (float_of_int_SF n ltac:(lia)) as [mc [ec [Hmc [Hec [HM [Hbn HSF]]]]]].
  unfold PyNum.round2. rewrite HSF.
  rewrite (half_even_scaled_exact (n * 100) (Zpos mc * 100) ec) by lia.
  destruct (Z.eqb_spec (n * 100) 0) as [E | _]; [lia | ].
  rewrite (div100_exact n mc ec) by (try assumption; lia).
  unfold PyNum.float_of_int. now rewrite Hbn.
Qed.

(** *** Sums that round

    A binary64 addition of two numbers from 1 to [2^24] returns a number
    within one unit of its last place of the exact sum; [round(x, 2)]
    of a number close enough to [K / 10] is the same number for all such
    [x]. *)

Lemma shr_1_m (mrs : shr_record) :
  0 <= shr_m mrs -> shr_m (shr_1 mrs) = shr_m mrs / 2.
Proof.
  destruct mrs as [m r s]. cbn [shr_m]. intros Hm.
  destruct m as [ | p | p]; [reflexivity | | lia].
  destruct p as [p | p | ]; cbn [shr_1 shr_m].
  - rewrite Pos2Z.inj_xI. apply (Z.div_unique _ _ _ 1); lia.
  - rewrite Pos2Z.inj_xO. apply (Z.div_unique _ _ _ 0); lia.
  - reflexivity.
Qed.

Lemma shr_iter_m (n : positive) (mrs : shr_record) :
  0 <= shr_m mrs -> shr_m (iter_pos shr_1 n mrs) = shr_m mrs / 2 ^ Zpos n.
Proof.
  intros Hm. rewrite iter_pos_eq.
  induction n as [ | n IH] using Pos.peano_ind.
  - cbn [Pos.iter]. rewrite shr_1_m by exact Hm. reflexivity.
  - rewrite Pos.iter_succ, shr_1_m, IH.
    + rewrite Pos2Z.inj_succ, Z.pow_succ_r by lia.
      rewrite Z.div_div by (try apply Z.pow_pos_nonneg; lia).
      f_equal. lia.
    + rewrite IH. apply Z.div_pos; [exact Hm | apply Z.pow_pos_nonneg; lia].
Qed.

Lemma round_nearest_even_cases (q : Z) (lx : location) :
  round_nearest_even q lx = q \/ round_nearest_even q lx = q + 1.
Proof.
  destruct lx as [ | [ | | ]]; cbn [round_nearest_even]; auto.
  destruct (Z.even q); auto.
Qed.

(** Rounding a mantissa of at least 53 bits: the result is a 53-bit
    mantissa within one unit of its last place of the argument. *)
Lemma bra_near (M : positive) (E : Z) :
  2 ^ 52 <= Zpos M -> -1074 <= E -> E + Zpos (digits2_pos M) - 53 <= 900 ->
  exists mz ez,
    binary_round_aux prec emax false (Zpos M) E loc_Exact = S754_finite false mz ez
    /\ normal53 mz
    /\ E <= ez <= E + Zpos (digits2_pos M) - 52
    /\ Z.abs (Zpos mz * 2 ^ (ez - E) - Zpos M) <= 2 ^ (ez - E).
Proof.
  intros HM HE Hhi.
  pose proof (digits2_bounds M) as [Blo Bhi].
  set (dM := Zpos (digits2_pos M)) in *.
  assert (53 <= dM) as HdM.
  { destruct (Z.le_gt_cases 53 dM) as [H | H]; [exact H | ].
    assert (2 ^ dM <= 2 ^ 52) by (apply Z.pow_le_mono_r; lia). lia. }
  unfold binary_round_aux, shr_fexp. cbn [Zdigits2 shr_record_of_loc].
  fold dM. rewrite fexp_normal by lia.
  replace (dM + E - 53 - E) with (dM - 53) by lia.
  set (n := dM - 53) in *.
  (* first shift *)
  assert (exists mrs,
             shr {| shr_m := Zpos M; shr_r := false; shr_s := false |} E n
             = (mrs, E + n)
             /\ shr_m mrs = Zpos M / 2 ^ n) as [mrs [-> Hq]].
  { destruct n as [ | k | k] eqn:En; [ | | lia].
    - eexists. split; [cbn [shr]; now rewrite Z.add_0_r | ].
      cbn [shr_m]. now rewrite Z.pow_0_r, Z.div_1_r.
    - eexists. split; [reflexivity | ]. apply shr_iter_m. cbn. lia. }
  set (q := shr_m mrs) in *.
  assert (0 < 2 ^ n) as Hpn by (apply Z.pow_pos_nonneg; lia).
  assert (2 ^ 52 <= q < 2 ^ 53) as Hqb.
  { rewrite Hq. split.
    - apply Z.div_le_lower_bound; [lia | ].
      replace (2 ^ n * 2 ^ 52) with (2 ^ (dM - 1))
        by (rewrite <- Z.pow_add_r by lia; f_equal; lia).
      exact Blo.
    - apply Z.div_lt_upper_bound; [lia | ].
      replace (2 ^ n * 2 ^ 53) with (2 ^ dM)
        by (rewrite <- Z.pow_add_r by lia; f_equal; lia).
      exact Bhi. }
  assert (q * 2 ^ n <= Zpos M < (q + 1) * 2 ^ n) as HqM.
  { rewrite Hq.
    pose proof (Z.div_mod (Zpos M) (2 ^ n) ltac:(lia)) as Hdm.
    pose proof (Z.mod_pos_bound (Zpos M) (2 ^ n) ltac:(lia)) as Hmb. nia. }
  set (m' := round_nearest_even q (loc_of_shr_record mrs)).
  assert (m' = q \/ m' = q + 1) as Hm' by apply round_nearest_even_cases.
  destruct (Z.eq_dec m' (2 ^ 53)) as [Eover | Hlt].
  - (* the mantissa overflows to 2^53: one more shift *)
    rewrite Eover. change (2 ^ 53) with (Zpos (2 ^ 53)%positive).
    cbn [Zdigits2 shr_record_of_loc].
    change (Zpos (digits2_pos (2 ^ 53))) with 54.
    rewrite fexp_normal by lia.
    replace (54 + (E + n) - 53 - (E + n)) with 1 by lia.
    cbn [shr iter_pos shr_1 orb shr_m].
    change (Zpos (Pos.pow 2 53)) with (2 ^ 53) in *.
    exists (2 ^ 52)%positive, (E + n + 1).
    destruct (Z.leb_spec (E + n + 1) (emax - prec)) as [_ | H];
      [ | unfold emax, prec in H; lia].
    split; [reflexivity | ].
    split; [unfold normal53; cbn; lia | ].
    split; [lia | ].
    replace (E + n + 1 - E) with (n + 1) by lia.
    rewrite Z.pow_add_r by lia.
    change (Zpos (2 ^ 52)) with (2 ^ 52). change (2 ^ 1) with 2.
    assert (q + 1 = 2 ^ 53) as Hq1 by lia.
    replace (2 ^ 52 * (2 ^ n * 2)) with ((q + 1) * 2 ^ n)
      by (rewrite Hq1; change (2 ^ 53) with (2 ^ 52 * 2); ring).
    lia.
  - assert (2 ^ 52 <= m' < 2 ^ 53) as Hmb by lia.
    destruct m' as [ | pm | pm] eqn:Em'; try lia.
    cbn [Zdigits2 shr_record_of_loc].
    rewrite (normal53_digits pm Hmb), fexp_normal by lia.
    replace (53 + (E + n) - 53 - (E + n)) with 0 by lia.
    cbn [shr shr_m].
    exists pm, (E + n).
    destruct (Z.leb_spec (E + n) (emax - prec)) as [_ | H];
      [ | unfold emax, prec in H; lia].
    split; [reflexivity | ].
    split; [exact Hmb | ].
    split; [lia | ].
    replace (E + n - E) with n by lia.
    destruct Hm' as [Hm' | Hm']; rewrite Hm'; lia.
Qed.

(** The value of [m * 2^e] in units of [2^-52], for [-52 <= e]. *)
Definition units (m : positive) (e : Z) : Z := Zpos m * 2 ^ (e + 52).

Lemma SFadd_units (m1 m2 : positive) (e1 e2 : Z) :
  normal53 m1 -> normal53 m2 -> -52 <= e1 <= 0 -> -52 <= e2 <= 0 ->
  exists mz ez,
    SFadd prec emax (S754_finite false m1 e1) (S754_finite false m2 e2)
    = S754_finite false mz ez
    /\ normal53 mz
    /\ -52 <= ez <= 2
    /\ Z.abs (units mz ez - (units m1 e1 + units m2 e2)) <= 2 ^ (ez + 52).
Proof.
  intros H1 H2 He1 He2. unfold SFadd. cbn [cond_Zopp].
  set (E := Z.min e1 e2).
  rewrite (shl_align_fst m1 e1 E), (shl_align_fst m2 e2 E) by lia.
  assert (0 < 2 ^ (e1 - E)) as Hp1 by (apply Z.pow_pos_nonneg; lia).
  assert (0 < 2 ^ (e2 - E)) as Hp2 by (apply Z.pow_pos_nonneg; lia).
  unfold normal53 in H1, H2.
  assert (2 ^ 52 <= Zpos m1 * 2 ^ (e1 - E) + Zpos m2 * 2 ^ (e2 - E)) as Hlo.
  { destruct (Z.le_ge_cases e1 e2) as [Hle | Hle].
    - replace (e1 - E) with 0 by lia. rewrite Z.pow_0_r. nia.
    - replace (e2 - E) with 0 by lia. rewrite Z.pow_0_r. nia. }
  set (X := Z.max e1 e2).
  assert (Zpos m1 * 2 ^ (e1 - E) + Zpos m2 * 2 ^ (e2 - E) < 2 ^ (54 + X - E)) as Hhi.
  { assert (2 ^ (e1 - E) <= 2 ^ (X - E)) by (apply Z.pow_le_mono_r; lia).
    assert (2 ^ (e2 - E) <= 2 ^ (X - E)) by (apply Z.pow_le_mono_r; lia).
    replace (54 + X - E) with (54 + (X - E)) by lia.
    rewrite Z.pow_add_r by lia.
    assert (0 < 2 ^ (X - E)) by (apply Z.pow_pos_nonneg; lia).
    change (2 ^ 54) with (2 * 2 ^ 53). nia. }
  assert (Zpos m1 * 2 ^ (e1 - E) * 2 ^ (E + 52) = units m1 e1) as U1.
  { unfold units. rewrite <- Z.mul_assoc, <- Z.pow_add_r by lia. f_equal. f_equal. lia. }
  assert (Zpos m2 * 2 ^ (e2 - E) * 2 ^ (E + 52) = units m2 e2) as U2.
  { unfold units. rewrite <- Z.mul_assoc, <- Z.pow_add_r by lia. f_equal. f_equal. lia. }
  destruct (Zpos m1 * 2 ^ (e1 - E) + Zpos m2 * 2 ^ (e2 - E)) as [ | M | M] eqn:EM;
    try lia.
  cbn [binary_normalize]. unfold binary_round.
  pose proof (digits2_bounds M) as [Blo Bhi].
  set (dM := Zpos (digits2_pos M)) in *.
  assert (53 <= dM) as HdM.
  { destruct (Z.le_gt_cases 53 dM) as [H | H]; [exact H | ].
    assert (2 ^ dM <= 2 ^ 52) by (apply Z.pow_le_mono_r; lia). lia. }
  assert (dM <= 54 + X - E) as HdX.
  { assert (dM - 1 < 54 + X - E); [ | lia].
    apply (Z.pow_lt_mono_r_iff 2); lia. }
  rewrite fexp_normal by lia.
  rewrite shl_align_none by lia.
  destruct (bra_near M E Hlo ltac:(lia) ltac:(fold dM; lia))
    as [mz [ez [Hbra [Hmz [Hez Herr]]]]].
  fold dM in Hez.
  exists mz, ez. split; [exact Hbra | ]. split; [exact Hmz | ]. split; [lia | ].
  rewrite <- U1, <- U2, <- Z.mul_add_distr_r, EM.
  unfold units.
  replace (2 ^ (ez + 52)) with (2 ^ (ez - E) * 2 ^ (E + 52))
    by (rewrite <- Z.pow_add_r by lia; f_equal; lia).
  rewrite Z.mul_assoc, <- Z.mul_sub_distr_r, Z.abs_mul.
  assert (0 < 2 ^ (E + 52)) as HpE by (apply Z.pow_pos_nonneg; lia).
  rewrite (Z.abs_eq (2 ^ (E + 52))) by lia.
  apply Z.mul_le_mono_nonneg_r; [lia | exact Herr].
Qed.

(** [x] is a binary64 number from 1 to [2^53] whose value is within
    [eps / (10 * 2^52)] of [K / 10]. *)
Definition near (x : float) (K eps : Z) : Prop :=
  exists m e,
    Prim2SF x = S754_finite false m e
    /\ normal53 m /\ -52 <= e <= 0
    /\ Z.abs (10 * units m e - K * 2 ^ 52) <= eps.

Definition nearb (x : float) (K eps : Z) : bool :=
  match Prim2SF x with
  | S754_finite false m e =>
      (2 ^ 52 <=? Zpos m) && (Zpos m <? 2 ^ 53) && (-52 <=? e) && (e <=? 0)
      && (Z.abs (10 * units m e - K * 2 ^ 52) <=? eps)
  | _ => false
  end.

Lemma nearb_spec (x : float) (K eps : Z) : nearb x K eps = true -> near x K eps.
Proof.
  unfold nearb, near. destruct (Prim2SF x) as [ | | | [ | ] m e]; try discriminate.
  intros H. repeat (apply andb_prop in H as [H ?]).
  exists m, e. split; [reflexivity | ]. unfold normal53.
  rewrite Z.leb_le in *. rewrite Z.ltb_lt in *. lia.
Qed.

Lemma near_weaken (x : float) (K eps eps' : Z) :
  near x K eps -> eps <= eps' -> near x K eps'.
Proof.
  intros [m [e [H [Hm [He Herr]]]]] Hle. exists m, e.
  split; [exact H | ]. split; [exact Hm | ]. split; [exact He | lia].
Qed.

Lemma add_near (x y : float) (A B ea eb : Z) :
  near x A ea -> near y B eb ->
  (A + B) * 2 ^ 52 + ea + eb < 10 * 2 ^ 77 ->
  near (x + y)%float (A + B) (ea + eb + 10 * 2 ^ 25).
Proof.
  intros [m1 [e1 [Hx [Hm1 [He1 Ha]]]]] [m2 [e2 [Hy [Hm2 [He2 Hb]]]]] Hbound.
  destruct (SFadd_units m1 m2 e1 e2 Hm1 Hm2 He1 He2) as [mz [ez [Hadd [Hmz [Hez Herr]]]]].
  assert (ez + 52 <= 25) as Hsmall.
  { destruct (Z.le_gt_cases (ez + 52) 25) as [H | H]; [exact H | exfalso].
    assert (2 ^ 26 <= 2 ^ (ez + 52)) as Hp by (apply Z.pow_le_mono_r; lia).
    unfold normal53 in Hmz. unfold units at 1 in Herr.
    change (2 ^ 77) with 151115727451828646838272 in Hbound.
    change (2 ^ 52) with 4503599627370496 in *.
    change (2 ^ 53) with 9007199254740992 in *.
    change (2 ^ 26) with 67108864 in Hp.
    nia. }
  assert (2 ^ (ez + 52) <= 2 ^ 25) as Hp by (apply Z.pow_le_mono_r; lia).
  exists mz, ez. split.
  - rewrite add_spec, Hx, Hy. exact Hadd.
  - split; [exact Hmz | ]. split.
    + split; [lia | ].
      (* the exponent is at most 0 *) lia.
    + lia.
Qed.

Lemma half_even_scaled_near (M X e : Z) :
  e <= 0 -> 2 * Z.abs (M - X * 2 ^ (- e)) < 2 ^ (- e) ->
  PyNum.round_half_even_scaled M e = X.
Proof.
  intros He Hnear. unfold PyNum.round_half_even_scaled.
  destruct (Z.leb_spec 0 e) as [H0 | H0].
  - assert (e = 0) as -> by lia. change (- 0) with 0 in Hnear.
    rewrite Z.pow_0_r in *. lia.
  - cbv zeta. set (d := 2 ^ (- e)) in *.
    assert (2 <= d) as Hd.
    { subst d. change 2 with (2 ^ 1) at 1. apply Z.pow_le_mono_r; lia. }
    set (t := M - X * d) in *.
    destruct (Z.le_gt_cases 0 t) as [Ht | Ht].
    + assert (M / d = X) as Hq
        by (symmetry; apply (Z.div_unique _ _ _ t); lia).
      assert (M mod d = t) as Hr
        by (symmetry; apply (Z.mod_unique _ _ X); lia).
      rewrite Hq, Hr.
      destruct (Z.compare_spec (2 * t) d); [lia | reflexivity | lia].
    + assert (M / d = X - 1) as Hq
        by (symmetry; apply (Z.div_unique _ _ _ (d + t)); lia).
      assert (M mod d = d + t) as Hr
        by (symmetry; apply (Z.mod_unique _ _ (X - 1)); lia).
      rewrite Hq, Hr.
      destruct (Z.compare_spec (2 * (d + t)) d); lia.
Qed.

(** The binary64 number nearest to [K / 10], as [round(x, 2)] builds it
    from the integer [K * 10] of hundredths. *)
Definition tenths (K : Z) : float :=
  SF2Prim (SFdiv prec emax (PyNum.Z2SF (K * 10)) (PyNum.Z2SF 100)).

Lemma round2_near (x : float) (K eps : Z) :
  near x K eps -> 1 <= K -> 10 * eps < 2 ^ 51 -> PyNum.round2 x = tenths K.
Proof.
  intros [m [e [Hx [Hm [He Herr]]]]] HK Heps.
  unfold PyNum.round2. rewrite Hx.
  assert (PyNum.round_half_even_scaled (Zpos m * 100) e = K * 10) as ->.
  { apply half_even_scaled_near; [lia | ].
    set (d := 2 ^ (- e)). set (P := 2 ^ (e + 52)).
    assert (0 < d) as Hd by (apply Z.pow_pos_nonneg; lia).
    assert (0 < P) as HP by (apply Z.pow_pos_nonneg; lia).
    assert (d * P = 2 ^ 52) as HdP
      by (unfold d, P; rewrite <- Z.pow_add_r by lia; f_equal; lia).
    unfold units in Herr. fold P in Herr. rewrite <- HdP in Herr.
    change (2 ^ 51) with 2251799813685248 in Heps.
    change (2 ^ 52) with 4503599627370496 in HdP.
    nia. }
  destruct (Z.eqb_spec (K * 10) 0) as [E | _]; [lia | reflexivity].
Qed.

Lemma zero_add (x : float) (K eps : Z) : near x K eps -> (0 + x)%float = x.
Proof.
  intros [m [e [Hx _]]]. apply Prim2SF_inj. rewrite add_spec, Hx. reflexivity.
Qed.

Lemma add_zero (x : float) (K eps : Z) : near x K eps -> (x + 0)%float = x.
Proof.
  intros [m [e [Hx _]]]. apply Prim2SF_inj. rewrite add_spec, Hx. reflexivity.
Qed.

(** A running total: 0.0, or a number near [K / 10]. *)
Definition total (x : float) (K eps : Z) : Prop :=
  (K = 0 /\ x = 0%float) \/ (1 <= K /\ near x K eps).

Lemma total_add (x y : float) (A B ea eb : Z) :
  total x A ea -> total y B eb -> 0 <= ea -> 0 <= eb ->
  (A + B) * 2 ^ 52 + ea + eb < 10 * 2 ^ 77 ->
  total (x + y)%float (A + B) (ea + eb + 10 * 2 ^ 25).
Proof.
  intros [[-> ->] | [HA Hx]] [[-> ->] | [HB Hy]] Hea Heb Hb.
  - left. split; reflexivity.
  - right. split; [lia | ]. rewrite (zero_add y B eb Hy).
    cbn [Z.add]. apply (near_weaken y B eb); [exact Hy | lia].
  - right. split; [lia | ]. rewrite (add_zero x A ea Hx), Z.add_0_r.
    apply (near_weaken x A ea); [exact Hx | lia].
  - right. split; [lia | ]. now apply add_near.
Qed.

Lemma round2_total (x : float) (K eps : Z) :
  total x K eps -> 10 * eps < 2 ^ 51 -> PyNum.round2 x = tenths K.
Proof.
  intros [[-> ->] | [HK Hx]] Heps; [reflexivity | ].
  now apply (round2_near x K eps).
Qed.

Definition tenths_near (K : Z) : bool := (K <? 10) || nearb (tenths K) K 4096.

Lemma tenths_near_all : all_range tenths_near 13 0 = true.
Proof. vm_compute. reflexivity. Qed.

(** The fee of a day, 0.0 or at least 1.00, is near its decimal value. *)
Lemma tenths_total (K : Z) : K = 0 \/ 10 <= K < 8192 -> total (tenths K) K 4096.
Proof.
  intros [-> | HK]; [left; split; reflexivity | ].
  pose proof (all_range_sound tenths_near 13 0 tenths_near_all K) as H.
  change (2 ^ Z.of_nat 13) with 8192 in H. specialize (H ltac:(lia)).
  unfold tenths_near in H. apply orb_prop in H as [H | H].
  - apply Z.ltb_lt in H. lia.
  - right. split; [lia | now apply nearb_spec].
Qed.

(* ================================================================== *)
(** ** Day by day *)

Lemma day_charges_portion (fp : bool) (a l : datetime) (d : date) :
  day_charges fp (day_start a d) (day_end l d) d = day_charges fp a l d.
Proof.
  rewrite !day_charges_unfold. now rewrite day_start_idem, day_end_idem.
Qed.

Lemma stay_days_portion (a l : datetime) (d : date) :
  dt_date a <= d <= dt_date l ->
  stay_days (day_start a d) (day_end l d) = [d].
Proof.
  intros Hd. unfold stay_days.
  rewrite day_start_date, day_end_date by lia.
  replace (Z.to_nat (d - d + 1)) with 1%nat by lia. reflexivity.
Qed.

(** The call on the occupied portion of one day of the stay adds the
    charges of that day. *)
Lemma portion_spec (fp : bool) (a l : datetime) :
  whole_second a -> whole_second l ->
  date_min <= dt_date a -> dt_date l < date_max ->
  forall d, dt_date a <= d <= dt_date l ->
    charges fp (day_start a d) (day_end l d) = Ok (day_list fp a l d)
    /\ calculate_fee fp (day_start a d) (day_end l d)
       = Ok (PyNum.round2 (sum_from 0 (day_list fp a l d))).
Proof.
  intros Ha Hl Hmin Hmax d Hd.
  assert (forall d',
            dt_date (day_start a d) <= d' <= dt_date (day_end l d) ->
            day_charges fp (day_start a d) (day_end l d) d'
            = Ok ((fun _ => day_list fp a l d) d')) as Hcs.
  { intros d' Hd'. rewrite day_start_date, day_end_date in Hd' by lia.
    assert (d' = d) as -> by lia.
    rewrite day_charges_portion. now apply day_charges_ok. }
  assert (date_min <= dt_date (day_start a d)) as Hmin'
    by (rewrite day_start_date; lia).
  assert (dt_date (day_end l d) < date_max) as Hmax'
    by (rewrite day_end_date; lia).
  split.
  - rewrite (charges_spec fp _ _ Hmin' Hmax' _ Hcs), stay_days_portion by exact Hd.
    cbn [flat_map]. now rewrite app_nil_r.
  - rewrite (calculate_fee_spec fp _ _ Hmin' Hmax' _ Hcs), stay_days_portion by exact Hd.
    cbn [flat_map]. now rewrite app_nil_r.
Qed.

(* ================================================================== *)
(** ** The fees of a non-frequent parker are whole amounts *)

(** An amount that is a whole number from 1 to 160. *)
Definition whole_amount (fee : float) : Prop :=
  exists k, 1 <= k <= 160 /\ fee = PyNum.float_of_int k.

(** The sum of a list of integers. *)
Definition int_sum (ks : list Z) : Z := fold_right Z.add 0 ks.

Lemma daytime_fee_whole (d : date) (w m h : Z) :
  max_stay (rate_0800_1659 (rates_of w)) = MaxInt m ->
  1 <= h <= 9 ->
  whole_amount
    (_apply_discount false
       (capped_fee m (price_per_hour (rate_0800_1659 (rates_of w))) h)
       (combine d (slot_start Slot2))).
Proof.
  intros Hm Hh. rewrite discount_daytime.
  exists (let p := if w <=? 4 then 10 else if w =? 5 then 3 else 2 in
          if h <=? m then h * p else m * p + (h - m) * p * 2).
  revert Hm. unfold rates_of.
  assert (h = 1 \/ h = 2 \/ h = 3 \/ h = 4 \/ h = 5 \/ h = 6 \/ h = 7 \/ h = 8 \/ h = 9)
    as E by lia.
  destruct (w <=? 4); [ | destruct (w =? 5)];
    cbn [max_stay rate_0800_1659 price_per_hour]; intros [= <-];
    repeat (destruct E as [-> | E];
            [split; [vm_compute; split; discriminate | vm_compute; reflexivity] | ]);
    subst h; (split; [vm_compute; split; discriminate | vm_compute; reflexivity]).
Qed.

Lemma evening_fee_whole (d : date) (h : Z) :
  1 <= h <= 7 ->
  whole_amount
    (_apply_discount false (PyNum.float_of_int h * 5)%float
       (combine d (slot_start Slot3))).
Proof.
  intros Hh. rewrite discount_evening. exists (h * 5).
  assert (h = 1 \/ h = 2 \/ h = 3 \/ h = 4 \/ h = 5 \/ h = 6 \/ h = 7) as E by lia.
  repeat (destruct E as [-> | E];
          [split; [vm_compute; split; discriminate | vm_compute; reflexivity] | ]).
  subst h; (split; [vm_compute; split; discriminate | vm_compute; reflexivity]).
Qed.

Lemma day_list_whole (a l : datetime) (d : date) :
  whole_second a -> whole_second l ->
  Forall (fun c => whole_amount (c_fee c)) (day_list false a l d).
Proof.
  intros Ha Hl.
  apply (day_list_Forall false a l Ha Hl (fun _ => whole_amount)).
  - exists 20. split; [lia | reflexivity].
  - intros d' w m h. apply daytime_fee_whole.
  - intros d' h. apply evening_fee_whole.
Qed.

Lemma day_list_length (fp : bool) (a l : datetime) (d : date) :
  whole_second a -> whole_second l ->
  (List.length (day_list fp a l d) <= 3)%nat.
Proof.
  intros Ha Hl. destruct (day_charges_shape fp a l Ha Hl d) as [f2 [f3 H]].
  unfold day_list. rewrite H.
  destruct (flat_touch a l d), f2, f3; cbn; lia.
Qed.

Lemma whole_amounts (cs : list charge) :
  Forall (fun c => whole_amount (c_fee c)) cs ->
  exists ks,
    map c_fee cs = map PyNum.float_of_int ks
    /\ Forall (fun k => 1 <= k <= 160) ks.
Proof.
  induction 1 as [ | c cs [k [Hk Ek]] _ [ks [Hks Hall]]].
  - exists []. split; [reflexivity | constructor].
  - exists (k :: ks). cbn [map]. rewrite Ek, Hks.
    split; [reflexivity | now constructor].
Qed.

Lemma int_sum_bounds (ks : list Z) :
  Forall (fun k => 1 <= k <= 160) ks ->
  Z.of_nat (List.length ks) <= int_sum ks <= 160 * Z.of_nat (List.length ks).
Proof.
  induction 1 as [ | k ks Hk _ IH]; [cbn; lia | ].
  cbn [List.length int_sum fold_right]. fold (int_sum ks). lia.
Qed.

(** The float sum of whole amounts is their integer sum. *)
Lemma sum_from_ints (ks : list Z) :
  Forall (fun k => 1 <= k <= 160) ks ->
  forall (cs : list charge) (T : Z),
    map c_fee cs = map PyNum.float_of_int ks ->
    0 <= T -> T + 160 * Z.of_nat (List.length ks) < 2 ^ 53 ->
    sum_from (PyNum.float_of_int T) cs = PyNum.float_of_int (T + int_sum ks).
Proof.
  induction 1 as [ | k ks Hk Hall IH]; intros cs T Hcs HT Hb.
  - destruct cs; [ | discriminate]. cbn. now rewrite Z.add_0_r.
  - destruct cs as [ | c cs]; [discriminate | ]. cbn [map] in Hcs.
    injection Hcs as Ec Hcs.
    cbn [List.length] in Hb. rewrite Nat2Z.inj_succ in Hb.
    cbn [sum_from fold_left].
    rewrite Ec, int_add_exact by lia.
    fold (sum_from (PyNum.float_of_int (T + k)) cs).
    rewrite (IH cs (T + k) Hcs) by lia.
    cbn [int_sum fold_right]. fold (int_sum ks). f_equal. lia.
Qed.

Lemma sum_from_whole (cs : list charge) :
  Forall (fun c => whole_amount (c_fee c)) cs ->
  exists n,
    0 <= n <= 160 * Z.of_nat (List.length cs)
    /\ forall T, 0 <= T -> T + 160 * Z.of_nat (List.length cs) < 2 ^ 53 ->
         sum_from (PyNum.float_of_int T) cs = PyNum.float_of_int (T + n).
Proof.
  intros H. destruct (whole_amounts cs H) as [ks [Hks Hall]].
  assert (List.length ks = List.length cs) as Hlen.
  { rewrite <- (length_map PyNum.float_of_int ks), <- Hks. apply length_map. }
  pose proof (int_sum_bounds ks Hall) as Hb. rewrite Hlen in Hb.
  exists (int_sum ks). split; [lia | ].
  intros T HT HT'. apply sum_from_ints; try assumption. now rewrite Hlen.
Qed.

Lemma days_from_length (n : nat) : forall d, List.length (days_from d n) = n.
Proof. induction n as [ | n IH]; intros d; cbn; [reflexivity | now rewrite IH]. Qed.

(** The fee of the call on the occupied portion of day [d] of the stay
    from [a] to [l]: see [portion_spec]. *)
Definition portion_fee (fp : bool) (a l : datetime) (d : date) : float :=
  PyNum.round2 (sum_from 0 (day_list fp a l d)).

Section WholeFees.

Variables a l : datetime.
Hypothesis Ha : whole_second a.
Hypothesis Hl : whole_second l.

Lemma day_total (d : date) :
  exists n,
    0 <= n <= 480
    /\ (forall T, 0 <= T -> T + 480 < 2 ^ 53 ->
          sum_from (PyNum.float_of_int T) (day_list false a l d)
          = PyNum.float_of_int (T + n))
    /\ portion_fee false a l d = PyNum.float_of_int n.
Proof.
  destruct (sum_from_whole _ (day_list_whole a l d Ha Hl)) as [n [Hn Hsum]].
  pose proof (day_list_length false a l d Ha Hl) as Hlen.
  exists n. split; [lia | ]. split.
  - intros T HT Hb. apply Hsum; lia.
  - unfold portion_fee. change 0%float with (PyNum.float_of_int 0).
    rewrite Hsum by (change (2 ^ 53) with 9007199254740992; lia).
    rewrite Z.add_0_l. apply round2_int.
    change (2 ^ 53) with 9007199254740992; lia.
Qed.

Lemma days_total (ds : list date) :
  forall T, 0 <= T -> T + 480 * Z.of_nat (List.length ds) < 2 ^ 53 ->
    exists N,
      0 <= N <= 480 * Z.of_nat (List.length ds)
      /\ sum_from (PyNum.float_of_int T) (flat_map (day_list false a l) ds)
         = PyNum.float_of_int (T + N)
      /\ fold_left (fun total d => (total + portion_fee false a l d)%float) ds
           (PyNum.float_of_int T)
         = PyNum.float_of_int (T + N).
Proof.
  induction ds as [ | d ds IH]; intros T HT Hb.
  - exists 0. cbn. rewrite Z.add_0_r. repeat split; lia.
  - cbn [List.length] in *. rewrite Nat2Z.inj_succ in *.
    destruct (day_total d) as [n [Hn [Hsum Hfee]]].
    destruct (IH (T + n) ltac:(lia) ltac:(lia)) as [N [HN [H1 H2]]].
    exists (n + N). split; [lia | ]. cbn [flat_map fold_left].
    rewrite sum_from_app, Hsum, H1 by lia.
    rewrite Hfee, int_add_exact, H2 by lia.
    split; f_equal; lia.
Qed.

Lemma whole_fee_is_sum_of_day_fees :
  date_min <= dt_date a -> dt_date l < date_max ->
  calculate_fee false a l
  = Ok (fold_left (fun total d => (total + portion_fee false a l d)%float) (stay_days a l) 0%float).
Proof.
  intros Hmin Hmax. rewrite (calculate_fee_ok false a l Ha Hl Hmin Hmax).
  assert (Z.of_nat (List.length (stay_days a l)) <= 3652058) as Hlen.
  { unfold stay_days. rewrite days_from_length.
    rewrite date_min_eq in Hmin. rewrite date_max_eq in Hmax. lia. }
  destruct (days_total (stay_days a l) 0 ltac:(lia)) as [N [HN [H1 H2]]].
  { change (2 ^ 53) with 9007199254740992. lia. }
  change (PyNum.float_of_int 0) with 0%float in H1, H2.
  rewrite H1, H2, Z.add_0_l. f_equal. apply round2_int.
  change (2 ^ 53) with 9007199254740992. lia.
Qed.

End WholeFees.

(* ================================================================== *)
(** ** The fees of any parker are decimal amounts, nearly *)

(** An amount from 1.00 to 160.00 that is, up to the rounding of
    binary64, a whole number [n] of tenths. *)
Definition decimal_amount (fee : float) (n : Z) : Prop :=
  10 <= n <= 1600 /\ near fee n 2048.

Lemma daytime_fee_decimal (fp : bool) (d : date) (w m h : Z) :
  max_stay (rate_0800_1659 (rates_of w)) = MaxInt m ->
  1 <= h <= 9 ->
  exists n,
    decimal_amount
      (_apply_discount fp
         (capped_fee m (price_per_hour (rate_0800_1659 (rates_of w))) h)
         (combine d (slot_start Slot2))) n.
Proof.
  intros Hm Hh. rewrite discount_daytime.
  exists (let p := if w <=? 4 then 10 else if w =? 5 then 3 else 2 in
          (if h <=? m then h * p else m * p + (h - m) * p * 2)
          * (if fp then 9 else 10)).
  revert Hm. unfold rates_of, decimal_amount.
  assert (h = 1 \/ h = 2 \/ h = 3 \/ h = 4 \/ h = 5 \/ h = 6 \/ h = 7 \/ h = 8 \/ h = 9)
    as E by lia.
  destruct (w <=? 4); [ | destruct (w =? 5)];
    cbn [max_stay rate_0800_1659 price_per_hour]; intros [= <-];
    repeat (destruct E as [-> | E];
            [destruct fp;
             (split; [vm_compute; split; discriminate
                     | apply nearb_spec; vm_compute; reflexivity]) | ]);
    subst h; destruct fp;
    (split; [vm_compute; split; discriminate
            | apply nearb_spec; vm_compute; reflexivity]).
Qed.

Lemma evening_fee_decimal (fp : bool) (d : date) (h : Z) :
  1 <= h <= 7 ->
  exists n,
    decimal_amount
      (_apply_discount fp (PyNum.float_of_int h * 5)%float
         (combine d (slot_start Slot3))) n.
Proof.
  intros Hh. rewrite discount_evening. exists (h * (if fp then 25 else 50)).
  unfold decimal_amount.
  assert (h = 1 \/ h = 2 \/ h = 3 \/ h = 4 \/ h = 5 \/ h = 6 \/ h = 7) as E by lia.
  repeat (destruct E as [-> | E];
          [destruct fp;
           (split; [vm_compute; split; discriminate
                   | apply nearb_spec; vm_compute; reflexivity]) | ]).
  subst h; destruct fp;
    (split; [vm_compute; split; discriminate
            | apply nearb_spec; vm_compute; reflexivity]).
Qed.

Lemma day_list_decimal (fp : bool) (a l : datetime) (d : date) :
  whole_second a -> whole_second l ->
  Forall (fun c => exists n, decimal_amount (c_fee c) n) (day_list fp a l d).
Proof.
  intros Ha Hl.
  apply (day_list_Forall fp a l Ha Hl (fun _ fee => exists n, decimal_amount fee n)).
  - exists (if fp then 100 else 200). unfold decimal_amount.
    destruct fp; (split; [lia | apply nearb_spec; vm_compute; reflexivity]).
  - intros d' w m h. apply daytime_fee_decimal.
  - intros d' h. apply evening_fee_decimal.
Qed.

Lemma decimal_amounts (cs : list charge) :
  Forall (fun c => exists n, decimal_amount (c_fee c) n) cs ->
  exists ns, Forall2 (fun c n => decimal_amount (c_fee c) n) cs ns.
Proof.
  induction 1 as [ | c cs [n Hn] _ [ns Hns]].
  - exists []. constructor.
  - exists (n :: ns). now constructor.
Qed.

(** The error a binary64 addition may add, in the unit of [near]. *)
Definition add_error : Z := 4096 + 10 * 2 ^ 25.

Lemma sum_from_near (cs : list charge) (ns : list Z) :
  Forall2 (fun c n => decimal_amount (c_fee c) n) cs ns ->
  forall (T : float) (K eps : Z),
    total T K eps -> 0 <= K -> 0 <= eps ->
    (K + 1600 * Z.of_nat (List.length cs)) * 2 ^ 52
    + eps + Z.of_nat (List.length cs) * add_error < 10 * 2 ^ 77 ->
    total (sum_from T cs) (K + int_sum ns)
      (eps + Z.of_nat (List.length cs) * add_error).
Proof.
  unfold add_error.
  induction 1 as [ | c n cs ns [Hn Hc] _ IH]; intros T K eps HT HK Heps Hb.
  - cbn. now rewrite Z.add_0_r, Z.add_0_r.
  - cbn [List.length] in *. rewrite Nat2Z.inj_succ in *.
    cbn [sum_from fold_left int_sum fold_right].
    fold (sum_from (T + c_fee c)%float cs). fold (int_sum ns).
    assert (total (T + c_fee c)%float (K + n) (eps + (4096 + 10 * 2 ^ 25))) as Hstep.
    { assert (total (c_fee c) n 4096) as Hc'
        by (right; split; [lia | apply (near_weaken _ _ 2048); [exact Hc | lia]]).
      pose proof (total_add T (c_fee c) K n eps 4096 HT Hc' Heps ltac:(lia)) as H.
      replace (eps + (4096 + 10 * 2 ^ 25)) with (eps + 4096 + 10 * 2 ^ 25) by lia.
      apply H. change (2 ^ 25) with 33554432 in Hb. lia. }
    pose proof (IH (T + c_fee c)%float (K + n) (eps + (4096 + 10 * 2 ^ 25)) Hstep
                  ltac:(lia) ltac:(change (2 ^ 25) with 33554432; lia)) as H.
    replace (K + (n + int_sum ns)) with (K + n + int_sum ns) by lia.
    replace (eps + Z.succ (Z.of_nat (List.length cs)) * (4096 + 10 * 2 ^ 25))
      with (eps + (4096 + 10 * 2 ^ 25)
            + Z.of_nat (List.length cs) * (4096 + 10 * 2 ^ 25)) by lia.
    apply H. change (2 ^ 25) with 33554432 in *. lia.
Qed.

Lemma decimal_sum_bounds (cs : list charge) (ns : list Z) :
  Forall2 (fun c n => decimal_amount (c_fee c) n) cs ns ->
  (cs = [] /\ int_sum ns = 0)
  \/ (10 <= int_sum ns <= 1600 * Z.of_nat (List.length cs)).
Proof.
  induction 1 as [ | c n cs ns [Hn Hc] _ IH]; [left; split; reflexivity | right].
  cbn [List.length int_sum fold_right]. fold (int_sum ns). rewrite Nat2Z.inj_succ.
  destruct IH as [[-> E] | IH]; [rewrite E; cbn; lia | lia].
Qed.

Lemma total_weaken (x : float) (K eps eps' : Z) :
  total x K eps -> eps <= eps' -> total x K eps'.
Proof.
  intros [H | [HK H]] Hle; [now left | right].
  split; [exact HK | now apply (near_weaken x K eps)].
Qed.

Section PortionFees.

Variable fp : bool.
Variables a l : datetime.
Hypothesis Ha : whole_second a.
Hypothesis Hl : whole_second l.

Lemma day_near (d : date) :
  exists n,
    0 <= n <= 4800
    /\ (forall T K eps,
          total T K eps -> 0 <= K -> 0 <= eps ->
          (K + 4800) * 2 ^ 52 + eps + 3 * add_error < 10 * 2 ^ 77 ->
          total (sum_from T (day_list fp a l d)) (K + n) (eps + 3 * add_error))
    /\ total (portion_fee fp a l d) n 4096.
Proof.
  destruct (decimal_amounts _ (day_list_decimal fp a l d Ha Hl)) as [ns Hns].
  pose proof (day_list_length fp a l d Ha Hl) as Hlen.
  pose proof (decimal_sum_bounds _ _ Hns) as Hsum.
  assert (0 <= add_error) as Herr by (unfold add_error; lia).
  exists (int_sum ns). split; [lia | ].
  assert (forall T K eps,
            total T K eps -> 0 <= K -> 0 <= eps ->
            (K + 4800) * 2 ^ 52 + eps + 3 * add_error < 10 * 2 ^ 77 ->
            total (sum_from T (day_list fp a l d)) (K + int_sum ns)
              (eps + 3 * add_error)) as Hday.
  { intros T K eps HT HK Heps Hb.
    apply (total_weaken _ _ (eps + Z.of_nat (List.length (day_list fp a l d)) * add_error));
      [ | nia].
    apply (sum_from_near _ _ Hns); try assumption.
    change (2 ^ 52) with 4503599627370496 in *. nia. }
  split; [exact Hday | ].
  unfold portion_fee.
  assert (total (sum_from 0 (day_list fp a l d)) (0 + int_sum ns) (0 + 3 * add_error))
    as H0.
  { apply Hday; [left; split; reflexivity | lia | lia | ].
    unfold add_error. vm_compute. reflexivity. }
  rewrite Z.add_0_l in H0.
  rewrite (round2_total _ _ _ H0) by (unfold add_error; vm_compute; reflexivity).
  apply tenths_total. lia.
Qed.

Lemma days_near (ds : list date) :
  forall (T P : float) (K eps : Z),
    total T K eps -> total P K eps -> 0 <= K -> 0 <= eps ->
    (K + 4800 * Z.of_nat (List.length ds)) * 2 ^ 52
    + eps + Z.of_nat (List.length ds) * (3 * add_error) < 10 * 2 ^ 77 ->
    exists N,
      0 <= N <= 4800 * Z.of_nat (List.length ds)
      /\ total (sum_from T (flat_map (day_list fp a l) ds)) (K + N)
           (eps + Z.of_nat (List.length ds) * (3 * add_error))
      /\ total (fold_left (fun t d => (t + portion_fee fp a l d)%float) ds P) (K + N)
           (eps + Z.of_nat (List.length ds) * (3 * add_error)).
Proof.
  assert (add_error = 335548416) as Eerr by reflexivity.
  induction ds as [ | d ds IH]; intros T P K eps HT HP HK Heps Hb.
  - exists 0. cbn. rewrite !Z.add_0_r. repeat split; try assumption; lia.
  - cbn [List.length] in *. rewrite Nat2Z.inj_succ in *.
    destruct (day_near d) as [n [Hn [Hsum Hfee]]].
    assert (total (sum_from T (day_list fp a l d)) (K + n) (eps + 3 * add_error)) as HT'.
    { apply Hsum; try assumption. change (2 ^ 52) with 4503599627370496 in *. lia. }
    assert (total (P + portion_fee fp a l d)%float (K + n) (eps + 3 * add_error)) as HP'.
    { apply (total_weaken _ _ (eps + 4096 + 10 * 2 ^ 25)).
      - apply total_add; try assumption; try lia;
          change (2 ^ 52) with 4503599627370496 in *; lia.
      - rewrite Eerr. change (2 ^ 25) with 33554432. lia. }
    destruct (IH _ _ (K + n) (eps + 3 * add_error) HT' HP' ltac:(lia) ltac:(lia))
      as [N [HN [H1 H2]]].
    { change (2 ^ 52) with 4503599627370496 in *. lia. }
    exists (n + N). split; [lia | ]. cbn [flat_map fold_left].
    rewrite sum_from_app.
    replace (K + (n + N)) with (K + n + N) by lia.
    replace (eps + Z.succ (Z.of_nat (List.length ds)) * (3 * add_error))
      with (eps + 3 * add_error + Z.of_nat (List.length ds) * (3 * add_error)) by lia.
    split; assumption.
Qed.

Lemma whole_fee_is_rounded_sum :
  date_min <= dt_date a -> dt_date l < date_max ->
  dt_date l - dt_date a < 36525 ->
  calculate_fee fp a l
  = Ok (PyNum.round2
          (fold_left (fun t d => (t + portion_fee fp a l d)%float) (stay_days a l) 0%float)).
Proof.
  intros Hmin Hmax Hlen. rewrite (calculate_fee_ok fp a l Ha Hl Hmin Hmax).
  assert (add_error = 335548416) as Eerr by reflexivity.
  assert (Z.of_nat (List.length (stay_days a l)) <= 36525) as Hdays.
  { unfold stay_days. rewrite days_from_length. lia. }
  assert (total 0%float 0 0) as H0 by (left; split; reflexivity).
  destruct (days_near (stay_days a l) 0%float 0%float 0 0 H0 H0 ltac:(lia) ltac:(lia))
    as [N [HN [H1 H2]]].
  { rewrite Eerr. change (2 ^ 52) with 4503599627370496.
    change (2 ^ 77) with 151115727451828646838272. lia. }
  rewrite Z.add_0_l in H1, H2.
  rewrite (round2_total _ _ _ H1), (round2_total _ _ _ H2); [reflexivity | | ];
    rewrite Eerr; change (2 ^ 51) with 2251799813685248; lia.
Qed.

End PortionFees.

(** C9, the claim as stated fails: for a frequent parker from Saturday
    2024-01-06 00:00 to Sunday 2024-01-07 09:30 the whole stay costs
    78.9, the Saturday portion 65.3 and the Sunday portion 13.6, and the
    float sum 65.3 + 13.6 is 78.89999999999999, another number. *)
Lemma saturday_sunday_sum_differs :
  calculate_fee true (mk_datetime 2024 1 6 0 0) (mk_datetime 2024 1 7 9 30)
  = Ok (789 / 10)%float
  /\ calculate_fee true
       (day_start (mk_datetime 2024 1 6 0 0) (mk_date 2024 1 6))
       (day_end (mk_datetime 2024 1 7 9 30) (mk_date 2024 1 6))
     = Ok (653 / 10)%float
  /\ calculate_fee true
       (day_start (mk_datetime 2024 1 6 0 0) (mk_date 2024 1 7))
       (day_end (mk_datetime 2024 1 7 9 30) (mk_date 2024 1 7))
     = Ok (136 / 10)%float
  /\ stay_days (mk_datetime 2024 1 6 0 0) (mk_datetime 2024 1 7 9 30)
     = [mk_date 2024 1 6; mk_date 2024 1 7]
  /\ PrimFloat.eqb (789 / 10) (653 / 10 + 136 / 10) = false
  /\ PrimFloat.ltb (653 / 10 + 136 / 10) (789 / 10) = true
  /\ (789 / 10 <> 653 / 10 + 136 / 10)%float.
Proof.
  split; [vm_compute; reflexivity | ].
  split; [vm_compute; reflexivity | ].
  split; [vm_compute; reflexivity | ].
  split; [reflexivity | ].
  split; [reflexivity | ].
  split; [reflexivity | ].
  apply float_neq; reflexivity.
Qed.

(** C9, amended.  On a stay between whole-second instants within the
    calendar (the leave date before 9999-12-31):
    - for a non-frequent parker the fee of the whole stay is exactly the
      float sum, left to right, of the fees of [calculate_fee] applied
      on its own to the occupied portion of each calendar day from the
      arrival date to the leave date: all the amounts are whole
      numbers, which binary64 adds and rounds without error;
    - whatever the flag, on a stay of at most 36525 calendar days the
      fee of the whole stay is that float sum of the fees of the days'
      portions, rounded to two decimals;
    - whatever the flag, the amounts that [calculate_fee] adds up over
      the whole interval are, in order, the amounts that it adds up on
      the occupied portion of each day; the fee of the whole stay is
      the float sum of all these amounts, left to right from 0.0,
      rounded to two decimals, and the fee of a day's portion is the
      same of that day's amounts.
    On the non-frequent three-day stay from 2024-01-01 10:00 to
    2024-01-03 12:00 the total 450.0 is 155.0 + 215.0 + 80.0; on the
    frequent stay from 2024-01-06 00:00 to 2024-01-07 09:30 the total
    78.9 is 65.3 + 13.6 rounded to two decimals. *)
Theorem per_day_decomposition :
  (forall (a l : datetime),
      whole_second a -> whole_second l ->
      date_min <= dt_date a -> dt_date l < date_max ->
      exists fee : date -> float,
        (forall d, dt_date a <= d <= dt_date l ->
           calculate_fee false (day_start a d) (day_end l d) = Ok (fee d))
        /\ calculate_fee false a l
           = Ok (fold_left (fun total d => (total + fee d)%float)
                   (stay_days a l) 0%float))
  /\ (forall (fp : bool) (a l : datetime),
        whole_second a -> whole_second l ->
        date_min <= dt_date a -> dt_date l < date_max ->
        dt_date l - dt_date a < 36525 ->
        exists fee : date -> float,
          (forall d, dt_date a <= d <= dt_date l ->
             calculate_fee fp (day_start a d) (day_end l d) = Ok (fee d))
          /\ calculate_fee fp a l
             = Ok (PyNum.round2
                     (fold_left (fun total d => (total + fee d)%float)
                        (stay_days a l) 0%float)))
  /\ (forall (fp : bool) (a l : datetime),
        whole_second a -> whole_second l ->
        date_min <= dt_date a -> dt_date l < date_max ->
        exists per_day : date -> list charge,
          (forall d, dt_date a <= d <= dt_date l ->
             charges fp (day_start a d) (day_end l d) = Ok (per_day d)
             /\ calculate_fee fp (day_start a d) (day_end l d)
                = Ok (PyNum.round2 (sum_from 0 (per_day d))))
          /\ charges fp a l = Ok (flat_map per_day (stay_days a l))
          /\ calculate_fee fp a l
             = Ok (PyNum.round2 (sum_from 0 (flat_map per_day (stay_days a l)))))
  /\ (let a := mk_datetime 2024 1 1 10 0 in
      let l := mk_datetime 2024 1 3 12 0 in
      stay_days a l = [mk_date 2024 1 1; mk_date 2024 1 2; mk_date 2024 1 3]
      /\ calculate_fee false a l = Ok 450%float
      /\ calculate_fee false (day_start a (mk_date 2024 1 1))
           (day_end l (mk_date 2024 1 1)) = Ok 155%float
      /\ calculate_fee false (day_start a (mk_date 2024 1 2))
           (day_end l (mk_date 2024 1 2)) = Ok 215%float
      /\ calculate_fee false (day_start a (mk_date 2024 1 3))
           (day_end l (mk_date 2024 1 3)) = Ok 80%float
      /\ (155 + 215 + 80 = 450)%float)
  /\ PyNum.round2 (653 / 10 + 136 / 10) = (789 / 10)%float.
Proof.
  split; [ | split; [ | split; [ | split; [ | vm_compute; reflexivity]]]].
  - intros a l Ha Hl Hmin Hmax. exists (portion_fee false a l). split.
    + intros d Hd. exact (proj2 (portion_spec false a l Ha Hl Hmin Hmax d Hd)).
    + now apply whole_fee_is_sum_of_day_fees.
  - intros fp a l Ha Hl Hmin Hmax Hlen. exists (portion_fee fp a l). split.
    + intros d Hd. exact (proj2 (portion_spec fp a l Ha Hl Hmin Hmax d Hd)).
    + now apply whole_fee_is_rounded_sum.
  - intros fp a l Ha Hl Hmin Hmax. exists (day_list fp a l).
    split; [ | split; [now apply charges_ok | now apply calculate_fee_ok]].
    intros d Hd.
    exact (portion_spec fp a l Ha Hl Hmin Hmax d Hd).
  - cbv zeta. repeat split; vm_compute; reflexivity.
Qed.

Lemma per_day_decomposition_witness :
  whole_second (mk_datetime 2024 1 6 0 0)
  /\ whole_second (mk_datetime 2024 1 7 9 30)
  /\ date_min <= dt_date (mk_datetime 2024 1 6 0 0)
  /\ dt_date (mk_datetime 2024 1 7 9 30) < date_max
  /\ dt_date (mk_datetime 2024 1 7 9 30) - dt_date (mk_datetime 2024 1 6 0 0) < 36525
  /\ (exists fee : date -> float,
        calculate_fee false
          (day_start (mk_datetime 2024 1 6 0 0) (mk_date 2024 1 6))
          (day_end (mk_datetime 2024 1 7 9 30) (mk_date 2024 1 6))
        = Ok (fee (mk_date 2024 1 6))
        /\ calculate_fee false
             (day_start (mk_datetime 2024 1 6 0 0) (mk_date 2024 1 7))
             (day_end (mk_datetime 2024 1 7 9 30) (mk_date 2024 1 7))
           = Ok (fee (mk_date 2024 1 7))
        /\ calculate_fee false (mk_datetime 2024 1 6 0 0) (mk_datetime 2024 1 7 9 30)
           = Ok (0 + fee (mk_date 2024 1 6) + fee (mk_date 2024 1 7))%float)
  /\ (exists fee : date -> float,
        calculate_fee true
          (day_start (mk_datetime 2024 1 6 0 0) (mk_date 2024 1 6))
          (day_end (mk_datetime 2024 1 7 9 30) (mk_date 2024 1 6))
        = Ok (fee (mk_date 2024 1 6))
        /\ calculate_fee true
             (day_start (mk_datetime 2024 1 6 0 0) (mk_date 2024 1 7))
             (day_end (mk_datetime 2024 1 7 9 30) (mk_date 2024 1 7))
           = Ok (fee (mk_date 2024 1 7))
        /\ calculate_fee true (mk_datetime 2024 1 6 0 0) (mk_datetime 2024 1 7 9 30)
           = Ok (PyNum.round2
                   (0 + fee (mk_date 2024 1 6) + fee (mk_date 2024 1 7))%float))
  /\ (exists per_day : date -> list charge,
        charges true (mk_datetime 2024 1 6 0 0) (mk_datetime 2024 1 7 9 30)
        = Ok (flat_map per_day [mk_date 2024 1 6; mk_date 2024 1 7])
        /\ charges true
             (day_start (mk_datetime 2024 1 6 0 0) (mk_date 2024 1 7))
             (day_end (mk_datetime 2024 1 7 9 30) (mk_date 2024 1 7))
           = Ok (per_day (mk_date 2024 1 7))).
Proof.
  pose proof (mk_datetime_whole_second 2024 1 6 0 0) as Ha.
  pose proof (mk_datetime_whole_second 2024 1 7 9 30) as Hl.
  assert (date_min <= dt_date (mk_datetime 2024 1 6 0 0)) as Hmin
    by (vm_compute; discriminate).
  assert (dt_date (mk_datetime 2024 1 7 9 30) < date_max) as Hmax
    by (vm_compute; reflexivity).
  assert (dt_date (mk_datetime 2024 1 7 9 30) - dt_date (mk_datetime 2024 1 6 0 0)
          < 36525) as Hlen by (vm_compute; reflexivity).
  split; [exact Ha | ]. split; [exact Hl | ].
  split; [exact Hmin | ]. split; [exact Hmax | ]. split; [exact Hlen | ].
  split; [ | split].
  - destruct (proj1 per_day_decomposition _ _ Ha Hl Hmin Hmax) as [fee [H1 H2]].
    exists fee. split; [ | split; [ | exact H2]].
    + apply (H1 (mk_date 2024 1 6)). vm_compute. split; discriminate.
    + apply (H1 (mk_date 2024 1 7)). vm_compute. split; discriminate.
  - destruct (proj1 (proj2 per_day_decomposition) true _ _ Ha Hl Hmin Hmax Hlen)
      as [fee [H1 H2]].
    exists fee. split; [ | split; [ | exact H2]].
    + apply (H1 (mk_date 2024 1 6)). vm_compute. split; discriminate.
    + apply (H1 (mk_date 2024 1 7)). vm_compute. split; discriminate.
  - destruct (proj1 (proj2 (proj2 per_day_decomposition)) true _ _ Ha Hl Hmin Hmax)
      as [per_day [H1 [H2 _]]].
    exists per_day. split; [exact H2 | ].
    apply (H1 (mk_date 2024 1 7)). vm_compute. split; discriminate.
Defined.

(* ================================================================== *)
(** * Further properties of [calculate_fee] *)

From Stdlib Require Import Sorted.

(** ** A leave before the arrival *)

(** X1. When the leave instant is before the arrival instant (the
    arrival date a date of the calendar, the leave date before
    9999-12-31) the call raises nothing, adds no amount and returns 0.0:
    on an earlier date the loop body never runs, and on the same date no
    slot sees an overlap. *)
Theorem leave_before_arrival_is_free (fp : bool) (a l : datetime) :
  date_min <= dt_date a -> dt_date l < date_max ->
  dt_ltb l a = true ->
  charges fp a l = Ok [] /\ calculate_fee fp a l = Ok 0%float.
Proof.
  intros Hmin Hmax Hlt.
  destruct (Z.ltb_spec (dt_date l) (dt_date a)) as [Hd | Hd].
  - unfold charges, calculate_fee. rewrite (run_no_day fp a l Hd). split; reflexivity.
  - destruct a as [ad ta], l as [ld tl]. cbn [dt_date] in Hd, Hmin, Hmax.
    assert (ld = ad /\ tl < ta) as [-> Ht].
    { revert Hlt. clear -Hd. dt_cases; intros; try discriminate; lia. }
    assert (day_charges fp (combine ad ta) (combine ad tl) ad = Ok []) as Hday.
    { rewrite day_charges_unfold, RATES_weekday. cbn [bind].
      rewrite slot2_fee_no_overlap by (clear -Ht; dt_cases; reflexivity).
      rewrite slot3_fee_no_overlap by (clear -Ht; dt_cases; reflexivity).
      cbn [bind]. rewrite slot1_fee_touch.
      replace (Z.max _ _ <=? Z.min _ _) with false
        by (clear -Ht; dt_cases; reflexivity).
      reflexivity. }
    destruct (same_day_spec fp ad ta tl [] Hmin Hmax Hday) as [H1 H2].
    split; [exact H1 | ]. rewrite H2. reflexivity.
Qed.

Lemma leave_before_arrival_is_free_witness :
  date_min <= dt_date (mk_datetime 2024 1 1 7 30)
  /\ dt_date (mk_datetime 2024 1 1 7 0) < date_max
  /\ dt_ltb (mk_datetime 2024 1 1 7 0) (mk_datetime 2024 1 1 7 30) = true
  /\ charges true (mk_datetime 2024 1 1 7 30) (mk_datetime 2024 1 1 7 0) = Ok []
  /\ calculate_fee true (mk_datetime 2024 1 1 7 30) (mk_datetime 2024 1 1 7 0)
     = Ok 0%float.
Proof.
  assert (date_min <= dt_date (mk_datetime 2024 1 1 7 30)) as Hmin
    by (vm_compute; discriminate).
  assert (dt_date (mk_datetime 2024 1 1 7 0) < date_max) as Hmax
    by (vm_compute; reflexivity).
  assert (dt_ltb (mk_datetime 2024 1 1 7 0) (mk_datetime 2024 1 1 7 30) = true)
    as H by reflexivity.
  split; [exact Hmin | ]. split; [exact Hmax | ]. split; [exact H | ].
  exact (leave_before_arrival_is_free true _ _ Hmin Hmax H).
Defined.

(** ** The flat slot alone *)

(** X2. A stay that begins and ends on the same day, any date before
    9999-12-31, between 00:00 and 07:59 costs the flat fee, 20.00 or
    10.00 for a frequent parker, whatever its length: the flat slot is
    the only charge. *)
Theorem early_morning_stay_flat_fee (fp : bool) (d : date) (ta tl : time) :
  date_min <= d -> d < date_max ->
  0 <= ta -> ta <= tl -> tl <= mk_time 7 59 0 0 ->
  charges fp (combine d ta) (combine d tl)
  = Ok [ {| c_day := d; c_slot := Slot1;
            c_fee := if fp then 10%float else 20%float |} ]
  /\ calculate_fee fp (combine d ta) (combine d tl)
     = Ok (if fp then 10%float else 20%float).
Proof.
  intros Hmin Hmax H0 Hle H759.
  assert (day_charges fp (combine d ta) (combine d tl) d
          = Ok [ {| c_day := d; c_slot := Slot1;
                    c_fee := if fp then 10%float else 20%float |} ]) as Hday.
  { rewrite day_charges_unfold, RATES_weekday. cbn [bind].
    rewrite slot2_fee_no_overlap by (clear -H0 Hle H759; dt_cases; reflexivity).
    rewrite slot3_fee_no_overlap by (clear -H0 Hle H759; dt_cases; reflexivity).
    cbn [bind]. rewrite slot1_fee_touch.
    replace (Z.max _ _ <=? Z.min _ _) with true
      by (clear -H0 Hle H759; dt_cases; reflexivity).
    reflexivity. }
  destruct (same_day_spec fp d ta tl _ Hmin Hmax Hday) as [H1 H2].
  split; [exact H1 | ]. rewrite H2. destruct fp; reflexivity.
Qed.

Lemma early_morning_stay_flat_fee_witness :
  date_min <= mk_date 2024 1 7
  /\ mk_date 2024 1 7 < date_max
  /\ 0 <= mk_time 0 0 0 0
  /\ mk_time 0 0 0 0 <= mk_time 7 59 0 0
  /\ mk_time 7 59 0 0 <= mk_time 7 59 0 0
  /\ charges false (mk_datetime 2024 1 7 0 0) (mk_datetime 2024 1 7 7 59)
     = Ok [ {| c_day := mk_date 2024 1 7; c_slot := Slot1; c_fee := 20 |} ]
  /\ calculate_fee false (mk_datetime 2024 1 7 0 0) (mk_datetime 2024 1 7 7 59)
     = Ok 20%float.
Proof.
  assert (date_min <= mk_date 2024 1 7) as Hmin by (vm_compute; discriminate).
  assert (mk_date 2024 1 7 < date_max) as Hmax by (vm_compute; reflexivity).
  assert (0 <= mk_time 0 0 0 0) as H1 by (vm_compute; discriminate).
  assert (mk_time 0 0 0 0 <= mk_time 7 59 0 0) as H2 by (vm_compute; discriminate).
  assert (mk_time 7 59 0 0 <= mk_time 7 59 0 0) as H3 by (vm_compute; discriminate).
  split; [exact Hmin | ]. split; [exact Hmax | ].
  split; [exact H1 | ]. split; [exact H2 | ]. split; [exact H3 | ].
  exact (early_morning_stay_flat_fee false (mk_date 2024 1 7) _ _ Hmin Hmax H1 H2 H3).
Defined.

(* ================================================================== *)
(** ** Stays inside one hourly slot *)

Lemma half_even_zero (s : Z) :
  0 <= s <= 1800 -> PyNum.round_half_even_div s 3600 = 0.
Proof.
  intros Hs. unfold PyNum.round_half_even_div.
  rewrite Z.div_small, Z.mod_small by lia. cbv zeta.
  destruct (Z.compare_spec (2 * s) 3600); [reflexivity | reflexivity | lia].
Qed.

Lemma half_even_positive (s : Z) :
  1800 < s -> 0 < PyNum.round_half_even_div s 3600.
Proof.
  intros Hs. unfold PyNum.round_half_even_div. cbv zeta.
  pose proof (Z.div_mod s 3600 ltac:(lia)) as E.
  pose proof (Z.mod_pos_bound s 3600 ltac:(lia)) as B.
  assert (0 <= s / 3600) as Q by (apply Z.div_pos; lia).
  destruct (Z.compare_spec (2 * (s mod 3600)) 3600) as [C | C | C]; try lia.
  destruct (Z.even (s / 3600)); lia.
Qed.

Section OneSlot.

Variable fp : bool.
Variable d : date.
Variables sa sl : Z.
Hypothesis Hlt : sa < sl.

Let a : datetime := combine d (sa * US_PER_SECOND).
Let l : datetime := combine d (sl * US_PER_SECOND).

Lemma daytime_day_charges (m : Z) :
  max_stay (rate_0800_1659 (rates_of (weekday d))) = MaxInt m ->
  8 * 3600 <= sa -> sl <= 16 * 3600 + 59 * 60 ->
  day_charges fp a l d
  = Ok (opt_charge d Slot2
          (if 0 <? PyNum.round_half_even_div (sl - sa) 3600
           then Some (_apply_discount fp
                        (capped_fee m
                           (price_per_hour (rate_0800_1659 (rates_of (weekday d))))
                           (PyNum.round_half_even_div (sl - sa) 3600))
                        (combine d (slot_start Slot2)))
           else None)).
Proof.
  intros Hm H8 H17. subst a l.
  rewrite day_charges_unfold, RATES_weekday. cbn [bind].
  rewrite (slot2_fee_at fp d _ _ _ (sl - sa) m);
    [ | clear -Hlt H8 H17; dt_cases; reflexivity
      | clear -Hlt H8 H17; unfold dt_sub; dt_cases; lia
      | lia | exact Hm].
  rewrite slot3_fee_no_overlap by (clear -Hlt H8 H17; dt_cases; reflexivity).
  cbn [bind]. rewrite slot1_fee_touch.
  replace (Z.max _ _ <=? Z.min _ _) with false
    by (clear -Hlt H8 H17; dt_cases; reflexivity).
  cbn [opt_charge app]. now rewrite app_nil_r.
Qed.

Lemma evening_day_charges :
  17 * 3600 <= sa -> sl <= 23 * 3600 + 59 * 60 + 59 ->
  day_charges fp a l d
  = Ok (opt_charge d Slot3
          (if 0 <? PyNum.round_half_even_div (sl - sa) 3600
           then Some (_apply_discount fp
                        (PyNum.float_of_int (PyNum.round_half_even_div (sl - sa) 3600)
                         * 5)%float
                        (combine d (slot_start Slot3)))
           else None)).
Proof.
  intros H17 H24. subst a l.
  rewrite day_charges_unfold, RATES_weekday. cbn [bind].
  rewrite slot2_fee_no_overlap by (clear -Hlt H17 H24; dt_cases; reflexivity).
  rewrite (slot3_fee_at fp d _ _ _ (sl - sa));
    [ | clear -Hlt H17 H24; dt_cases; reflexivity
      | clear -Hlt H17 H24; unfold dt_sub; dt_cases; lia
      | lia].
  cbn [bind]. rewrite slot1_fee_touch, rates_of_evening.
  replace (Z.max _ _ <=? Z.min _ _) with false
    by (clear -Hlt H17 H24; dt_cases; reflexivity).
  reflexivity.
Qed.

End OneSlot.

(** X3. A stay of [sl - sa] whole seconds inside the daytime window of
    one day before 9999-12-31 (08:00 to 16:59) is billed on [h], the
    round-half-to-even of its length in hours: nothing when [h] is 0,
    else one daytime charge,
    [h * price] up to the cap [m] of the weekday and
    [m * price + (h - m) * price * 2] beyond it, with the discount of the
    daytime slot. *)
Theorem daytime_stay_fee (fp : bool) (d : date) (sa sl : Z) (r : day_rates) (m : Z) :
  date_min <= d -> d < date_max ->
  dict_get RATES (weekday d) = Ok r ->
  max_stay (rate_0800_1659 r) = MaxInt m ->
  8 * 3600 <= sa -> sa < sl -> sl <= 16 * 3600 + 59 * 60 ->
  let h := PyNum.round_half_even_div (sl - sa) 3600 in
  let p := price_per_hour (rate_0800_1659 r) in
  let fee :=
    _apply_discount fp
      (if h <=? m then (PyNum.float_of_int h * p)%float
       else (PyNum.float_of_int m * p + PyNum.float_of_int (h - m) * p * 2)%float)
      (combine d (mk_time 8 0 0 0)) in
  charges fp (combine d (sa * US_PER_SECOND)) (combine d (sl * US_PER_SECOND))
  = Ok (if 0 <? h then [ {| c_day := d; c_slot := Slot2; c_fee := fee |} ] else [])
  /\ calculate_fee fp (combine d (sa * US_PER_SECOND)) (combine d (sl * US_PER_SECOND))
     = Ok (if 0 <? h then PyNum.round2 (0 + fee)%float else 0%float).
Proof.
  intros Hmin Hmax Hr Hm H8 Hlt H17 h p fee.
  rewrite RATES_weekday in Hr. injection Hr as Hr. subst r.
  pose proof (daytime_day_charges fp d sa sl Hlt m Hm H8 H17) as Hday.
  destruct (same_day_spec fp d _ _ _ Hmin Hmax Hday) as [H1 H2].
  rewrite H1, H2. fold h. unfold capped_fee. fold p.
  destruct (0 <? h); split; reflexivity.
Qed.

Lemma daytime_stay_fee_witness :
  charges true (combine (mk_date 2024 1 6) (36000 * US_PER_SECOND))
    (combine (mk_date 2024 1 6) (54060 * US_PER_SECOND))
  = Ok [ {| c_day := mk_date 2024 1 6; c_slot := Slot2;
            c_fee := ((PyNum.float_of_int 4 * 3
                       + PyNum.float_of_int 1 * 3 * 2) * nine_tenths)%float |} ]
  /\ calculate_fee true (combine (mk_date 2024 1 6) (36000 * US_PER_SECOND))
       (combine (mk_date 2024 1 6) (54060 * US_PER_SECOND))
     = Ok (162 / 10)%float.
Proof.
  apply (daytime_stay_fee true (mk_date 2024 1 6) 36000 54060 saturday_rates 4);
    try reflexivity; try lia; vm_compute; discriminate.
Defined.

(** X4. A stay of [sl - sa] whole seconds inside the evening window of
    one day before 9999-12-31 (17:00 to 23:59:59) is billed [h * 5.00]
    for the rounded hour count [h], with the discount of the evening
    slot and without any cap: the string stored under ["max_stay"] is never read. *)
Theorem evening_stay_fee (fp : bool) (d : date) (sa sl : Z) :
  date_min <= d -> d < date_max ->
  17 * 3600 <= sa -> sa < sl -> sl <= 23 * 3600 + 59 * 60 + 59 ->
  let h := PyNum.round_half_even_div (sl - sa) 3600 in
  let fee :=
    _apply_discount fp (PyNum.float_of_int h * 5)%float
      (combine d (mk_time 17 0 0 0)) in
  charges fp (combine d (sa * US_PER_SECOND)) (combine d (sl * US_PER_SECOND))
  = Ok (if 0 <? h then [ {| c_day := d; c_slot := Slot3; c_fee := fee |} ] else [])
  /\ calculate_fee fp (combine d (sa * US_PER_SECOND)) (combine d (sl * US_PER_SECOND))
     = Ok (if 0 <? h then PyNum.round2 (0 + fee)%float else 0%float).
Proof.
  intros Hmin Hmax H17 Hlt H24 h fee.
  pose proof (evening_day_charges fp d sa sl Hlt H17 H24) as Hday.
  destruct (same_day_spec fp d _ _ _ Hmin Hmax Hday) as [H1 H2].
  rewrite H1, H2. fold h.
  destruct (0 <? h); split; reflexivity.
Qed.

Lemma evening_stay_fee_witness :
  charges true (combine (mk_date 2024 1 1) (61200 * US_PER_SECOND))
    (combine (mk_date 2024 1 1) (86399 * US_PER_SECOND))
  = Ok [ {| c_day := mk_date 2024 1 1; c_slot := Slot3;
            c_fee := (PyNum.float_of_int 7 * 5 * half)%float |} ]
  /\ calculate_fee true (combine (mk_date 2024 1 1) (61200 * US_PER_SECOND))
       (combine (mk_date 2024 1 1) (86399 * US_PER_SECOND))
     = Ok (175 / 10)%float.
Proof.
  apply (evening_stay_fee true (mk_date 2024 1 1) 61200 86399);
    try lia; try reflexivity; vm_compute; discriminate.
Defined.

(** X5. A same-day stay in whole seconds, on a date before 9999-12-31,
    that begins at 08:00 or later is free when it spends at most 30
    minutes in the daytime window (which ends at 16:59:00) and at most
    30 minutes in the evening
    window (from 17:00): both hour counts round to 0, no charge is
    posted and the fee is 0.0.  So is every stay of at most 30 minutes
    inside one window, and so is the 61-minute stay from 16:29 to
    17:30. *)
Theorem short_hourly_stay_is_free (fp : bool) (d : date) (sa sl : Z) :
  date_min <= d -> d < date_max ->
  8 * 3600 <= sa -> sa < sl -> sl <= 23 * 3600 + 59 * 60 + 59 ->
  Z.min sl (16 * 3600 + 59 * 60) - sa <= 30 * 60 ->
  sl - Z.max sa (17 * 3600) <= 30 * 60 ->
  charges fp (combine d (sa * US_PER_SECOND)) (combine d (sl * US_PER_SECOND)) = Ok []
  /\ calculate_fee fp (combine d (sa * US_PER_SECOND)) (combine d (sl * US_PER_SECOND))
     = Ok 0%float.
Proof.
  intros Hmin Hmax H8 Hlt H24 Hday Heve.
  assert (day_charges fp (combine d (sa * US_PER_SECOND))
            (combine d (sl * US_PER_SECOND)) d = Ok []) as Hcs.
  { rewrite day_charges_unfold, RATES_weekday. cbn [bind].
    destruct (rates_of_daytime (weekday d)) as [m [Hm _]].
    assert (slot2_fee fp d (rates_of (weekday d))
              (day_start (combine d (sa * US_PER_SECOND)) d)
              (day_end (combine d (sl * US_PER_SECOND)) d) = Ok None) as ->.
    { destruct (dt_ltb (dt_max (day_start (combine d (sa * US_PER_SECOND)) d)
                          (combine d (slot_start Slot2)))
                       (dt_min (day_end (combine d (sl * US_PER_SECOND)) d)
                          (combine d (slot_end Slot2)))) eqn:Hov.
      - rewrite (slot2_fee_at fp d _ _ _ (Z.min sl (16 * 3600 + 59 * 60) - sa) m Hov);
          [ | clear -H8 Hlt H24 Hday; unfold dt_sub; dt_cases; lia
            | revert Hov; clear -H8 Hlt H24 Hday; dt_cases; intros; try discriminate; lia
            | exact Hm].
        rewrite half_even_zero; [reflexivity | ].
        revert Hov. clear -H8 Hlt H24 Hday. dt_cases; intros; try discriminate; lia.
      - now apply slot2_fee_no_overlap. }
    assert (slot3_fee fp d (rates_of (weekday d))
              (day_start (combine d (sa * US_PER_SECOND)) d)
              (day_end (combine d (sl * US_PER_SECOND)) d) = Ok None) as ->.
    { destruct (dt_ltb (dt_max (day_start (combine d (sa * US_PER_SECOND)) d)
                          (combine d (slot_start Slot3)))
                       (dt_min (day_end (combine d (sl * US_PER_SECOND)) d)
                          (combine d (slot_end Slot3)))) eqn:Hov.
      - rewrite (slot3_fee_at fp d _ _ _ (sl - Z.max sa (17 * 3600)) Hov);
          [ | clear -H8 Hlt H24 Heve; unfold dt_sub; dt_cases; lia
            | revert Hov; clear -H8 Hlt H24 Heve; dt_cases; intros; try discriminate; lia].
        rewrite half_even_zero; [reflexivity | ].
        revert Hov. clear -H8 Hlt H24 Heve. dt_cases; intros; try discriminate; lia.
      - now apply slot3_fee_no_overlap. }
    cbn [bind]. rewrite slot1_fee_touch.
    replace (Z.max _ _ <=? Z.min _ _) with false
      by (clear -H8 Hlt H24; dt_cases; reflexivity).
    reflexivity. }
  destruct (same_day_spec fp d _ _ _ Hmin Hmax Hcs) as [H1 H2].
  rewrite H1, H2. split; reflexivity.
Qed.

Lemma short_hourly_stay_is_free_witness :
  charges false (mk_datetime 2024 1 1 16 29) (mk_datetime 2024 1 1 17 30) = Ok []
  /\ calculate_fee false (mk_datetime 2024 1 1 16 29) (mk_datetime 2024 1 1 17 30)
     = Ok 0%float.
Proof.
  apply (short_hourly_stay_is_free false (mk_date 2024 1 1) 59340 63000);
    try lia; try reflexivity; vm_compute; discriminate.
Defined.

(* ================================================================== *)
(** ** The ledger of a whole-second stay *)

(** The charges of day [d] in a ledger. *)
Definition on_day (d : date) (cs : list charge) : list charge :=
  filter (fun c => c_day c =? d) cs.

Definition slot_index (s : slot) : Z :=
  match s with
  | Slot1 => 0
  | Slot2 => 1
  | Slot3 => 2
  end.

(** A charge comes before another: on an earlier day, or on the same day
    in an earlier slot. *)
Definition charge_before (c1 c2 : charge) : Prop :=
  c_day c1 * 3 + slot_index (c_slot c1) < c_day c2 * 3 + slot_index (c_slot c2).

Lemma StronglySorted_app {A : Type} (R : A -> A -> Prop) (xs ys : list A) :
  StronglySorted R xs -> StronglySorted R ys ->
  (forall x y, In x xs -> In y ys -> R x y) ->
  StronglySorted R (xs ++ ys).
Proof.
  induction xs as [ | x xs IH]; intros Hx Hy Hxy; cbn; [exact Hy | ].
  apply StronglySorted_inv in Hx as [Hx Hall].
  constructor.
  - apply IH; [exact Hx | exact Hy | ]. intros; apply Hxy; cbn; auto.
  - apply Forall_app. split; [exact Hall | ].
    apply Forall_forall. intros y Hin. apply Hxy; cbn; auto.
Qed.

Lemma opt_charge_sorted (d : date) (f1 f2 f3 : option float) :
  StronglySorted charge_before
    (opt_charge d Slot1 f1 ++ opt_charge d Slot2 f2 ++ opt_charge d Slot3 f3).
Proof.
  destruct f1, f2, f3; cbn; repeat constructor; unfold charge_before; cbn; lia.
Qed.

Lemma opt_charge_day (d : date) (f1 f2 f3 : option float) :
  Forall (fun c => c_day c = d)
    (opt_charge d Slot1 f1 ++ opt_charge d Slot2 f2 ++ opt_charge d Slot3 f3).
Proof. destruct f1, f2, f3; cbn; repeat constructor. Qed.

Section Ledger.

Variable fp : bool.
Variables a l : datetime.
Hypothesis Ha : whole_second a.
Hypothesis Hl : whole_second l.

Lemma day_list_shape (d : date) :
  exists f2 f3,
    day_list fp a l d
    = opt_charge d Slot1
        (if flat_touch a l d then Some (if fp then 10%float else 20%float) else None)
      ++ opt_charge d Slot2 f2 ++ opt_charge d Slot3 f3.
Proof.
  destruct (day_charges_shape fp a l Ha Hl d) as [f2 [f3 H]].
  exists f2, f3. unfold day_list. now rewrite H.
Qed.

Lemma day_list_day (d : date) : Forall (fun c => c_day c = d) (day_list fp a l d).
Proof.
  destruct (day_list_shape d) as [f2 [f3 ->]]. apply opt_charge_day.
Qed.

Lemma day_list_sorted (d : date) : StronglySorted charge_before (day_list fp a l d).
Proof.
  destruct (day_list_shape d) as [f2 [f3 ->]]. apply opt_charge_sorted.
Qed.

Lemma days_ledger_range :
  forall (n : nat) (d0 : date),
    Forall (fun c => d0 <= c_day c < d0 + Z.of_nat n)
      (flat_map (day_list fp a l) (days_from d0 n)).
Proof.
  induction n as [ | n IH]; intros d0; cbn [days_from flat_map]; [constructor | ].
  apply Forall_app. split.
  - eapply Forall_impl; [ | apply day_list_day]. cbn. intros c ->. lia.
  - eapply Forall_impl; [ | apply (IH (d0 + 1))]. cbn. intros c Hc. lia.
Qed.

Lemma days_ledger_sorted :
  forall (n : nat) (d0 : date),
    StronglySorted charge_before (flat_map (day_list fp a l) (days_from d0 n)).
Proof.
  induction n as [ | n IH]; intros d0; cbn [days_from flat_map]; [constructor | ].
  apply StronglySorted_app; [apply day_list_sorted | apply IH | ].
  intros x y Hx Hy.
  pose proof (day_list_day d0) as Hd. rewrite Forall_forall in Hd.
  pose proof (days_ledger_range n (d0 + 1)) as Hr. rewrite Forall_forall in Hr.
  specialize (Hd x Hx). specialize (Hr y Hy). cbn in Hr.
  unfold charge_before. destruct (c_slot x), (c_slot y); cbn; lia.
Qed.

Lemma on_day_days (d : date) :
  forall (n : nat) (d0 : date),
    on_day d (flat_map (day_list fp a l) (days_from d0 n))
    = if (d0 <=? d) && (d <? d0 + Z.of_nat n) then day_list fp a l d else [].
Proof.
  induction n as [ | n IH]; intros d0.
  - cbn. destruct (Z.leb_spec d0 d), (Z.ltb_spec d (d0 + 0)); try reflexivity; lia.
  - cbn [days_from flat_map]. unfold on_day in *. rewrite filter_app, IH.
    pose proof (day_list_day d0) as Hd.
    destruct (Z.eqb_spec d0 d) as [-> | Hne].
    + replace (filter _ (day_list fp a l d)) with (day_list fp a l d).
      * destruct (Z.leb_spec (d + 1) d); [lia | ].
        destruct (Z.leb_spec d d); [ | lia].
        destruct (Z.ltb_spec d (d + Z.of_nat (S n))); [ | lia].
        cbn [andb]. now rewrite app_nil_r.
      * symmetry. apply forallb_filter_id. apply forallb_forall.
        rewrite Forall_forall in Hd. intros c Hc. apply Z.eqb_eq. now apply Hd.
    + replace (filter _ (day_list fp a l d0)) with (@nil charge).
      * cbn [app].
        destruct (Z.leb_spec (d0 + 1) d), (Z.leb_spec d0 d),
          (Z.ltb_spec d (d0 + 1 + Z.of_nat n)), (Z.ltb_spec d (d0 + Z.of_nat (S n)));
          try reflexivity; lia.
      * symmetry. induction Hd as [ | c cs Hc Hcs IHcs]; cbn; [reflexivity | ].
        destruct (Z.eqb_spec (c_day c) d); [lia | exact IHcs].
Qed.

End Ledger.

(** X6. On a stay between whole-second instants within the calendar
    (the leave date before 9999-12-31) the call raises nothing; the
    amounts added to [total_fee] come in chronological order (by day,
    then by slot), so with at most one per day and slot; every one is
    for a day from the arrival date to the leave date; and the fee
    returned is their float sum, left to right from 0.0, rounded to two
    decimals. *)
Theorem ledger_invariants (fp : bool) (a l : datetime) :
  whole_second a -> whole_second l ->
  date_min <= dt_date a -> dt_date l < date_max ->
  exists cs,
    charges fp a l = Ok cs
    /\ calculate_fee fp a l = Ok (PyNum.round2 (sum_from 0 cs))
    /\ StronglySorted charge_before cs
    /\ Forall (fun c => dt_date a <= c_day c <= dt_date l) cs.
Proof.
  intros Ha Hl Hmin Hmax. exists (flat_map (day_list fp a l) (stay_days a l)).
  split; [now apply charges_ok | ].
  split; [now apply calculate_fee_ok | ].
  split; [now apply days_ledger_sorted | ].
  unfold stay_days.
  eapply Forall_impl; [ | apply (days_ledger_range fp a l Ha Hl)].
  cbn. intros c Hc. lia.
Qed.

Lemma ledger_invariants_witness :
  whole_second (mk_datetime 2024 1 5 23 0)
  /\ whole_second (mk_datetime 2024 1 8 9 0)
  /\ date_min <= dt_date (mk_datetime 2024 1 5 23 0)
  /\ dt_date (mk_datetime 2024 1 8 9 0) < date_max
  /\ exists cs,
       charges true (mk_datetime 2024 1 5 23 0) (mk_datetime 2024 1 8 9 0) = Ok cs
       /\ calculate_fee true (mk_datetime 2024 1 5 23 0) (mk_datetime 2024 1 8 9 0)
          = Ok (PyNum.round2 (sum_from 0 cs))
       /\ StronglySorted charge_before cs
       /\ Forall (fun c => mk_date 2024 1 5 <= c_day c <= mk_date 2024 1 8) cs.
Proof.
  pose proof (mk_datetime_whole_second 2024 1 5 23 0) as Ha.
  pose proof (mk_datetime_whole_second 2024 1 8 9 0) as Hl.
  assert (date_min <= dt_date (mk_datetime 2024 1 5 23 0)) as Hmin
    by (vm_compute; discriminate).
  assert (dt_date (mk_datetime 2024 1 8 9 0) < date_max) as Hmax
    by (vm_compute; reflexivity).
  split; [exact Ha | ]. split; [exact Hl | ].
  split; [exact Hmin | ]. split; [exact Hmax | ].
  exact (ledger_invariants true _ _ Ha Hl Hmin Hmax).
Defined.

(* ================================================================== *)
(** ** A day covered from midnight to midnight *)

Lemma full_day_day_charges (fp : bool) (a l : datetime) (d : date) :
  dt_date a < d < dt_date l ->
  day_charges fp a l d
  = Ok [ {| c_day := d; c_slot := Slot1; c_fee := if fp then 10%float else 20%float |};
         {| c_day := d; c_slot := Slot2;
            c_fee :=
              let base := if weekday d <=? 4 then 160%float
                          else if weekday d =? 5 then 42%float else 20%float in
              if fp then (base * nine_tenths)%float else base |};
         {| c_day := d; c_slot := Slot3;
            c_fee := if fp then (35 * half)%float else 35%float |} ].
Proof.
  intros Hd. rewrite day_charges_unfold, RATES_weekday. cbn [bind].
  destruct (rates_of_daytime (weekday d)) as [m [Hm _]].
  rewrite (slot2_fee_at fp d _ _ _ 32340 m);
    [ | clear -Hd; dt_cases; reflexivity
      | clear -Hd; unfold dt_sub; dt_cases; lia
      | lia | exact Hm].
  rewrite (slot3_fee_at fp d _ _ _ 25199);
    [ | clear -Hd; dt_cases; reflexivity
      | clear -Hd; unfold dt_sub; dt_cases; lia
      | lia].
  cbn [bind]. rewrite slot1_fee_touch.
  replace (Z.max _ _ <=? Z.min _ _) with true by (clear -Hd; dt_cases; reflexivity).
  rewrite rates_of_evening, discount_daytime, discount_evening.
  revert Hm. unfold rates_of.
  destruct (weekday d <=? 4); [ | destruct (weekday d =? 5)];
    cbn [max_stay rate_0800_1659 price_per_hour]; intros [= <-];
    destruct fp; reflexivity.
Qed.

(** X7. Every calendar day [d] strictly between the arrival date and
    the leave date is charged in all three slots, for 9 daytime hours
    and 7 evening hours: its iteration adds to [total_fee] 20.00, then
    160.00 from Monday to Friday, 42.00 on a Saturday and 20.00 on a
    Sunday, then 35.00; for a frequent parker 10.00, nine tenths of the
    daytime amount, and 17.50.  On a stay between whole-second instants
    within the calendar these are the amounts added for day [d], and the
    fee returned is the sum of all the amounts added, rounded to two
    decimals. *)
Theorem full_day_charges (fp : bool) (a l : datetime) (d : date) :
  dt_date a < d < dt_date l ->
  let flat := if fp then 10%float else 20%float in
  let base := if weekday d <=? 4 then 160%float
              else if weekday d =? 5 then 42%float else 20%float in
  let daytime := if fp then (base * nine_tenths)%float else base in
  let evening := if fp then (35 * half)%float else 35%float in
  let day_cs := [ {| c_day := d; c_slot := Slot1; c_fee := flat |};
                  {| c_day := d; c_slot := Slot2; c_fee := daytime |};
                  {| c_day := d; c_slot := Slot3; c_fee := evening |} ] in
  (forall st,
      day_body fp a l d st
      = Ok {| total_fee := (total_fee st + flat + daytime + evening)%float;
              ledger := ledger st ++ day_cs |})
  /\ (whole_second a -> whole_second l ->
      date_min <= dt_date a -> dt_date l < date_max ->
      exists cs,
        charges fp a l = Ok cs
        /\ on_day d cs = day_cs
        /\ calculate_fee fp a l = Ok (PyNum.round2 (sum_from 0 cs))).
Proof.
  intros Hd flat base daytime evening day_cs.
  pose proof (full_day_day_charges fp a l d Hd) as Hday. cbv zeta in Hday.
  fold flat base daytime evening day_cs in Hday.
  split.
  - intros st. rewrite day_body_charges, Hday. cbn [bind]. f_equal.
    rewrite (post_all_fields st day_cs). reflexivity.
  - intros Ha Hl Hmin Hmax. exists (flat_map (day_list fp a l) (stay_days a l)).
    split; [now apply charges_ok | ].
    split; [ | now apply calculate_fee_ok].
    unfold stay_days. rewrite (on_day_days fp a l Ha Hl d).
    destruct (Z.leb_spec (dt_date a) d); [ | lia].
    destruct (Z.ltb_spec d (dt_date a + Z.of_nat (Z.to_nat (dt_date l - dt_date a + 1))));
      [ | lia].
    cbn [andb]. unfold day_list. now rewrite Hday.
Qed.

Lemma full_day_charges_witness :
  mk_date 2024 1 5 < mk_date 2024 1 6 < mk_date 2024 1 7
  /\ (forall st,
        day_body true (mk_datetime 2024 1 5 23 0) (mk_datetime 2024 1 7 1 0)
          (mk_date 2024 1 6) st
        = Ok {| total_fee := (total_fee st + 10 + 42 * nine_tenths + 35 * half)%float;
                ledger := ledger st
                          ++ [ {| c_day := mk_date 2024 1 6; c_slot := Slot1;
                                  c_fee := 10 |};
                               {| c_day := mk_date 2024 1 6; c_slot := Slot2;
                                  c_fee := (42 * nine_tenths)%float |};
                               {| c_day := mk_date 2024 1 6; c_slot := Slot3;
                                  c_fee := (35 * half)%float |} ] |}).
Proof.
  assert (mk_date 2024 1 5 < mk_date 2024 1 6 < mk_date 2024 1 7) as Hd
    by (vm_compute; split; reflexivity).
  split; [exact Hd | ].
  exact (proj1 (full_day_charges true (mk_datetime 2024 1 5 23 0)
                  (mk_datetime 2024 1 7 1 0) (mk_date 2024 1 6) Hd)).
Defined.

(* ================================================================== *)
(** ** The frequent parker's ledger *)

(** The factor of the discount of a slot. *)
Definition discount_factor (s : slot) : float :=
  match s with
  | Slot2 => nine_tenths
  | Slot1 | Slot3 => half
  end.

Definition discounted (c : charge) : charge :=
  {| c_day := c_day c; c_slot := c_slot c;
     c_fee := (c_fee c * discount_factor (c_slot c))%float |}.

Lemma slot1_fee_frequent (d : date) (r : day_rates) (ds de : datetime) :
  slot1_fee true d r ds de
  = option_map (fun fee => (fee * half)%float) (slot1_fee false d r ds de).
Proof. unfold slot1_fee. destruct (_ <=? _); reflexivity. Qed.

Lemma slot2_fee_frequent (d : date) (r : day_rates) (ds de : datetime) :
  slot2_fee true d r ds de
  = rmap (option_map (fun fee => (fee * nine_tenths)%float)) (slot2_fee false d r ds de).
Proof.
  unfold slot2_fee, rmap.
  destruct (dt_ltb _ _); [ | reflexivity].
  destruct (hours_between _ _) as [h | e]; cbn [bind]; [ | reflexivity].
  destruct (0 <? h); [ | reflexivity].
  destruct (max_stay (rate_0800_1659 r)) as [m | s]; cbn [bind]; [ | reflexivity].
  destruct (h <=? m); reflexivity.
Qed.

Lemma slot3_fee_frequent (d : date) (r : day_rates) (ds de : datetime) :
  slot3_fee true d r ds de
  = rmap (option_map (fun fee => (fee * half)%float)) (slot3_fee false d r ds de).
Proof.
  unfold slot3_fee, rmap.
  destruct (dt_ltb _ _); [ | reflexivity].
  destruct (hours_between _ _) as [h | e]; cbn [bind]; [ | reflexivity].
  destruct (0 <? h); reflexivity.
Qed.

Section Frequent.

Variables a l : datetime.

Lemma day_charges_frequent (d : date) :
  day_charges true a l d = rmap (map discounted) (day_charges false a l d).
Proof.
  rewrite !day_charges_unfold. unfold rmap.
  destruct (dict_get RATES (weekday d)) as [r | e]; cbn [bind]; [ | reflexivity].
  rewrite slot1_fee_frequent, slot2_fee_frequent, slot3_fee_frequent. unfold rmap.
  destruct (slot2_fee false d r (day_start a d) (day_end l d)) as [f2 | e];
    cbn [bind]; [ | reflexivity].
  destruct (slot3_fee false d r (day_start a d) (day_end l d)) as [f3 | e];
    cbn [bind]; [ | reflexivity].
  destruct (slot1_fee false d r (day_start a d) (day_end l d)), f2, f3; reflexivity.
Qed.

Lemma while_days_frequent :
  forall (fuel : nat) (d : date) (st1 st2 : acc),
    ledger st1 = map discounted (ledger st2) ->
    rmap ledger (while_days true a l fuel d st1)
    = rmap (fun st => map discounted (ledger st)) (while_days false a l fuel d st2).
Proof.
  induction fuel as [ | fuel IH]; intros d st1 st2 Hst; cbn [while_days];
    destruct (d <=? dt_date l); unfold rmap; cbn [bind];
    try reflexivity; try (now rewrite Hst).
  rewrite !day_body_charges, day_charges_frequent. unfold rmap.
  destruct (day_charges false a l d) as [cs | e]; cbn [bind]; [ | reflexivity].
  destruct (date_add_days d 1) as [next_day | e]; cbn [bind]; [ | reflexivity].
  apply IH. rewrite !ledger_post_all, map_app. now rewrite Hst.
Qed.

End Frequent.

(** X8. Whatever the two instants, the frequent parker's call raises
    exactly when the other call raises, and otherwise its ledger is the
    ledger of the non-frequent call with every fee multiplied by the
    factor of its slot: 0.5 in the flat and evening slots, 0.9 in the
    daytime slot. *)
Theorem frequent_ledger_is_discounted (a l : datetime) :
  charges true a l = rmap (map discounted) (charges false a l).
Proof.
  unfold charges, run.
  pose proof (while_days_frequent a l
                (Z.to_nat (dt_date l - dt_date a + 1)) (dt_date a)
                {| total_fee := 0; ledger := [] |}
                {| total_fee := 0; ledger := [] |} eq_refl) as H.
  unfold rmap in *.
  destruct (while_days true a l _ _ _) as [st1 | e1],
           (while_days false a l _ _ _) as [st2 | e2];
    cbn [bind] in *; congruence.
Qed.

(* ================================================================== *)
(** ** Bounds on the charges *)

(** The most a slot ever charges. *)
Definition slot_cap (s : slot) : float :=
  match s with
  | Slot1 => 20%float
  | Slot2 => 160%float
  | Slot3 => 35%float
  end.

(** A fee is positive and at most the cap of its slot. *)
Definition fee_in_bounds (s : slot) (fee : float) : Prop :=
  PrimFloat.ltb 0 fee = true /\ PrimFloat.leb fee (slot_cap s) = true.

Lemma daytime_fee_in_bounds (fp : bool) (d : date) (w m h : Z) :
  max_stay (rate_0800_1659 (rates_of w)) = MaxInt m ->
  1 <= h <= 9 ->
  fee_in_bounds Slot2
    (_apply_discount fp
       (capped_fee m (price_per_hour (rate_0800_1659 (rates_of w))) h)
       (combine d (slot_start Slot2))).
Proof.
  intros Hm Hh. rewrite discount_daytime. revert Hm. unfold rates_of.
  assert (h = 1 \/ h = 2 \/ h = 3 \/ h = 4 \/ h = 5 \/ h = 6 \/ h = 7 \/ h = 8 \/ h = 9)
    as E by lia.
  destruct (w <=? 4); [ | destruct (w =? 5)];
    cbn [max_stay rate_0800_1659 price_per_hour]; intros [= <-];
    repeat (destruct E as [-> | E]; [destruct fp; vm_compute; split; reflexivity | ]);
    subst h; destruct fp; vm_compute; split; reflexivity.
Qed.

Lemma evening_fee_in_bounds (fp : bool) (d : date) (h : Z) :
  1 <= h <= 7 ->
  fee_in_bounds Slot3
    (_apply_discount fp (PyNum.float_of_int h * 5)%float
       (combine d (slot_start Slot3))).
Proof.
  intros Hh. rewrite discount_evening.
  assert (h = 1 \/ h = 2 \/ h = 3 \/ h = 4 \/ h = 5 \/ h = 6 \/ h = 7) as E by lia.
  repeat (destruct E as [-> | E]; [destruct fp; vm_compute; split; reflexivity | ]).
  subst h; destruct fp; vm_compute; split; reflexivity.
Qed.

Lemma day_list_in_bounds (fp : bool) (a l : datetime) (d : date) :
  whole_second a -> whole_second l ->
  Forall (fun c => fee_in_bounds (c_slot c) (c_fee c)) (day_list fp a l d).
Proof.
  intros Ha Hl. apply (day_list_Forall fp a l Ha Hl).
  - destruct fp; vm_compute; split; reflexivity.
  - intros d' w m h. apply daytime_fee_in_bounds.
  - intros d' h. apply evening_fee_in_bounds.
Qed.

(** X9. On a stay between whole-second instants every amount that an
    iteration of the loop adds to [total_fee] is strictly positive and
    at most 20.00 in the flat slot, 160.00 in the daytime slot (9 hours
    on a weekday) and 35.00 in the evening slot (7 hours): no zero or
    negative amount is ever added.  When the stay lies within the
    calendar (the leave date before 9999-12-31) the fee returned is the
    rounded sum of such amounts. *)
Theorem charges_in_bounds (fp : bool) (a l : datetime) :
  whole_second a -> whole_second l ->
  (forall (d : date) (st : acc),
      exists (day_cs : list charge) (st' : acc),
        day_body fp a l d st = Ok st'
        /\ total_fee st' = sum_from (total_fee st) day_cs
        /\ Forall (fun c => PrimFloat.ltb 0 (c_fee c) = true
                            /\ PrimFloat.leb (c_fee c) (slot_cap (c_slot c)) = true)
             day_cs)
  /\ (date_min <= dt_date a -> dt_date l < date_max ->
  exists cs,
    charges fp a l = Ok cs
    /\ calculate_fee fp a l = Ok (PyNum.round2 (sum_from 0 cs))
    /\ Forall (fun c => PrimFloat.ltb 0 (c_fee c) = true
                        /\ PrimFloat.leb (c_fee c) (slot_cap (c_slot c)) = true) cs).
Proof.
  intros Ha Hl. split.
  - intros d st. destruct (day_body_ok fp a l Ha Hl d st) as [st' [E [T _]]].
    exists (day_list fp a l d), st'. split; [exact E | ]. split; [exact T | ].
    exact (day_list_in_bounds fp a l d Ha Hl).
  - intros Hmin Hmax. exists (flat_map (day_list fp a l) (stay_days a l)).
    split; [now apply charges_ok | ].
    split; [now apply calculate_fee_ok | ].
    apply Forall_flat_map, Forall_forall. intros d _.
    exact (day_list_in_bounds fp a l d Ha Hl).
Qed.

Lemma charges_in_bounds_witness :
  whole_second (mk_datetime 2024 1 1 0 0)
  /\ whole_second (mk_datetime 2024 1 3 23 59)
  /\ date_min <= dt_date (mk_datetime 2024 1 1 0 0)
  /\ dt_date (mk_datetime 2024 1 3 23 59) < date_max
  /\ exists cs,
       charges false (mk_datetime 2024 1 1 0 0) (mk_datetime 2024 1 3 23 59) = Ok cs
       /\ calculate_fee false (mk_datetime 2024 1 1 0 0) (mk_datetime 2024 1 3 23 59)
          = Ok (PyNum.round2 (sum_from 0 cs))
       /\ Forall (fun c => PrimFloat.ltb 0 (c_fee c) = true
                           /\ PrimFloat.leb (c_fee c) (slot_cap (c_slot c)) = true) cs.
Proof.
  pose proof (mk_datetime_whole_second 2024 1 1 0 0) as Ha.
  pose proof (mk_datetime_whole_second 2024 1 3 23 59) as Hl.
  assert (date_min <= dt_date (mk_datetime 2024 1 1 0 0)) as Hmin
    by (vm_compute; discriminate).
  assert (dt_date (mk_datetime 2024 1 3 23 59) < date_max) as Hmax
    by (vm_compute; reflexivity).
  split; [exact Ha | ]. split; [exact Hl | ].
  split; [exact Hmin | ]. split; [exact Hmax | ].
  exact (proj2 (charges_in_bounds false _ _ Ha Hl) Hmin Hmax).
Defined.

(* ================================================================== *)
(** ** The last date of the calendar *)

(** X15. On a stay between whole-second instants whose leave date is
    9999-12-31, [date.max], with an arrival date not after it, the call
    raises [OverflowError]: after the iteration of that last day the
    loop computes [current_day += timedelta(days=1)], which is no date.
    So does the stay from 9999-12-30 23:00 to 9999-12-31 01:00, while
    the stay from 9999-12-30 22:00 to 9999-12-30 23:00 costs 5.00. *)
Theorem last_day_overflow :
  (forall (fp : bool) (a l : datetime),
      whole_second a -> whole_second l ->
      date_min <= dt_date a <= dt_date l -> dt_date l = date_max ->
      calculate_fee fp a l = Raise OverflowError)
  /\ date_max = mk_date 9999 12 31
  /\ date_add_days date_max 1 = Raise OverflowError
  /\ calculate_fee false (mk_datetime 9999 12 30 23 0) (mk_datetime 9999 12 31 1 0)
     = Raise OverflowError
  /\ calculate_fee false (mk_datetime 9999 12 30 22 0) (mk_datetime 9999 12 30 23 0)
     = Ok 5%float.
Proof.
  split; [ | repeat split; vm_compute; reflexivity].
  intros fp a l Ha Hl Hd Hmax.
  exact (proj2 (calculate_fee_overflow fp a l Ha Hl Hd Hmax)).
Qed.

Lemma last_day_overflow_witness :
  whole_second (mk_datetime 9999 12 1 8 0)
  /\ whole_second (mk_datetime 9999 12 31 8 0)
  /\ date_min <= dt_date (mk_datetime 9999 12 1 8 0)
                <= dt_date (mk_datetime 9999 12 31 8 0)
  /\ dt_date (mk_datetime 9999 12 31 8 0) = date_max
  /\ calculate_fee true (mk_datetime 9999 12 1 8 0) (mk_datetime 9999 12 31 8 0)
     = Raise OverflowError.
Proof.
  pose proof (mk_datetime_whole_second 9999 12 1 8 0) as Ha.
  pose proof (mk_datetime_whole_second 9999 12 31 8 0) as Hl.
  assert (date_min <= dt_date (mk_datetime 9999 12 1 8 0)
                   <= dt_date (mk_datetime 9999 12 31 8 0)) as Hd
    by (vm_compute; split; discriminate).
  assert (dt_date (mk_datetime 9999 12 31 8 0) = date_max) as Hmax by reflexivity.
  split; [exact Ha | ]. split; [exact Hl | ]. split; [exact Hd | ].
  split; [exact Hmax | ].
  exact (proj1 last_day_overflow true _ _ Ha Hl Hd Hmax).
Defined.

(* ================================================================== *)
(** ** The fee of a non-frequent parker *)

Lemma days_ledger_length (fp : bool) (a l : datetime) :
  whole_second a -> whole_second l ->
  forall ds : list date,
    (List.length (flat_map (day_list fp a l) ds) <= 3 * List.length ds)%nat.
Proof.
  intros Ha Hl. induction ds as [ | d ds IH]; [cbn; lia | ].
  cbn [flat_map List.length]. rewrite length_app.
  pose proof (day_list_length fp a l d Ha Hl). lia.
Qed.

(** X16. For a non-frequent parker, on a stay between whole-second
    instants within the calendar, every amount added to [total_fee] is
    a whole number from 1 to 160, and the fee returned is exactly their
    sum: binary64 adds whole numbers of this size without error, and
    the rounding to two decimals changes nothing. *)
Theorem nonfrequent_fee_exact (a l : datetime) :
  whole_second a -> whole_second l ->
  date_min <= dt_date a -> dt_date l < date_max ->
  exists (cs : list charge) (ks : list Z),
    charges false a l = Ok cs
    /\ map c_fee cs = map PyNum.float_of_int ks
    /\ Forall (fun k => 1 <= k <= 160) ks
    /\ calculate_fee false a l = Ok (PyNum.float_of_int (int_sum ks)).
Proof.
  intros Ha Hl Hmin Hmax.
  set (cs := flat_map (day_list false a l) (stay_days a l)).
  assert (Forall (fun c => whole_amount (c_fee c)) cs) as Hwhole.
  { apply Forall_flat_map, Forall_forall. intros d _. now apply day_list_whole. }
  destruct (whole_amounts cs Hwhole) as [ks [Hks Hall]].
  exists cs, ks. split; [now apply charges_ok | ].
  split; [exact Hks | ]. split; [exact Hall | ].
  rewrite (calculate_fee_ok false a l Ha Hl Hmin Hmax). fold cs.
  assert (Z.of_nat (List.length ks) <= 3 * 3652058) as Hlen.
  { assert (List.length ks = List.length cs) as ->.
    { rewrite <- (length_map PyNum.float_of_int ks), <- Hks. apply length_map. }
    pose proof (days_ledger_length false a l Ha Hl (stay_days a l)) as Hb.
    fold cs in Hb. unfold stay_days in Hb. rewrite days_from_length in Hb.
    rewrite date_min_eq in Hmin. rewrite date_max_eq in Hmax. lia. }
  pose proof (int_sum_bounds ks Hall) as Hsum.
  change 0%float with (PyNum.float_of_int 0).
  rewrite (sum_from_ints ks Hall cs 0 Hks)
    by (change (2 ^ 53) with 9007199254740992; lia).
  rewrite Z.add_0_l. f_equal. apply round2_int.
  change (2 ^ 53) with 9007199254740992. lia.
Qed.

Lemma nonfrequent_fee_exact_witness :
  whole_second (mk_datetime 2024 1 1 10 0)
  /\ whole_second (mk_datetime 2024 1 3 12 0)
  /\ date_min <= dt_date (mk_datetime 2024 1 1 10 0)
  /\ dt_date (mk_datetime 2024 1 3 12 0) < date_max
  /\ exists (cs : list charge) (ks : list Z),
       charges false (mk_datetime 2024 1 1 10 0) (mk_datetime 2024 1 3 12 0) = Ok cs
       /\ map c_fee cs = map PyNum.float_of_int ks
       /\ Forall (fun k => 1 <= k <= 160) ks
       /\ calculate_fee false (mk_datetime 2024 1 1 10 0) (mk_datetime 2024 1 3 12 0)
          = Ok (PyNum.float_of_int (int_sum ks)).
Proof.
  pose proof (mk_datetime_whole_second 2024 1 1 10 0) as Ha.
  pose proof (mk_datetime_whole_second 2024 1 3 12 0) as Hl.
  assert (date_min <= dt_date (mk_datetime 2024 1 1 10 0)) as Hmin
    by (vm_compute; discriminate).
  assert (dt_date (mk_datetime 2024 1 3 12 0) < date_max) as Hmax
    by (vm_compute; reflexivity).
  split; [exact Ha | ]. split; [exact Hl | ].
  split; [exact Hmin | ]. split; [exact Hmax | ].
  exact (nonfrequent_fee_exact _ _ Ha Hl Hmin Hmax).
Defined.

(* ================================================================== *)
(** * [validators.py]

    A [str] is modelled as a [string], a sequence of characters whose
    code points are below 256; on these, the decimal digits ([\d],
    [int]) are ['0'] to ['9'], and [str.isdigit] also holds of the
    superscript digits U+00B2, U+00B3 and U+00B9. *)

From Stdlib Require Import Ascii.

Module Validators.

(** The code point of a character. *)
Definition code (c : ascii) : Z := Z.of_N (N_of_ascii c).

(** A decimal digit: what [\d] matches and [int] reads. *)
Definition char_isdecimal (c : ascii) : bool :=
  (48 <=? code c) && (code c <=? 57).

(** [c.isdigit()] *)
Definition char_isdigit (c : ascii) : bool :=
  char_isdecimal c || (code c =? 178) || (code c =? 179) || (code c =? 185).

Fixpoint all_chars (p : ascii -> bool) (s : string) : bool :=
  match s with
  | EmptyString => true
  | String c s' => p c && all_chars p s'
  end.

(** [s.isdigit()]: every character is a digit and there is at least
    one. *)
Definition isdigit (s : string) : bool :=
  match s with
  | EmptyString => false
  | String _ _ => all_chars char_isdigit s
  end.

(** [len(s)] *)
Definition len (s : string) : Z := Z.of_nat (String.length s).

(** [int(d)] for a one-character string [d]. *)
Definition int_of_char (c : ascii) : result Z :=
  if char_isdecimal c then Ok (code c - 48) else Raise ValueError.

(** [[int(d) for d in number_str]] *)
Fixpoint digits_of (number_str : string) : result (list Z) :=
  match number_str with
  | EmptyString => Ok []
  | String d rest =>
      n <- int_of_char d ;;
      ns <- digits_of rest ;;
      Ok (n :: ns)
  end.

(** [validate_frequent_parking_number(number_str)].  The list [digits]
    has five elements where it is indexed, so no index is out of
    range. *)
Definition validate_frequent_parking_number (number_str : string) : result bool :=
  if negb (isdigit number_str) || negb (len number_str =? 5) then Ok false
  else
    digits <- digits_of number_str ;;
    let s := nth 0 digits 0 * 2 + nth 1 digits 0 * 3
             + nth 2 digits 0 * 4 + nth 3 digits 0 * 5 in
    let r := s mod 11 in
    Ok (r =? nth 4 digits 0).

End Validators.

Import Validators.

(* ================================================================== *)
(** ** The frequent parking number *)

(** The character of the decimal digit [d]. *)
Definition digit_char (d : Z) : ascii := ascii_of_N (Z.to_N (48 + d)).

(** The string of a list of decimal digits. *)
Fixpoint digits_str (ds : list Z) : string :=
  match ds with
  | [] => EmptyString
  | d :: ds' => String (digit_char d) (digits_str ds')
  end.

Definition is_digit (d : Z) : Prop := 0 <= d <= 9.

(** The check of the number of the digits [ds]. *)
Definition checksum_ok (ds : list Z) : bool :=
  (nth 0 ds 0 * 2 + nth 1 ds 0 * 3 + nth 2 ds 0 * 4 + nth 3 ds 0 * 5) mod 11
  =? nth 4 ds 0.

Lemma digit_cases (d : Z) :
  is_digit d ->
  d = 0 \/ d = 1 \/ d = 2 \/ d = 3 \/ d = 4 \/ d = 5 \/ d = 6 \/ d = 7 \/ d = 8 \/ d = 9.
Proof. unfold is_digit. lia. Qed.

Lemma digit_char_decimal (d : Z) : is_digit d -> char_isdecimal (digit_char d) = true.
Proof.
  intros H. apply digit_cases in H.
  repeat (destruct H as [-> | H]; [reflexivity | ]). subst d. reflexivity.
Qed.

Lemma digit_char_code (d : Z) : is_digit d -> code (digit_char d) = 48 + d.
Proof.
  intros H. apply digit_cases in H.
  repeat (destruct H as [-> | H]; [reflexivity | ]). subst d. reflexivity.
Qed.

Lemma decimal_is_digit_char (c : ascii) :
  char_isdecimal c = true -> is_digit (code c - 48) /\ c = digit_char (code c - 48).
Proof.
  unfold char_isdecimal, is_digit, digit_char. intros H.
  apply andb_prop in H as [H1 H2]. apply Z.leb_le in H1, H2.
  split; [lia | ].
  replace (48 + (code c - 48)) with (code c) by lia.
  unfold code. now rewrite N2Z.id, ascii_N_embedding.
Qed.

Lemma digits_of_digits_str (ds : list Z) :
  Forall is_digit ds -> digits_of (digits_str ds) = Ok ds.
Proof.
  induction 1 as [ | d ds Hd Hds IH]; cbn; [reflexivity | ].
  unfold int_of_char. rewrite digit_char_decimal, digit_char_code by exact Hd.
  cbn [bind]. rewrite IH. cbn [bind]. f_equal. f_equal. lia.
Qed.

Lemma all_digits_str (ds : list Z) :
  Forall is_digit ds -> all_chars char_isdigit (digits_str ds) = true.
Proof.
  induction 1 as [ | d ds Hd Hds IH]; cbn; [reflexivity | ].
  rewrite IH. replace (char_isdigit (digit_char d)) with true; [reflexivity | ].
  unfold char_isdigit. now rewrite digit_char_decimal by exact Hd.
Qed.

Lemma length_digits_str (ds : list Z) :
  String.length (digits_str ds) = List.length ds.
Proof. induction ds as [ | d ds IH]; cbn; [reflexivity | now rewrite IH]. Qed.

(** On a string of five decimal digits the validator computes the
    check. *)
Lemma validate_digits (ds : list Z) :
  Forall is_digit ds -> List.length ds = 5%nat ->
  validate_frequent_parking_number (digits_str ds) = Ok (checksum_ok ds).
Proof.
  intros Hds Hlen. unfold validate_frequent_parking_number, isdigit, len.
  rewrite length_digits_str, Hlen.
  pose proof (all_digits_str ds Hds) as Hall.
  destruct ds as [ | d ds]; [discriminate | ].
  cbn [digits_str] in *. rewrite Hall.
  change (Z.of_nat 5 =? 5) with true. cbn [negb orb].
  change (String (digit_char d) (digits_str ds)) with (digits_str (d :: ds)).
  rewrite digits_of_digits_str by exact Hds. reflexivity.
Qed.

Lemma decimal_string (s : string) :
  all_chars char_isdecimal s = true ->
  exists ds, Forall is_digit ds /\ s = digits_str ds.
Proof.
  induction s as [ | c s IH]; cbn; intros H.
  - exists []. split; [constructor | reflexivity].
  - apply andb_prop in H as [Hc Hs].
    destruct (IH Hs) as [ds [Hds ->]].
    destruct (decimal_is_digit_char c Hc) as [Hd Ec].
    exists (code c - 48 :: ds). split; [now constructor | ].
    cbn. now rewrite <- Ec.
Qed.

Lemma digits_of_not_decimal (s : string) :
  all_chars char_isdecimal s = false -> digits_of s = Raise ValueError.
Proof.
  induction s as [ | c s IH]; cbn; [discriminate | ].
  unfold int_of_char. destruct (char_isdecimal c); cbn [andb bind]; [ | reflexivity].
  intros H. now rewrite (IH H).
Qed.

(** X10. [validate_frequent_parking_number] returns [False] on every
    string whose length is not 5 or that is not made of digits, and
    returns a boolean on every string of five decimal digits; on a
    string of five characters that [isdigit] accepts and that holds a
    superscript digit (U+00B2, U+00B3, U+00B9) it raises [ValueError],
    from [int]. *)
Theorem fpn_rejects_or_raises :
  (forall s, len s <> 5 -> validate_frequent_parking_number s = Ok false)
  /\ (forall s, isdigit s = false -> validate_frequent_parking_number s = Ok false)
  /\ (forall s, len s = 5 -> all_chars char_isdecimal s = true ->
        exists b, validate_frequent_parking_number s = Ok b)
  /\ (forall s, len s = 5 -> isdigit s = true ->
        all_chars char_isdecimal s = false ->
        validate_frequent_parking_number s = Raise ValueError).
Proof.
  split; [ | split; [ | split]].
  - intros s H. unfold validate_frequent_parking_number.
    destruct (Z.eqb_spec (len s) 5); [contradiction | ].
    now destruct (isdigit s).
  - intros s H. unfold validate_frequent_parking_number. now rewrite H.
  - intros s Hlen Hdec. destruct (decimal_string s Hdec) as [ds [Hds ->]].
    exists (checksum_ok ds). apply validate_digits; [exact Hds | ].
    unfold len in Hlen. rewrite length_digits_str in Hlen. lia.
  - intros s Hlen Hdig Hdec. unfold validate_frequent_parking_number.
    rewrite Hdig, Hlen. cbn [negb orb Z.eqb Pos.eqb].
    now rewrite (digits_of_not_decimal s Hdec).
Qed.

Lemma fpn_rejects_or_raises_witness :
  validate_frequent_parking_number "1234" = Ok false
  /\ validate_frequent_parking_number "12a45" = Ok false
  /\ validate_frequent_parking_number
       (String "1" (String "2" (String "3" (String "4"
          (String (ascii_of_N 178) EmptyString)))))
     = Raise ValueError.
Proof.
  split; [ | split].
  - apply (proj1 fpn_rejects_or_raises). vm_compute. discriminate.
  - apply (proj1 (proj2 fpn_rejects_or_raises)). reflexivity.
  - apply (proj2 (proj2 (proj2 fpn_rejects_or_raises))); reflexivity.
Defined.

(** X11. For any four decimal digits there is at most one fifth digit
    that makes the number valid: the remainder modulo 11 of
    [2*d0 + 3*d1 + 4*d2 + 5*d3]; when that remainder is 10, no fifth
    digit does. *)
Theorem fpn_check_digit (d0 d1 d2 d3 d4 : Z) :
  is_digit d0 -> is_digit d1 -> is_digit d2 -> is_digit d3 -> is_digit d4 ->
  validate_frequent_parking_number (digits_str [d0; d1; d2; d3; d4])
  = Ok (d4 =? (d0 * 2 + d1 * 3 + d2 * 4 + d3 * 5) mod 11)
  /\ ((d0 * 2 + d1 * 3 + d2 * 4 + d3 * 5) mod 11 = 10 ->
      validate_frequent_parking_number (digits_str [d0; d1; d2; d3; d4]) = Ok false).
Proof.
  intros H0 H1 H2 H3 H4.
  assert (validate_frequent_parking_number (digits_str [d0; d1; d2; d3; d4])
          = Ok (d4 =? (d0 * 2 + d1 * 3 + d2 * 4 + d3 * 5) mod 11)) as E.
  { rewrite validate_digits
      by first [reflexivity
               | repeat (apply Forall_cons; [assumption | ]); apply Forall_nil].
    unfold checksum_ok. cbn [nth]. now rewrite Z.eqb_sym. }
  split; [exact E | ].
  intros Hr. rewrite E, Hr. f_equal. apply Z.eqb_neq. unfold is_digit in H4. lia.
Qed.

Lemma small_is_digit (d : Z) : (0 <=? d) && (d <=? 9) = true -> is_digit d.
Proof. intros H. apply andb_prop in H as [H1 H2]. unfold is_digit. lia. Qed.

Lemma fpn_check_digit_witness :
  validate_frequent_parking_number "12345" = Ok false
  /\ validate_frequent_parking_number "12347" = Ok true.
Proof.
  split.
  - exact (proj1 (fpn_check_digit 1 2 3 4 5
                    (small_is_digit 1 eq_refl) (small_is_digit 2 eq_refl)
                    (small_is_digit 3 eq_refl) (small_is_digit 4 eq_refl)
                    (small_is_digit 5 eq_refl))).
  - exact (proj1 (fpn_check_digit 1 2 3 4 7
                    (small_is_digit 1 eq_refl) (small_is_digit 2 eq_refl)
                    (small_is_digit 3 eq_refl) (small_is_digit 4 eq_refl)
                    (small_is_digit 7 eq_refl))).
Defined.

(** The digits [ds] with the digit at index [i] replaced by [x]. *)
Definition replace_nth (i : nat) (x : Z) (ds : list Z) : list Z :=
  firstn i ds ++ x :: skipn (S i) ds.

(** The digits [ds] with the digits at indices [i] and [i + 1]
    exchanged. *)
Definition swap_adjacent (i : nat) (ds : list Z) : list Z :=
  firstn i ds ++ nth (S i) ds 0 :: nth i ds 0 :: skipn (S (S i)) ds.

Ltac five_digits ds Hds Hlen :=
  destruct ds as [ | d0 [ | d1 [ | d2 [ | d3 [ | d4 [ | d5 ds]]]]]];
  try discriminate Hlen;
  repeat match goal with
         | H : Forall is_digit (_ :: _) |- _ =>
             apply Forall_cons_iff in H; destruct H as [? H]
         end;
  unfold is_digit in *.

(** X12. Changing any single digit of a valid five-digit number to a
    different digit gives a number that the validator rejects. *)
Theorem fpn_detects_single_digit_error (ds : list Z) (i : nat) (x : Z) :
  Forall is_digit ds -> List.length ds = 5%nat ->
  validate_frequent_parking_number (digits_str ds) = Ok true ->
  (i < 5)%nat -> is_digit x -> x <> nth i ds 0 ->
  validate_frequent_parking_number (digits_str (replace_nth i x ds)) = Ok false.
Proof.
  intros Hds Hlen Hok Hi Hx Hne.
  rewrite validate_digits in Hok by assumption.
  injection Hok as Hok. unfold checksum_ok in Hok. apply Z.eqb_eq in Hok.
  five_digits ds Hds Hlen. cbn [nth] in Hok.
  destruct i as [ | [ | [ | [ | [ | i]]]]]; try lia;
    cbn [replace_nth firstn skipn app nth] in *;
    (rewrite validate_digits by (repeat constructor; unfold is_digit; lia));
    unfold checksum_ok; cbn [nth]; f_equal; apply Z.eqb_neq;
    intros Hbad; Z.div_mod_to_equations; lia.
Qed.

(** X13. Exchanging two adjacent digits of a valid five-digit number,
    when they differ, gives a number that the validator rejects. *)
Theorem fpn_detects_adjacent_swap (ds : list Z) (i : nat) :
  Forall is_digit ds -> List.length ds = 5%nat ->
  validate_frequent_parking_number (digits_str ds) = Ok true ->
  (i < 4)%nat -> nth i ds 0 <> nth (S i) ds 0 ->
  validate_frequent_parking_number (digits_str (swap_adjacent i ds)) = Ok false.
Proof.
  intros Hds Hlen Hok Hi Hne.
  rewrite validate_digits in Hok by assumption.
  injection Hok as Hok. unfold checksum_ok in Hok. apply Z.eqb_eq in Hok.
  five_digits ds Hds Hlen. cbn [nth] in Hok.
  destruct i as [ | [ | [ | [ | i]]]]; try lia;
    cbn [swap_adjacent firstn skipn app nth] in *;
    (rewrite validate_digits by (repeat constructor; unfold is_digit; lia));
    unfold checksum_ok; cbn [nth]; f_equal; apply Z.eqb_neq;
    intros Hbad; Z.div_mod_to_equations; lia.
Qed.

Lemma five_digits_12347 : Forall is_digit [1; 2; 3; 4; 7].
Proof.
  repeat (apply Forall_cons; [apply small_is_digit; reflexivity | ]). apply Forall_nil.
Qed.

Lemma fpn_detects_single_digit_error_witness :
  validate_frequent_parking_number "12347" = Ok true
  /\ validate_frequent_parking_number "12847" = Ok false.
Proof.
  assert (validate_frequent_parking_number "12347" = Ok true) as H by reflexivity.
  split; [exact H | ].
  apply (fpn_detects_single_digit_error [1; 2; 3; 4; 7] 2 8 five_digits_12347 eq_refl H).
  - apply Nat.ltb_lt. reflexivity.
  - apply small_is_digit. reflexivity.
  - discriminate.
Defined.

Lemma fpn_detects_adjacent_swap_witness :
  validate_frequent_parking_number "12347" = Ok true
  /\ validate_frequent_parking_number "12374" = Ok false.
Proof.
  assert (validate_frequent_parking_number "12347" = Ok true) as H by reflexivity.
  split; [exact H | ].
  apply (fpn_detects_adjacent_swap [1; 2; 3; 4; 7] 3 five_digits_12347 eq_refl H).
  - apply Nat.ltb_lt. reflexivity.
  - discriminate.
Defined.

(* ================================================================== *)
(** ** The car identity *)

(** The regular expressions that [validate_car_id] needs, and
    [pattern.match] by backtracking: [matches r pos rest k] holds when
    [r] matches a prefix of [rest], the part of the string from index
    [pos], and [k] accepts what follows. *)
Module Re.

Inductive regex : Type :=
| Digit                               (* \d *)
| Range (lo hi : ascii)               (* [lo-hi] *)
| Lit (c : ascii)                     (* a literal character *)
| Seq (r1 r2 : regex)                 (* r1 r2 *)
| Repeat (r : regex) (lo hi : nat)    (* r{lo,hi} *)
| Bol                                 (* ^ *)
| Eol.                                (* $ *)

Fixpoint matches (r : regex) (pos : nat) (rest : string)
    (k : nat -> string -> bool) {struct r} : bool :=
  match r with
  | Digit =>
      match rest with
      | String c s => char_isdecimal c && k (S pos) s
      | EmptyString => false
      end
  | Range lo hi =>
      match rest with
      | String c s => (code lo <=? code c) && (code c <=? code hi) && k (S pos) s
      | EmptyString => false
      end
  | Lit x =>
      match rest with
      | String c s => (code c =? code x) && k (S pos) s
      | EmptyString => false
      end
  | Seq r1 r2 => matches r1 pos rest (fun pos' rest' => matches r2 pos' rest' k)
  | Repeat r lo hi =>
      (fix go (n done pos : nat) (rest : string) {struct n} : bool :=
         match n with
         | O => (lo <=? done)%nat && k pos rest
         | S n' =>
             matches r pos rest (fun pos' rest' => go n' (S done) pos' rest')
             || ((lo <=? done)%nat && k pos rest)
         end) hi O pos rest
  | Bol => (pos =? 0)%nat && k pos rest
  | Eol =>
      (* the end of the string, or just before a newline that ends it *)
      match rest with
      | EmptyString => k pos rest
      | String c EmptyString => (code c =? 10) && k pos rest
      | String _ (String _ _) => false
      end
  end.

(** [bool(pattern.match(s))] *)
Definition match_ (pattern : regex) (s : string) : bool :=
  matches pattern 0 s (fun _ _ => true).

End Re.

(** [r'^\d{2}[A-Z]-\d{4,5}$'] *)
Definition car_id_pattern : Re.regex :=
  Re.Seq Re.Bol
    (Re.Seq (Re.Repeat Re.Digit 2 2)
       (Re.Seq (Re.Range "A" "Z")
          (Re.Seq (Re.Lit "-")
             (Re.Seq (Re.Repeat Re.Digit 4 5) Re.Eol)))).

(** [validate_car_id(car_id)] *)
Definition validate_car_id (car_id : string) : bool :=
  Re.match_ car_id_pattern car_id.

Definition char_isupper (c : ascii) : bool :=
  (65 <=? code c) && (code c <=? 90).

Definition newline : ascii := ascii_of_N 10.

(** The shape of an accepted identity, spelled out. *)
Definition car_id_shape (s : string) : bool :=
  match s with
  | String a (String b (String c (String dash
      (String d1 (String d2 (String d3 (String d4 tail))))))) =>
      char_isdecimal a && char_isdecimal b && char_isupper c
      && (code dash =? 45)
      && char_isdecimal d1 && char_isdecimal d2
      && char_isdecimal d3 && char_isdecimal d4
      && match tail with
         | EmptyString => true
         | String x EmptyString => char_isdecimal x || (code x =? 10)
         | String x (String y EmptyString) => char_isdecimal x && (code y =? 10)
         | _ => false
         end
  | _ => false
  end.

Example car_id_examples :
  map validate_car_id
    ["59C-12345"; "59C-1234"; "59C-123456"; "59c-1234"; "59C-123"; "59C-1234 "]%string
  = [true; true; false; false; false; false]
  /\ validate_car_id (String.append "59C-1234" (String newline EmptyString)) = true
  /\ validate_car_id
       (String.append "59C-1234" (String newline (String newline EmptyString)))
     = false.
Proof. repeat split. Qed.

Ltac bool_cases :=
  repeat (cbn [andb orb negb]; try reflexivity;
          match goal with
          | |- context [char_isdecimal ?x] => destruct (char_isdecimal x)
          | |- context [Z.leb ?x ?y] => destruct (Z.leb x y)
          | |- context [Z.eqb ?x ?y] => destruct (Z.eqb x y)
          end).

Ltac car_id_step :=
  cbn [Re.matches Nat.leb Nat.eqb];
  change (code "A"%char) with 65; change (code "Z"%char) with 90;
  change (code "-"%char) with 45.

Lemma validate_car_id_shape (s : string) : validate_car_id s = car_id_shape s.
Proof.
  unfold validate_car_id, Re.match_, car_id_pattern, car_id_shape, char_isupper.
  destruct s as [ | a [ | b [ | c [ | dash [ | d1 [ | d2 [ | d3 [ | d4 tail]]]]]]]];
    car_id_step; try (bool_cases; fail).
  destruct tail as [ | x [ | y [ | z tail]]]; car_id_step; bool_cases.
Qed.

Lemma code_inj (c c' : ascii) : code c = code c' -> c = c'.
Proof.
  unfold code. intros H. apply N2Z.inj in H.
  rewrite <- (ascii_N_embedding c), <- (ascii_N_embedding c'). now rewrite H.
Qed.

Ltac car_id_finish :=
  cbn; repeat split; auto;
  repeat match goal with
         | Hd : char_isdecimal _ = true |- _ => rewrite Hd; clear Hd
         end;
  reflexivity.

(** X14. [validate_car_id] accepts exactly the strings made of two
    decimal digits, an upper-case letter from A to Z, a hyphen and four
    or five decimal digits, optionally followed by one newline: the [$]
    of the pattern also matches just before a newline that ends the
    string. *)
Theorem car_id_accepted_iff (s : string) :
  validate_car_id s = true
  <-> exists a b c body nl,
        s = String a (String b (String c (String "-" (String.append body nl))))
        /\ char_isdecimal a = true /\ char_isdecimal b = true
        /\ char_isupper c = true
        /\ all_chars char_isdecimal body = true
        /\ (String.length body = 4%nat \/ String.length body = 5%nat)
        /\ (nl = EmptyString \/ nl = String newline EmptyString).
Proof.
  rewrite validate_car_id_shape. split.
  - unfold car_id_shape.
    destruct s as [ | a [ | b [ | c [ | dash [ | d1 [ | d2 [ | d3 [ | d4 tail]]]]]]]];
      try discriminate.
    intros H. do 8 (apply andb_prop in H as [H ?]).
    assert (dash = "-"%char) as -> by (apply code_inj, Z.eqb_eq; assumption).
    destruct tail as [ | x [ | y [ | z tail]]]; try discriminate.
    + exists a, b, c, (String d1 (String d2 (String d3 (String d4 EmptyString)))),
        EmptyString.
      car_id_finish.
    + match goal with Hx : _ || _ = true |- _ => apply orb_prop in Hx as [Hx | Hx] end.
      * exists a, b, c,
          (String d1 (String d2 (String d3 (String d4 (String x EmptyString))))),
          EmptyString.
        car_id_finish.
      * assert (x = newline) as -> by (apply code_inj, Z.eqb_eq; assumption).
        exists a, b, c, (String d1 (String d2 (String d3 (String d4 EmptyString)))),
          (String newline EmptyString).
        car_id_finish.
    + match goal with Hx : _ && _ = true |- _ => apply andb_prop in Hx as [Hx Hy] end.
      assert (y = newline) as -> by (apply code_inj, Z.eqb_eq; assumption).
      exists a, b, c,
        (String d1 (String d2 (String d3 (String d4 (String x EmptyString))))),
        (String newline EmptyString).
      car_id_finish.
  - intros [a [b [c [body [nl [-> [Ha [Hb [Hc [Hbody [Hlen Hnl]]]]]]]]]]].
    unfold car_id_shape.
    destruct body as [ | d1 [ | d2 [ | d3 [ | d4 [ | d5 [ | d6 body]]]]]];
      cbn [String.length] in Hlen; try (destruct Hlen; discriminate);
      cbn [all_chars] in Hbody;
      repeat (apply andb_prop in Hbody as [? Hbody]);
      destruct Hnl as [-> | ->]; cbn [String.append];
      repeat match goal with Hd : _ = true |- _ => rewrite Hd; clear Hd end;
      reflexivity.
Qed.

Lemma car_id_accepted_iff_witness :
  validate_car_id "59C-12345" = true
  /\ validate_car_id (String.append "59C-1234" (String newline EmptyString)) = true.
Proof.
  split.
  - apply (proj2 (car_id_accepted_iff "59C-12345")).
    exists "5"%char, "9"%char, "C"%char, "12345"%string, EmptyString.
    repeat split; auto.
  - apply (proj2 (car_id_accepted_iff _)).
    exists "5"%char, "9"%char, "C"%char, "1234"%string, (String newline EmptyString).
    repeat split; auto.
Defined.
